(** * LaniPrime: job execution and generation pipeline

    A shallow embedding of the server-side services

    - [server/services/content-generation.ts]  (platform table, content
      pipeline, content validator, image step),
    - [server/services/niche-intelligence.ts]  (page scraper, analysis
      validator),
    - [server/services/job-queue.ts]           (submit and status lookup),

    followed by the properties proved about them.

    Conventions of the embedding.
    - A JavaScript string is the list of its UTF-16 code units, so that
      [length] is [String.prototype.length].
    - An [async] function that may reject is a value of [outcome]: [Ok v] for a
      fulfilled promise, [Throw e] for a rejected one.  [try_catch] is the
      [try { } catch (e) { }] statement.
    - Everything outside the repository (the language model, the image
      service, the queue broker, the headless browser, the clock) is a field
      of a record the function takes as its first argument; theorems
      quantify over all of them. *)

From Stdlib Require Import List NArith ZArith Bool Lia String Ascii.
From Stdlib Require Import DecimalString.
Import ListNotations.

Set Warnings "-register-all".


Local Open Scope N_scope.

(* ================================================================== *)
(** ** JavaScript strings *)

(** A string is its sequence of UTF-16 code units. *)
Definition jsstring := list N.

(** Literals of the source are written [js "text"]. *)
Definition js (s : string) : jsstring :=
  map (fun a : ascii => N_of_ascii a) (list_ascii_of_string s).

Fixpoint jsstring_eqb (a b : jsstring) : bool :=
  match a, b with
  | [], [] => true
  | x :: a', y :: b' => N.eqb x y && jsstring_eqb a' b'
  | _, _ => false
  end.

(** [s.length] *)
Definition js_length (s : jsstring) : N := N.of_nat (List.length s).

(** [s.startsWith(prefix)] *)
Fixpoint startsWith (s prefix : jsstring) : bool :=
  match prefix, s with
  | [], _ => true
  | p :: prefix', c :: s' => N.eqb p c && startsWith s' prefix'
  | _ :: _, [] => false
  end.

(** [parts.join(sep)] on an array of strings. *)
Fixpoint join (sep : jsstring) (parts : list jsstring) : jsstring :=
  match parts with
  | [] => []
  | [p] => p
  | p :: rest => p ++ sep ++ join sep rest
  end.

(** [s.split(" ").length]: one more than the number of separators. *)
Definition split_count (sep : N) (s : jsstring) : N :=
  N.succ (N.of_nat (List.length (filter (N.eqb sep) s))).

(** WhiteSpace and LineTerminator code units, the ones [trim] strips. *)
Definition is_js_whitespace (c : N) : bool :=
  (c =? 9) || (c =? 10) || (c =? 11) || (c =? 12) || (c =? 13) || (c =? 32)
  || (c =? 160) || (c =? 5760) || ((8192 <=? c) && (c <=? 8202))
  || (c =? 8232) || (c =? 8233) || (c =? 8239) || (c =? 8287)
  || (c =? 12288) || (c =? 65279).

Fixpoint trimStart (s : jsstring) : jsstring :=
  match s with
  | c :: s' => if is_js_whitespace c then trimStart s' else s
  | [] => []
  end.

(** [s.trim()] *)
Definition trim (s : jsstring) : jsstring :=
  rev (trimStart (rev (trimStart s))).

(** Decimal text of an integer, as [String(n)] prints a safe integer. *)
Definition Z_to_js (z : Z) : jsstring :=
  js (NilEmpty.string_of_int (Z.to_int z)).

Definition N_to_js (n : N) : jsstring := Z_to_js (Z.of_N n).

(* ================================================================== *)
(** ** Thrown values and promise outcomes *)

(** What a [throw] carries.  [instanceof Error] holds of [ErrorObject]
    only; [name] is ["Error"], ["TypeError"], ["SyntaxError"], ... *)
Inductive thrown : Type :=
| ErrorObject (name message : jsstring)
| NonError.

Inductive outcome (A : Type) : Type :=
| Ok (a : A)
| Throw (e : thrown).
Arguments Ok {A} a.
Arguments Throw {A} e.

Definition bind {A B} (m : outcome A) (k : A -> outcome B) : outcome B :=
  match m with
  | Ok a => k a
  | Throw e => Throw e
  end.

Notation "x <- m ;; k" := (bind m (fun x => k))
  (at level 61, m at next level, right associativity).

(** [try { body } catch (e) { handler(e) }] *)
Definition try_catch {A} (body : outcome A) (handler : thrown -> outcome A)
  : outcome A :=
  match body with
  | Ok a => Ok a
  | Throw e => handler e
  end.

(** [error instanceof Error ? error.message : "Unknown error"] *)
Definition message_of (e : thrown) : jsstring :=
  match e with
  | ErrorObject _ m => m
  | NonError => js "Unknown error"
  end.

(** [new Error(msg)] *)
Definition new_Error (msg : jsstring) : thrown := ErrorObject (js "Error") msg.


(* ================================================================== *)
(** ** JSON values and [JSON.parse]

    [JSON.parse] is a built-in of the engine.  It is written out here after
    ECMA-404 so that the parsing step of the pipelines can be run on concrete
    replies.  A number keeps its source text: its conversion to a double is
    the engine's (see [Number_toString] below).  An object keeps its members
    in source order, duplicates included; a property read takes the last. *)

Inductive json : Type :=
| JNull
| JBool (b : bool)
| JNumber (lexeme : jsstring)
| JString (s : jsstring)
| JArray (items : list json)
| JObject (members : list (jsstring * json)).

Inductive parsed (A : Type) : Type :=
| Parsed (a : A) (rest : jsstring)
| SyntaxErr
| OutOfFuel.
Arguments Parsed {A} a rest.
Arguments SyntaxErr {A}.
Arguments OutOfFuel {A}.

(** JSON whitespace: tab, line feed, carriage return, space. *)
Definition is_json_ws (c : N) : bool :=
  (c =? 9) || (c =? 10) || (c =? 13) || (c =? 32).

Fixpoint skip_ws (s : jsstring) : jsstring :=
  match s with
  | c :: s' => if is_json_ws c then skip_ws s' else s
  | [] => []
  end.

Definition is_digit (c : N) : bool := (48 <=? c) && (c <=? 57).

Definition hex_value (c : N) : option N :=
  if (48 <=? c) && (c <=? 57) then Some (c - 48)
  else if (97 <=? c) && (c <=? 102) then Some (c - 87)
  else if (65 <=? c) && (c <=? 70) then Some (c - 55)
  else None.

Definition hex4 (a b c d : N) : option N :=
  match hex_value a, hex_value b, hex_value c, hex_value d with
  | Some x, Some y, Some z, Some w => Some (((x * 16 + y) * 16 + z) * 16 + w)
  | _, _, _, _ => None
  end.

(** The characters of a string literal after its opening quote, up to the
    closing quote; [acc] holds the decoded code units, last first. *)
Fixpoint lex_string (s : jsstring) (acc : jsstring)
  : option (jsstring * jsstring) :=
  match s with
  | [] => None
  | c :: rest =>
    if c =? 34 then Some (rev acc, rest)
    else if c =? 92 then
      match rest with
      | [] => None
      | e :: rest1 =>
        if e =? 34 then lex_string rest1 (34 :: acc)
        else if e =? 92 then lex_string rest1 (92 :: acc)
        else if e =? 47 then lex_string rest1 (47 :: acc)
        else if e =? 98 then lex_string rest1 (8 :: acc)
        else if e =? 102 then lex_string rest1 (12 :: acc)
        else if e =? 110 then lex_string rest1 (10 :: acc)
        else if e =? 114 then lex_string rest1 (13 :: acc)
        else if e =? 116 then lex_string rest1 (9 :: acc)
        else if e =? 117 then
          match rest1 with
          | a :: b :: x :: y :: rest2 =>
            match hex4 a b x y with
            | Some n => lex_string rest2 (n :: acc)
            | None => None
            end
          | _ => None
          end
        else None
      end
    else if c <? 32 then None
    else lex_string rest (c :: acc)
  end.

(** The longest run of decimal digits at the head of [s], and what follows. *)
Fixpoint span_digits (s : jsstring) : jsstring * jsstring :=
  match s with
  | c :: s' =>
    if is_digit c then let (ds, r) := span_digits s' in (c :: ds, r)
    else ([], s)
  | [] => ([], [])
  end.

(** number = [-] int [frac] [exp]; each part returns its text and what
    follows it. *)
Definition lex_sign (s : jsstring) : jsstring * jsstring :=
  match s with
  | c :: r => if c =? 45 then ([45], r) else ([], s)
  | [] => ([], s)
  end.

(** int = 0 | digit1-9 digits *)
Definition lex_int (s : jsstring) : option (jsstring * jsstring) :=
  match span_digits s with
  | ([], _) => None
  | (d :: more, r) =>
    if (d =? 48) && negb (match more with [] => true | _ :: _ => false end)
    then None
    else Some (d :: more, r)
  end.

(** frac = . digits *)
Definition lex_frac (s : jsstring) : option (jsstring * jsstring) :=
  match s with
  | c :: r =>
    if c =? 46 then
      match span_digits r with
      | ([], _) => None
      | (f :: fs, r') => Some (46 :: f :: fs, r')
      end
    else Some ([], s)
  | [] => Some ([], s)
  end.

(** exp = (e | E) [+ | -] digits *)
Definition lex_exp (s : jsstring) : option (jsstring * jsstring) :=
  match s with
  | c :: r =>
    if (c =? 101) || (c =? 69) then
      let (sg, r1) :=
        match r with
        | x :: r' => if (x =? 43) || (x =? 45) then ([x], r') else ([], r)
        | [] => ([], r)
        end in
      match span_digits r1 with
      | ([], _) => None
      | (d :: ds, r2) => Some (c :: sg ++ d :: ds, r2)
      end
    else Some ([], s)
  | [] => Some ([], s)
  end.

Definition lex_number (s : jsstring) : option (jsstring * jsstring) :=
  let (sign, s1) := lex_sign s in
  match lex_int s1 with
  | None => None
  | Some (int, s2) =>
    match lex_frac s2 with
    | None => None
    | Some (frac, s3) =>
      match lex_exp s3 with
      | None => None
      | Some (ex, s4) => Some (sign ++ int ++ frac ++ ex, s4)
      end
    end
  end.

(** value, then the elements of an array after [[], then the members of an
    object after [{]; each call spends one unit of [fuel]. *)
Fixpoint parse_value (fuel : nat) (s : jsstring) {struct fuel} : parsed json :=
  match fuel with
  | O => OutOfFuel
  | S fuel' =>
    match skip_ws s with
    | [] => SyntaxErr
    | c :: rest =>
      if c =? 123 then
        match skip_ws rest with
        | [] => SyntaxErr
        | c' :: rest' =>
          if c' =? 125 then Parsed (JObject []) rest'
          else parse_members fuel' (c' :: rest') []
        end
      else if c =? 91 then
        match skip_ws rest with
        | [] => SyntaxErr
        | c' :: rest' =>
          if c' =? 93 then Parsed (JArray []) rest'
          else parse_elements fuel' (c' :: rest') []
        end
      else if c =? 34 then
        match lex_string rest [] with
        | Some (str, rest') => Parsed (JString str) rest'
        | None => SyntaxErr
        end
      else if startsWith (c :: rest) (js "true")
      then Parsed (JBool true) (skipn 4 (c :: rest))
      else if startsWith (c :: rest) (js "false")
      then Parsed (JBool false) (skipn 5 (c :: rest))
      else if startsWith (c :: rest) (js "null")
      then Parsed JNull (skipn 4 (c :: rest))
      else
        match lex_number (c :: rest) with
        | Some (lexeme, rest') => Parsed (JNumber lexeme) rest'
        | None => SyntaxErr
        end
    end
  end
with parse_elements (fuel : nat) (s : jsstring) (acc : list json)
       {struct fuel} : parsed json :=
  match fuel with
  | O => OutOfFuel
  | S fuel' =>
    match parse_value fuel' s with
    | Parsed v rest =>
      match skip_ws rest with
      | [] => SyntaxErr
      | c :: rest' =>
        if c =? 44 then parse_elements fuel' rest' (v :: acc)
        else if c =? 93 then Parsed (JArray (rev (v :: acc))) rest'
        else SyntaxErr
      end
    | SyntaxErr => SyntaxErr
    | OutOfFuel => OutOfFuel
    end
  end
with parse_members (fuel : nat) (s : jsstring) (acc : list (jsstring * json))
       {struct fuel} : parsed json :=
  match fuel with
  | O => OutOfFuel
  | S fuel' =>
    match skip_ws s with
    | [] => SyntaxErr
    | q :: rest =>
      if q =? 34 then
        match lex_string rest [] with
        | None => SyntaxErr
        | Some (key, rest1) =>
          match skip_ws rest1 with
          | [] => SyntaxErr
          | colon :: rest2 =>
            if colon =? 58 then
              match parse_value fuel' rest2 with
              | Parsed v rest3 =>
                match skip_ws rest3 with
                | [] => SyntaxErr
                | c :: rest4 =>
                  if c =? 44 then parse_members fuel' rest4 ((key, v) :: acc)
                  else if c =? 125
                  then Parsed (JObject (rev ((key, v) :: acc))) rest4
                  else SyntaxErr
                end
              | SyntaxErr => SyntaxErr
              | OutOfFuel => OutOfFuel
              end
            else SyntaxErr
          end
        end
      else SyntaxErr
    end
  end.

(** Fuel that no text exhausts (see [parse_value_fuel]). *)
Definition parse_fuel (text : jsstring) : nat := 2 * List.length text + 2.

(** The [SyntaxError] of [JSON.parse]; the wording of its message is the
    engine's and is not modelled. *)
Definition JSON_SyntaxError : thrown :=
  ErrorObject (js "SyntaxError") (js "Unexpected token in JSON").

(** [JSON.parse(text)] *)
Definition JSON_parse (text : jsstring) : outcome json :=
  match parse_value (parse_fuel text) text with
  | Parsed v rest =>
    match skip_ws rest with
    | [] => Ok v
    | _ :: _ => Throw JSON_SyntaxError
    end
  | SyntaxErr => Throw JSON_SyntaxError
  | OutOfFuel => Throw JSON_SyntaxError
  end.

(* ================================================================== *)
(** ** The model-response parsing step

    The same statements stand in [generateContent] (lines 154-167) and in
    [analyzeNiche] (lines 273-285); only the text of the last error
    differs. *)

(** The suffix of [s] that starts at the first occurrence of [c]; empty when
    [c] does not occur. *)
Fixpoint from_first (c : N) (s : jsstring) : jsstring :=
  match s with
  | [] => []
  | x :: s' => if x =? c then s else from_first c s'
  end.

Definition open_brace : N := 123.
Definition close_brace : N := 125.

(** [text.match(/\{[\s\S]*\}/)]: the match starts at the first [{] and, the
    star being greedy over every code unit, ends at the last [}] after it. *)
Definition match_braces (text : jsstring) : option jsstring :=
  match rev (from_first close_brace (rev (from_first open_brace text))) with
  | [] => None
  | c :: m => Some (c :: m)
  end.

Definition parse_model_reply (failure : jsstring) (textContent : jsstring)
  : outcome json :=
  try_catch (JSON_parse textContent)
    (fun _ =>
       match match_braces textContent with
       | Some jsonMatch => JSON_parse jsonMatch
       | None => Throw (new_Error failure)
       end).

Definition parse_content_reply : jsstring -> outcome json :=
  parse_model_reply (js "Could not parse Claude response as JSON").

Definition parse_analysis_reply : jsstring -> outcome json :=
  parse_model_reply (js "Could not parse Claude analysis as JSON").

(* ================================================================== *)
(** ** Platform specification table *)

Record PlatformSpec : Type := {
  maxLength : Z;
  optimalLength : Z;
  hashtagLimit : Z;
  bestPractices : jsstring
}.

Definition instagram_spec : PlatformSpec :=
  {| maxLength := 2200; optimalLength := 150; hashtagLimit := 30;
     bestPractices := js "Use engaging captions, include call-to-action, leverage hashtags strategically" |}.

Definition facebook_spec : PlatformSpec :=
  {| maxLength := 63206; optimalLength := 250; hashtagLimit := 10;
     bestPractices := js "Focus on storytelling, ask questions to drive engagement, use emojis sparingly" |}.

Definition twitter_spec : PlatformSpec :=
  {| maxLength := 280; optimalLength := 240; hashtagLimit := 3;
     bestPractices := js "Be concise, use threads for longer content, include relevant hashtags" |}.

Definition linkedin_spec : PlatformSpec :=
  {| maxLength := 3000; optimalLength := 150; hashtagLimit := 5;
     bestPractices := js "Professional tone, provide value, share insights, use line breaks for readability" |}.

Definition tiktok_spec : PlatformSpec :=
  {| maxLength := 2200; optimalLength := 100; hashtagLimit := 10;
     bestPractices := js "Short, catchy, trend-aware, use popular sounds and challenges" |}.

(** [PLATFORM_SPECS]: the object literal, as its own keys and values. *)
Definition PLATFORM_SPECS : list (jsstring * PlatformSpec) :=
  [ (js "instagram", instagram_spec);
    (js "facebook", facebook_spec);
    (js "twitter", twitter_spec);
    (js "linkedin", linkedin_spec);
    (js "tiktok", tiktok_spec) ].

(** The names every object literal inherits from [Object.prototype]. *)
Definition Object_prototype_names : list jsstring :=
  [ js "constructor"; js "__defineGetter__"; js "__defineSetter__";
    js "hasOwnProperty"; js "__lookupGetter__"; js "__lookupSetter__";
    js "isPrototypeOf"; js "propertyIsEnumerable"; js "toString";
    js "valueOf"; js "__proto__"; js "toLocaleString" ].

(** What [PLATFORM_SPECS[key]] evaluates to: an entry of the table; or a
    value inherited from [Object.prototype], which is truthy and has none of
    the fields of a spec; or [undefined]. *)
Inductive spec_lookup : Type :=
| OwnSpec (spec : PlatformSpec)
| Inherited
| Undefined.

Fixpoint assoc {A} (key : jsstring) (l : list (jsstring * A)) : option A :=
  match l with
  | [] => None
  | (k, v) :: l' => if jsstring_eqb k key then Some v else assoc key l'
  end.

Definition PLATFORM_SPECS_get (key : jsstring) : spec_lookup :=
  match assoc key PLATFORM_SPECS with
  | Some spec => OwnSpec spec
  | None =>
    if existsb (jsstring_eqb key) Object_prototype_names
    then Inherited else Undefined
  end.

(** [specs.field] once [specs] is not [undefined]. *)
Definition spec_field {A} (field : PlatformSpec -> A) (specs : spec_lookup)
  : option A :=
  match specs with
  | OwnSpec spec => Some (field spec)
  | Inherited | Undefined => None
  end.

(** [x > y] where [y] may be [undefined]: false then. *)
Definition gt_number (x : Z) (y : option Z) : bool :=
  match y with
  | Some y' => Z.gtb x y'
  | None => false
  end.

(* ================================================================== *)
(** ** Requests, results and the runtime *)

(** A value typed [any] that the code only tests for truthiness and passes
    to [JSON.stringify]. *)
Record any_value : Type := {
  any_truthy : bool;
  any_stringified : jsstring
}.

Record NicheContext : Type := {
  nc_industry : option jsstring;
  nc_brandVoice : option any_value;
  nc_keywords : option (list jsstring);
  nc_targetAudience : option any_value
}.

Record ContentGenerationRequest : Type := {
  req_topic : jsstring;
  req_platform : jsstring;
  req_tone : option jsstring;
  req_includeImage : bool;
  req_imageStyle : option jsstring;
  req_nicheContext : option NicheContext
}.

Record GeneratedContent : Type := {
  body : jsstring;
  hashtags : option (list json);
  imageUrl : option jsstring;
  imagePrompt : option jsstring;
  platform : jsstring;
  characterCount : Z;
  estimatedReadTime : option Z
}.

(** The [content] of the reply message: a string, or an array of parts that
    the code only passes to [JSON.stringify]. *)
Inductive message_content : Type :=
| ContentText (text : jsstring)
| ContentParts (stringified : jsstring).

(** A job as the broker hands it out. *)
Record Job : Type := {
  getState : outcome jsstring;
  returnvalue : option json;
  failedReason : option jsstring
}.

(** Everything the services import or read from their environment. *)
Record Runtime : Type := {
  (** Number::toString of the double a JSON number denotes *)
  Number_toString : jsstring -> jsstring;
  (** String.prototype.toUpperCase *)
  toUpperCase : jsstring -> jsstring;
  (** [invokeLLM] on the system and user messages, down to
      [response.choices[0].message.content]; [None] is [undefined]/[null] *)
  invokeLLM : jsstring -> jsstring -> outcome (option message_content);
  (** [process.env.OPENAI_API_KEY] *)
  OPENAI_API_KEY : option jsstring;
  (** [openai.images.generate] on a prompt, down to
      [response.data?.[0]?.url] *)
  images_generate : jsstring -> outcome (option jsstring);
  (** [process.env.REDIS_HOST || process.env.REDIS_URL] is truthy *)
  REDIS_AVAILABLE : bool;
  (** [require("bullmq")] succeeds *)
  bullmq_loaded : bool;
  (** [Date.now()] *)
  Date_now : N;
  (** [new Queue(name, ...)] then [queue.add(jobName, data, ...)], down to
      [job.id] *)
  queue_add :
    jsstring -> jsstring -> ContentGenerationRequest -> outcome (option jsstring);
  (** [new Queue(name, ...)] then [queue.getJob(jobId)] *)
  queue_getJob : jsstring -> jsstring -> outcome (option Job)
}.

(** [Queue] is assigned at module load only under [REDIS_AVAILABLE]. *)
Definition Queue_defined (rt : Runtime) : bool :=
  REDIS_AVAILABLE rt && bullmq_loaded rt.

(* ================================================================== *)
(** ** Reading a parsed reply: the dynamic part of JavaScript *)

Definition nl : jsstring := [10].
Definition dquote : jsstring := [34].

Definition is_empty (s : jsstring) : bool :=
  match s with
  | [] => true
  | _ :: _ => false
  end.

(** [new TypeError(msg)], as the engine raises it; the texts are V8's. *)
Definition TypeError (msg : jsstring) : thrown :=
  ErrorObject (js "TypeError") msg.

(** The own property [key] of a parsed object: the last member so named. *)
Definition get_member (key : jsstring) (members : list (jsstring * json))
  : option json :=
  fold_left
    (fun found kv => if jsstring_eqb (fst kv) key then Some (snd kv) else found)
    members None.

(** [v.key] for a key that no built-in prototype defines ([body] and
    [hashtags] are such keys); [None] is [undefined]. *)
Definition property_of (v : json) (key : jsstring) : outcome (option json) :=
  match v with
  | JNull =>
    Throw (TypeError (js "Cannot read properties of null (reading '"
                        ++ key ++ js "')"))
  | JObject members => Ok (get_member key members)
  | JBool _ | JNumber _ | JString _ | JArray _ => Ok None
  end.

(** ToBoolean *)
Definition truthy (rt : Runtime) (v : option json) : bool :=
  match v with
  | None => false
  | Some JNull => false
  | Some (JBool b) => b
  | Some (JNumber lexeme) =>
    negb (jsstring_eqb (Number_toString rt lexeme) (js "0"))
  | Some (JString s) => negb (is_empty s)
  | Some (JArray _) | Some (JObject _) => true
  end.

(** [v || fallback] *)
Definition or_default (rt : Runtime) (v : option json) (fallback : json)
  : json :=
  match v with
  | Some x => if truthy rt v then x else fallback
  | None => fallback
  end.

Section JoinBy.
Variable text_of : json -> outcome jsstring.
Variable sep : jsstring.

(** [Array.prototype.join]: the elements' texts, in order, [sep] between. *)
Fixpoint join_by (items : list json) : outcome jsstring :=
  match items with
  | [] => Ok []
  | [x] => text_of x
  | x :: rest =>
    a <- text_of x ;;
    b <- join_by rest ;;
    Ok (a ++ sep ++ b)
  end.

End JoinBy.

(** ToString of a parsed value.  An array prints as [join(",")], where
    [null] elements print as nothing; an object prints through the inherited
    [toString] unless an own member of that name, which cannot be a
    function, hides it. *)
Fixpoint ToString (rt : Runtime) (v : json) {struct v} : outcome jsstring :=
  match v with
  | JNull => Ok (js "null")
  | JBool true => Ok (js "true")
  | JBool false => Ok (js "false")
  | JNumber lexeme => Ok (Number_toString rt lexeme)
  | JString s => Ok s
  | JArray items =>
    join_by
      (fun x => match x with JNull => Ok [] | _ => ToString rt x end)
      (js ",") items
  | JObject members =>
    match get_member (js "toString") members with
    | Some _ => Throw (TypeError (js "Cannot convert object to primitive value"))
    | None => Ok (js "[object Object]")
    end
  end.

(** The text [join] gives one element: nothing for [null]. *)
Definition element_text (rt : Runtime) (x : json) : outcome jsstring :=
  match x with
  | JNull => Ok []
  | _ => ToString rt x
  end.

(* ================================================================== *)
(** ** generateContent *)

(** [x || fallback] on a string that may be [undefined]. *)
Definition or_string (x : option jsstring) (fallback : jsstring) : jsstring :=
  match x with
  | Some (c :: s) => c :: s
  | Some [] | None => fallback
  end.

(** [JSON.stringify(v || {})] *)
Definition stringify_or_empty (v : option any_value) : jsstring :=
  match v with
  | Some a => if any_truthy a then any_stringified a else js "{}"
  | None => js "{}"
  end.

(** A template substitution of a value that may be [undefined]. *)
Definition show_number (x : option Z) : jsstring :=
  match x with
  | Some z => Z_to_js z
  | None => js "undefined"
  end.

Definition show_string (x : option jsstring) : jsstring :=
  match x with
  | Some s => s
  | None => js "undefined"
  end.

Definition nicheContextStr (nicheContext : option NicheContext) : jsstring :=
  match nicheContext with
  | Some nc =>
    nl ++ js "Brand Context:" ++ nl
    ++ js "- Industry: " ++ or_string (nc_industry nc) (js "General") ++ nl
    ++ js "- Brand Voice: " ++ stringify_or_empty (nc_brandVoice nc) ++ nl
    ++ js "- Target Audience: " ++ stringify_or_empty (nc_targetAudience nc) ++ nl
    ++ js "- Keywords: "
    ++ or_string (option_map (join (js ", ")) (nc_keywords nc)) (js "None")
    ++ nl
  | None => []
  end.

(** Requirement 6 of the template, present when [nicheContext?.brandVoice]
    is truthy. *)
Definition brand_voice_line (nicheContext : option NicheContext) : jsstring :=
  match nicheContext with
  | Some nc =>
    match nc_brandVoice nc with
    | Some a =>
      if any_truthy a
      then js "6. Match the brand voice: " ++ any_stringified a
      else []
    | None => []
    end
  | None => []
  end.

(** The prompt template.  Reading [specs.maxLength] is the first use of
    [specs]: on [undefined] the engine raises a TypeError there. *)
Definition build_prompt (rt : Runtime) (request : ContentGenerationRequest)
    (tone : jsstring) (specs : spec_lookup) : outcome jsstring :=
  let platform := req_platform request in
  match specs with
  | Undefined =>
    Throw (TypeError
             (js "Cannot read properties of undefined (reading 'maxLength')"))
  | OwnSpec _ | Inherited =>
    Ok (js "You are an expert social media content creator. Generate engaging "
        ++ platform ++ js " content about the following topic." ++ nl
        ++ nl
        ++ js "Topic: " ++ req_topic request ++ nl
        ++ nl
        ++ nicheContextStr (req_nicheContext request) ++ nl
        ++ nl
        ++ js "Platform: " ++ toUpperCase rt platform ++ nl
        ++ js "Tone: " ++ tone ++ nl
        ++ js "Character Limit: " ++ show_number (spec_field maxLength specs)
        ++ js " (optimal: " ++ show_number (spec_field optimalLength specs)
        ++ js ")" ++ nl
        ++ js "Hashtag Limit: " ++ show_number (spec_field hashtagLimit specs) ++ nl
        ++ js "Best Practices: " ++ show_string (spec_field bestPractices specs) ++ nl
        ++ nl
        ++ js "Requirements:" ++ nl
        ++ js "1. Create compelling, " ++ tone
        ++ js " content that resonates with the target audience" ++ nl
        ++ js "2. Stay within the optimal character count ("
        ++ show_number (spec_field optimalLength specs) ++ js " characters)" ++ nl
        ++ js "3. Include " ++ show_number (spec_field hashtagLimit specs)
        ++ js " relevant hashtags at the end" ++ nl
        ++ js "4. Follow " ++ platform ++ js " best practices" ++ nl
        ++ js "5. Make it engaging and actionable" ++ nl
        ++ brand_voice_line (req_nicheContext request) ++ nl
        ++ nl
        ++ js "Return ONLY a JSON object with this exact structure:" ++ nl
        ++ js "{" ++ nl
        ++ js "  " ++ dquote ++ js "body" ++ dquote ++ js ": " ++ dquote
        ++ js "The main content text without hashtags" ++ dquote ++ js "," ++ nl
        ++ js "  " ++ dquote ++ js "hashtags" ++ dquote ++ js ": ["
        ++ dquote ++ js "hashtag1" ++ dquote ++ js ", "
        ++ dquote ++ js "hashtag2" ++ dquote ++ js ", "
        ++ dquote ++ js "hashtag3" ++ dquote ++ js "]" ++ nl
        ++ js "}" ++ nl
        ++ nl
        ++ js "Do not include any markdown formatting, code blocks, or explanatory text. Just the raw JSON object.")
  end.

Definition system_message : jsstring :=
  js "You are an expert social media content creator. Generate engaging content that resonates with target audiences. Always respond with valid JSON only.".

(** [if (!content) throw ...] then
    [typeof content === 'string' ? content : JSON.stringify(content)] *)
Definition text_of_content (content : option message_content)
  : outcome jsstring :=
  match content with
  | None | Some (ContentText []) =>
    Throw (new_Error (js "Empty response from Claude"))
  | Some (ContentText (c :: s)) => Ok (c :: s)
  | Some (ContentParts stringified) => Ok stringified
  end.

(** [Math.ceil(n / 200)] for a count [n]. *)
Definition ceil_div_200 (n : N) : Z := Z.of_N ((n + 199) / 200).

(** Lines 169-187: the fields of the result out of the parsed reply.  A
    truthy [body] that is not a string has no [split], a truthy [hashtags]
    that is not an array has no [join]: the engine raises a TypeError. *)
Definition content_of_reply (rt : Runtime) (platform : jsstring)
    (parsedContent : json) : outcome GeneratedContent :=
  body_v <- property_of parsedContent (js "body") ;;
  hashtags_v <- property_of parsedContent (js "hashtags") ;;
  let body := or_default rt body_v (JString []) in
  let hashtags := or_default rt hashtags_v (JArray []) in
  joined <-
    match hashtags with
    | JArray items => join_by (element_text rt) (js " ") items
    | _ => Throw (TypeError (js "hashtags.join is not a function"))
    end ;;
  match body, hashtags with
  | JString b, JArray items =>
    let totalLength := js_length b + js_length joined in
    Ok {| body := b;
          hashtags := Some items;
          imageUrl := None;
          imagePrompt := None;
          platform := platform;
          characterCount := Z.of_N totalLength;
          estimatedReadTime := Some (ceil_div_200 (split_count 32 b)) |}
  | _, _ => Throw (TypeError (js "body.split is not a function"))
  end.

Definition generateContent (rt : Runtime) (request : ContentGenerationRequest)
  : outcome GeneratedContent :=
  let platform := req_platform request in
  let tone := match req_tone request with
              | Some t => t
              | None => js "professional"
              end in
  let specs := PLATFORM_SPECS_get platform in
  prompt <- build_prompt rt request tone specs ;;
  try_catch
    (content <- invokeLLM rt system_message prompt ;;
     textContent <- text_of_content content ;;
     parsedContent <- parse_content_reply textContent ;;
     content_of_reply rt platform parsedContent)
    (fun error =>
       Throw (new_Error (js "Content generation failed: " ++ message_of error))).

(* ================================================================== *)
(** ** generateImage and generateContentWithImage *)

(** [!process.env.OPENAI_API_KEY] *)
Definition api_key_missing (rt : Runtime) : bool :=
  match OPENAI_API_KEY rt with
  | Some (_ :: _) => false
  | Some [] | None => true
  end.

(** [style] has the default ["natural"], taken when the argument is
    [undefined]. *)
Definition generateImage (rt : Runtime) (prompt : jsstring)
    (style : option jsstring) : outcome (option jsstring) :=
  let style := match style with
               | Some s => s
               | None => js "natural"
               end in
  if api_key_missing rt then Ok None
  else
    try_catch
      (url <- images_generate rt
                (prompt ++ js ". Style: " ++ style
                 ++ js ". High quality, professional, suitable for social media.") ;;
       Ok (match url with
           | Some (c :: u) => Some (c :: u)
           | Some [] | None => None
           end))
      (fun _ => Ok None).

(** [request.imageStyle ? `${request.topic}. ${request.imageStyle}`
                        : request.topic] *)
Definition image_prompt_of (request : ContentGenerationRequest) : jsstring :=
  match req_imageStyle request with
  | Some (c :: s) => req_topic request ++ js ". " ++ (c :: s)
  | Some [] | None => req_topic request
  end.

Definition with_image (content : GeneratedContent)
    (url : option jsstring) (prompt : jsstring) : GeneratedContent :=
  {| body := body content;
     hashtags := hashtags content;
     imageUrl := url;
     imagePrompt := Some prompt;
     platform := platform content;
     characterCount := characterCount content;
     estimatedReadTime := estimatedReadTime content |}.

Definition generateContentWithImage (rt : Runtime)
    (request : ContentGenerationRequest) : outcome GeneratedContent :=
  content <- generateContent rt request ;;
  if req_includeImage request then
    let imagePrompt := image_prompt_of request in
    imageUrl <- generateImage rt imagePrompt (req_imageStyle request) ;;
    Ok (with_image content imageUrl imagePrompt)
  else Ok content.

(* ================================================================== *)
(** ** validateContent *)

Record ValidationResult : Type := {
  isValid : bool;
  issues : list jsstring
}.

(** [issues.push(msg)] under a condition. *)
Definition push_if (cond : bool) (msg : jsstring) (issues : list jsstring)
  : list jsstring :=
  if cond then issues ++ [msg] else issues.

Definition hashtag_count (content : GeneratedContent) : option Z :=
  option_map (fun l => Z.of_nat (List.length l)) (hashtags content).

(** [!content.body || content.body.trim().length === 0] *)
Definition body_is_empty (b : jsstring) : bool :=
  is_empty b || (js_length (trim b) =? 0).

Definition validateContent (content : GeneratedContent) : ValidationResult :=
  let specs := PLATFORM_SPECS_get (platform content) in
  match specs with
  | Undefined =>
    {| isValid := false;
       issues := [js "Unknown platform: " ++ platform content] |}
  | OwnSpec _ | Inherited =>
    let issues := [] in
    let issues :=
      push_if (gt_number (characterCount content) (spec_field maxLength specs))
        (js "Content exceeds " ++ platform content ++ js " limit: "
         ++ Z_to_js (characterCount content) ++ js "/"
         ++ show_number (spec_field maxLength specs) ++ js " characters")
        issues in
    let issues :=
      push_if
        (match hashtag_count content with
         | Some n => gt_number n (spec_field hashtagLimit specs)
         | None => false
         end)
        (js "Too many hashtags: "
         ++ show_number (hashtag_count content) ++ js "/"
         ++ show_number (spec_field hashtagLimit specs))
        issues in
    let issues :=
      push_if (body_is_empty (body content)) (js "Content body is empty")
        issues in
    {| isValid := (List.length issues =? 0)%nat; issues := issues |}
  end.

(* ================================================================== *)
(** ** The job queue: submit and status lookup *)

Record SubmitResult : Type := {
  jobId : jsstring;
  result : option GeneratedContent
}.

Definition executeContentGeneration (rt : Runtime)
    (data : ContentGenerationRequest) : outcome GeneratedContent :=
  generateContentWithImage rt data.

(** [`direct-${Date.now()}`] *)
Definition direct_id (rt : Runtime) : jsstring :=
  js "direct-" ++ N_to_js (Date_now rt).

Definition run_directly (rt : Runtime) (data : ContentGenerationRequest)
  : outcome SubmitResult :=
  result <- executeContentGeneration rt data ;;
  Ok {| jobId := direct_id rt; result := Some result |}.

Definition addContentGenerationJob (rt : Runtime)
    (data : ContentGenerationRequest) : outcome SubmitResult :=
  if negb (REDIS_AVAILABLE rt) || negb (Queue_defined rt) then
    run_directly rt data
  else
    try_catch
      (id <- queue_add rt (js "content-generation") (js "generate") data ;;
       Ok {| jobId := or_string id (js "job-" ++ N_to_js (Date_now rt));
             result := None |})
      (fun _ => run_directly rt data).

Record JobStatus : Type := {
  status : jsstring;
  status_result : option json;
  status_error : option jsstring
}.

Definition direct_note : json :=
  JObject [(js "message", JString (js "Job executed directly (no Redis queue)"))].

Definition getJobStatus (rt : Runtime) (queueName jobId : jsstring)
  : outcome JobStatus :=
  if startsWith jobId (js "direct-") then
    Ok {| status := js "completed";
          status_result := Some direct_note;
          status_error := None |}
  else if negb (REDIS_AVAILABLE rt) || negb (Queue_defined rt) then
    Ok {| status := js "unknown";
          status_result := None;
          status_error := Some (js "Redis not available") |}
  else
    try_catch
      (job <- queue_getJob rt queueName jobId ;;
       match job with
       | None =>
         Ok {| status := js "unknown";
               status_result := None;
               status_error := Some (js "Job not found") |}
       | Some j =>
         state <- getState j ;;
         Ok {| status := state;
               status_result := returnvalue j;
               status_error := failedReason j |}
       end)
      (fun error =>
         Ok {| status := js "unknown";
               status_result := None;
               status_error := Some (message_of error) |}).

(* ================================================================== *)
(** ** validateAnalysis

    The analysis is the parsed reply cast to [NicheAnalysisResult]; a field
    the reply lacks is [None]. *)

Record BrandVoice : Type := {
  bv_tone : option jsstring;
  bv_keywords : option (list jsstring);
  bv_writingStyle : option jsstring
}.

Record TargetAudience : Type := {
  ta_demographics : option jsstring;
  ta_painPoints : option (list jsstring);
  ta_interests : option (list jsstring)
}.

Record ContentStrategy : Type := {
  cs_topics : option (list jsstring);
  cs_frequency : option Z;
  cs_bestTimes : option (list jsstring);
  cs_platforms : option (list jsstring)
}.

Record AutopilotConfig : Type := {
  ap_enabled : option bool;
  ap_contentTypes : option (list jsstring);
  ap_postingSchedule : option jsstring
}.

Record NicheAnalysisResult : Type := {
  industry : option jsstring;
  brandVoice : option BrandVoice;
  targetAudience : option TargetAudience;
  competitors : option (list jsstring);
  keywords : option (list jsstring);
  contentStrategy : option ContentStrategy;
  autopilotConfig : option AutopilotConfig
}.

(** [obj?.field] *)
Definition optional_chain {A B} (obj : option A) (field : A -> option B)
  : option B :=
  match obj with
  | Some o => field o
  | None => None
  end.

(** [!s] for a string that may be [undefined]. *)
Definition string_falsy (s : option jsstring) : bool :=
  match s with
  | Some (_ :: _) => false
  | Some [] | None => true
  end.

(** [!l || l.length < n] for an array that may be [undefined]. *)
Definition missing_or_shorter (l : option (list jsstring)) (n : nat) : bool :=
  match l with
  | Some items => (List.length items <? n)%nat
  | None => true
  end.

Definition validateAnalysis (analysis : NicheAnalysisResult)
  : ValidationResult :=
  let issues := [] in
  let issues :=
    push_if
      (string_falsy (industry analysis)
       || match industry analysis with
          | Some s => js_length s <? 3
          | None => false
          end)
      (js "Industry classification is missing or too short") issues in
  let issues :=
    push_if (string_falsy (optional_chain (brandVoice analysis) bv_tone))
      (js "Brand voice tone is missing") issues in
  let issues :=
    push_if
      (missing_or_shorter (optional_chain (brandVoice analysis) bv_keywords) 3)
      (js "Insufficient brand keywords") issues in
  let issues :=
    push_if
      (string_falsy (optional_chain (targetAudience analysis) ta_demographics))
      (js "Target audience demographics missing") issues in
  let issues :=
    push_if
      (missing_or_shorter (optional_chain (contentStrategy analysis) cs_topics) 3)
      (js "Insufficient content topics") issues in
  let issues :=
    push_if
      (missing_or_shorter
         (optional_chain (contentStrategy analysis) cs_platforms) 1)
      (js "No platforms recommended") issues in
  {| isValid := (List.length issues =? 0)%nat; issues := issues |}.

(* ================================================================== *)
(** ** scrapeWebsite

    The headless browser is outside the repository.  Each awaited call of
    the function is a field of [Puppeteer] giving how that call settles: any
    of them may reject, [browser.close()] included.  The state of the model
    is the log of the launches and closes that resolved. *)

Record MetaElement : Type := {
  attr_name : option jsstring;
  attr_property : option jsstring;
  attr_content : option jsstring
}.

Record Puppeteer : Type := {
  launch : outcome unit;
  newPage : outcome unit;
  setUserAgent : jsstring -> outcome unit;
  goto : jsstring -> outcome unit;
  page_content : outcome jsstring;
  page_title : outcome jsstring;
  (** the [meta] elements of the page, as [$$eval] hands them over *)
  meta_elements : outcome (list MetaElement);
  (** [document.body.innerText] once scripts and styles are removed *)
  body_innerText : outcome (option jsstring);
  (** [a.href] of every anchor *)
  anchor_hrefs : outcome (list jsstring);
  (** [browser.close()], given how many closes of this browser were awaited
      before this one: the function awaits a second close when the first
      rejected inside the [try] block *)
  close : nat -> outcome unit
}.

Record ScrapedSite : Type := {
  html : jsstring;
  text : jsstring;
  title : jsstring;
  meta : list (jsstring * jsstring);
  links : list jsstring
}.

Inductive browser_event : Type :=
| Launched
| Closed.

(** What happened to browsers so far, oldest first; [browser] is the local
    variable of the function, set once [launch] has resolved; [closes] counts
    the closes awaited so far. *)
Record ScraperState : Type := {
  log : list browser_event;
  browser : bool;
  closes : nat
}.

Definition record_event (ev : browser_event) (st : ScraperState) (b : bool)
  : ScraperState :=
  {| log := log st ++ [ev]; browser := b; closes := closes st |}.

(** [await browser.close()]: a close that resolves is logged, one that
    rejects throws and leaves the log as it is. *)
Definition close_browser (p : Puppeteer) (st : ScraperState)
  : outcome unit * ScraperState :=
  let st' :=
    {| log := log st; browser := browser st; closes := S (closes st) |} in
  match close p (closes st) with
  | Ok _ => (Ok tt, record_event Closed st' (browser st))
  | Throw e => (Throw e, st')
  end.

(** Browsers launched and not yet closed. *)
Fixpoint open_browsers (events : list browser_event) : Z :=
  match events with
  | [] => 0
  | Launched :: rest => open_browsers rest + 1
  | Closed :: rest => open_browsers rest - 1
  end.

(** The own properties of an object, as (name, value) entries. *)
Fixpoint set_property (k v : jsstring) (obj : list (jsstring * jsstring))
  : list (jsstring * jsstring) :=
  match obj with
  | [] => [(k, v)]
  | (k', v') :: rest =>
    if jsstring_eqb k' k then (k', v) :: rest
    else (k', v') :: set_property k v rest
  end.

(** [meta[name] = content] on the object literal built so far, [content] a
    string.  The name [__proto__] reaches the setter of [Object.prototype],
    which ignores a string: nothing is stored.  Every other name becomes an
    own property. *)
Definition assign_meta (name content : jsstring)
    (meta : list (jsstring * jsstring)) : list (jsstring * jsstring) :=
  if jsstring_eqb name (js "__proto__") then meta
  else set_property name content meta.

(** The [forEach] over the meta tags.  The entries are the own properties
    of [meta], each name once; analyzeNiche reads [meta] by name. *)
Definition collect_meta (tags : list MetaElement) : list (jsstring * jsstring) :=
  fold_left
    (fun meta tag =>
       let name := or_string (attr_name tag) (or_string (attr_property tag) []) in
       let content := or_string (attr_content tag) [] in
       if negb (is_empty name) && negb (is_empty content)
       then assign_meta name content meta
       else meta)
    tags [].

(** [[...new Set(links)]]: first occurrences, in order. *)
Fixpoint dedupe (seen : list jsstring) (l : list jsstring) : list jsstring :=
  match l with
  | [] => []
  | x :: rest =>
    if existsb (jsstring_eqb x) seen then dedupe seen rest
    else x :: dedupe (x :: seen) rest
  end.

Definition user_agent : jsstring :=
  js "Mozilla/5.0 (Windows NT 10.0; Win64; x64) AppleWebKit/537.36 (KHTML, like Gecko) Chrome/120.0.0.0 Safari/537.36".

(** Lines 74-120: the calls on the page, in order. *)
Definition read_page (p : Puppeteer) (url : jsstring) : outcome ScrapedSite :=
  _ <- newPage p ;;
  _ <- setUserAgent p user_agent ;;
  _ <- goto p url ;;
  html <- page_content p ;;
  title <- page_title p ;;
  metaTags <- meta_elements p ;;
  let meta := collect_meta metaTags in
  innerText <- body_innerText p ;;
  let text := or_string innerText [] in
  hrefs <- anchor_hrefs p ;;
  let links :=
    filter (fun href => negb (is_empty href) && startsWith href (js "http"))
      hrefs in
  Ok {| html := html;
        text := firstn (N.to_nat 50000) text;
        title := title;
        meta := meta;
        links := firstn 50 (dedupe [] links) |}.

(** The [try] block: launch, read the page, close, return.  A close that
    rejects throws like any other call of the block. *)
Definition scrape_attempt (p : Puppeteer) (url : jsstring) (st : ScraperState)
  : outcome ScrapedSite * ScraperState :=
  match launch p with
  | Throw e => (Throw e, st)
  | Ok _ =>
    let st := record_event Launched st true in
    match read_page p url with
    | Throw e => (Throw e, st)
    | Ok site =>
      match close_browser p st with
      | (Ok _, st) => (Ok site, st)
      | (Throw e, st) => (Throw e, st)
      end
    end
  end.

(** The handler closes the browser when there is one, and only then builds
    its error: a close that rejects there leaves the function as it is. *)
Definition scrapeWebsite (p : Puppeteer) (url : jsstring)
    (events : list browser_event)
  : outcome ScrapedSite * list browser_event :=
  let st := {| log := events; browser := false; closes := 0 |} in
  match scrape_attempt p url st with
  | (Ok site, st) => (Ok site, log st)
  | (Throw error, st) =>
    match (if browser st then close_browser p st else (Ok tt, st)) with
    | (Throw close_error, st) => (Throw close_error, log st)
    | (Ok _, st) =>
      (Throw (new_Error (js "Failed to scrape website: " ++ message_of error)),
       log st)
    end
  end.

(* ================================================================== *)
(** ** enhanceText *)

Definition enhance_system_message : jsstring :=
  js "You are a text enhancement assistant. Improve text clarity and engagement while maintaining the original meaning and tone.".

(** [instructions] has the default ["Improve clarity and engagement"], taken
    when the argument is [undefined]. *)
Definition enhanceText (rt : Runtime) (text : jsstring)
    (instructions : option jsstring) : outcome jsstring :=
  let instructions := match instructions with
                      | Some i => i
                      | None => js "Improve clarity and engagement"
                      end in
  try_catch
    (content <- invokeLLM rt enhance_system_message
                  (instructions ++ nl
                   ++ nl
                   ++ js "Original text:" ++ nl
                   ++ text ++ nl
                   ++ nl
                   ++ js "Return only the enhanced text, no explanations or formatting.") ;;
     textContent <- text_of_content content ;;
     Ok (trim textContent))
    (fun _ => Ok text).

(* ================================================================== *)
(** ** extractStructuredContent

    The HTML parser is outside the repository: [select_text selector html]
    is, for [$ = cheerio.load(html)], the list of [$(el).text()] over the
    elements [$(selector)] matches, in document order. *)

Record Cheerio : Type := {
  select_text : jsstring -> jsstring -> list jsstring
}.

Record StructuredContent : Type := {
  headings : list jsstring;
  paragraphs : list jsstring;
  services : list jsstring;
  testimonials : list jsstring
}.

(** One [each] loop: trim the text of every element and push the ones
    [keep] holds of. *)
Definition collect_texts (keep : jsstring -> bool) (texts : list jsstring)
  : list jsstring :=
  filter keep (map trim texts).

Definition services_selector : jsstring :=
  js "[class*=" ++ dquote ++ js "service" ++ dquote ++ js "], [class*="
  ++ dquote ++ js "product" ++ dquote ++ js "], [class*="
  ++ dquote ++ js "offer" ++ dquote ++ js "]".

Definition testimonials_selector : jsstring :=
  js "[class*=" ++ dquote ++ js "testimonial" ++ dquote ++ js "], [class*="
  ++ dquote ++ js "review" ++ dquote ++ js "], [class*="
  ++ dquote ++ js "feedback" ++ dquote ++ js "]".

Definition extractStructuredContent (ch : Cheerio) (html : jsstring)
  : StructuredContent :=
  let headings :=
    collect_texts (fun text => negb (is_empty text))
      (select_text ch (js "h1, h2, h3") html) in
  let paragraphs :=
    collect_texts (fun text => negb (is_empty text) && (50 <? js_length text))
      (select_text ch (js "p") html) in
  let services :=
    collect_texts
      (fun text => negb (is_empty text) && (20 <? js_length text)
                   && (js_length text <? 500))
      (select_text ch services_selector html) in
  let testimonials :=
    collect_texts (fun text => negb (is_empty text) && (30 <? js_length text))
      (select_text ch testimonials_selector html) in
  {| headings := firstn 20 headings;
     paragraphs := firstn 30 paragraphs;
     services := firstn 10 services;
     testimonials := firstn 5 testimonials |}.

(* ================================================================== *)
(** ** analyzeNiche *)

Record NicheAnalysisRequest : Type := {
  websiteUrl : jsstring;
  deepScrape : option bool
}.

Definition analysis_instructions : jsstring :=
  List.concat
    [ js "Analyze and return ONLY a JSON object with this exact structure:" ++ nl;
      js "{" ++ nl;
      js "  " ++ dquote ++ js "industry" ++ dquote ++ js ": " ++ dquote ++ js "Primary industry/niche (e.g., 'HVAC Services', 'SaaS', 'Real Estate')" ++ dquote ++ js "," ++ nl;
      js "  " ++ dquote ++ js "brandVoice" ++ dquote ++ js ": {" ++ nl;
      js "    " ++ dquote ++ js "tone" ++ dquote ++ js ": " ++ dquote ++ js "Overall tone (e.g., 'Professional', 'Friendly', 'Technical', 'Casual')" ++ dquote ++ js "," ++ nl;
      js "    " ++ dquote ++ js "keywords" ++ dquote ++ js ": [" ++ dquote ++ js "key" ++ dquote ++ js ", " ++ dquote ++ js "brand" ++ dquote ++ js ", " ++ dquote ++ js "terms" ++ dquote ++ js ", " ++ dquote ++ js "that" ++ dquote ++ js ", " ++ dquote ++ js "define" ++ dquote ++ js ", " ++ dquote ++ js "voice" ++ dquote ++ js "]," ++ nl;
      js "    " ++ dquote ++ js "writingStyle" ++ dquote ++ js ": " ++ dquote ++ js "Description of writing style (e.g., 'Direct and action-oriented', 'Storytelling-focused')" ++ dquote ++ nl;
      js "  }," ++ nl;
      js "  " ++ dquote ++ js "targetAudience" ++ dquote ++ js ": {" ++ nl;
      js "    " ++ dquote ++ js "demographics" ++ dquote ++ js ": " ++ dquote ++ js "Primary audience description (e.g., 'Homeowners aged 35-55', 'B2B decision makers')" ++ dquote ++ js "," ++ nl;
      js "    " ++ dquote ++ js "painPoints" ++ dquote ++ js ": [" ++ dquote ++ js "problem1" ++ dquote ++ js ", " ++ dquote ++ js "problem2" ++ dquote ++ js ", " ++ dquote ++ js "problem3" ++ dquote ++ js "]," ++ nl;
      js "    " ++ dquote ++ js "interests" ++ dquote ++ js ": [" ++ dquote ++ js "interest1" ++ dquote ++ js ", " ++ dquote ++ js "interest2" ++ dquote ++ js ", " ++ dquote ++ js "interest3" ++ dquote ++ js "]" ++ nl;
      js "  }," ++ nl;
      js "  " ++ dquote ++ js "competitors" ++ dquote ++ js ": [" ++ dquote ++ js "competitor1.com" ++ dquote ++ js ", " ++ dquote ++ js "competitor2.com" ++ dquote ++ js ", " ++ dquote ++ js "competitor3.com" ++ dquote ++ js "]," ++ nl;
      js "  " ++ dquote ++ js "keywords" ++ dquote ++ js ": [" ++ dquote ++ js "keyword1" ++ dquote ++ js ", " ++ dquote ++ js "keyword2" ++ dquote ++ js ", " ++ dquote ++ js "keyword3" ++ dquote ++ js ", " ++ dquote ++ js "keyword4" ++ dquote ++ js ", " ++ dquote ++ js "keyword5" ++ dquote ++ js "]," ++ nl;
      js "  " ++ dquote ++ js "contentStrategy" ++ dquote ++ js ": {" ++ nl;
      js "    " ++ dquote ++ js "topics" ++ dquote ++ js ": [" ++ dquote ++ js "topic1" ++ dquote ++ js ", " ++ dquote ++ js "topic2" ++ dquote ++ js ", " ++ dquote ++ js "topic3" ++ dquote ++ js ", " ++ dquote ++ js "topic4" ++ dquote ++ js ", " ++ dquote ++ js "topic5" ++ dquote ++ js "]," ++ nl;
      js "    " ++ dquote ++ js "frequency" ++ dquote ++ js ": 3," ++ nl;
      js "    " ++ dquote ++ js "bestTimes" ++ dquote ++ js ": [" ++ dquote ++ js "9:00 AM" ++ dquote ++ js ", " ++ dquote ++ js "12:00 PM" ++ dquote ++ js ", " ++ dquote ++ js "5:00 PM" ++ dquote ++ js "]," ++ nl;
      js "    " ++ dquote ++ js "platforms" ++ dquote ++ js ": [" ++ dquote ++ js "instagram" ++ dquote ++ js ", " ++ dquote ++ js "facebook" ++ dquote ++ js ", " ++ dquote ++ js "linkedin" ++ dquote ++ js "]" ++ nl;
      js "  }," ++ nl;
      js "  " ++ dquote ++ js "autopilotConfig" ++ dquote ++ js ": {" ++ nl;
      js "    " ++ dquote ++ js "enabled" ++ dquote ++ js ": true," ++ nl;
      js "    " ++ dquote ++ js "contentTypes" ++ dquote ++ js ": [" ++ dquote ++ js "tips" ++ dquote ++ js ", " ++ dquote ++ js "case_studies" ++ dquote ++ js ", " ++ dquote ++ js "behind_the_scenes" ++ dquote ++ js "]," ++ nl;
      js "    " ++ dquote ++ js "postingSchedule" ++ dquote ++ js ": " ++ dquote ++ js "Monday, Wednesday, Friday at 9 AM" ++ dquote ++ nl;
      js "  }" ++ nl;
      js "}" ++ nl;
      [] ++ nl;
      js "Important:" ++ nl;
      js "- Be specific and actionable" ++ nl;
      js "- Base recommendations on actual website content" ++ nl;
      js "- Return ONLY the JSON object, no markdown or explanations" ++ nl;
      js "- Ensure all arrays have at least 3 items" ++ nl;
      js "- frequency should be a number (posts per week)" ++ nl;
      js "- platforms should use lowercase identifiers" ].

Definition analysis_prompt (request : NicheAnalysisRequest)
    (scrapedData : ScrapedSite) (structured : StructuredContent) : jsstring :=
  js "You are an expert business analyst and social media strategist. Analyze this business website and provide comprehensive insights for social media content strategy." ++ nl
  ++ nl
  ++ js "Website URL: " ++ websiteUrl request ++ nl
  ++ js "Title: " ++ title scrapedData ++ nl
  ++ js "Meta Description: "
  ++ or_string (assoc (js "description") (meta scrapedData)) (js "N/A") ++ nl
  ++ nl
  ++ js "Content Sample:" ++ nl
  ++ firstn (N.to_nat 10000) (text scrapedData) ++ nl
  ++ nl
  ++ js "Headings:" ++ nl
  ++ join nl (firstn 10 (headings structured)) ++ nl
  ++ nl
  ++ js "Services/Products:" ++ nl
  ++ join nl (firstn 5 (services structured)) ++ nl
  ++ nl
  ++ analysis_instructions.

Definition analysis_system_message : jsstring :=
  js "You are an expert business analyst and social media strategist. Analyze business websites and provide comprehensive insights for social media content strategy. Always respond with valid JSON only.".

(** The function returns the parsed reply as it is (the cast to
    [NicheAnalysisResult] does nothing at run time), hence a [json]. *)
Definition analyzeNiche (rt : Runtime) (p : Puppeteer) (ch : Cheerio)
    (request : NicheAnalysisRequest) (events : list browser_event)
  : outcome json * list browser_event :=
  let (scraped, events) := scrapeWebsite p (websiteUrl request) events in
  (try_catch
     (scrapedData <- scraped ;;
      let structured := extractStructuredContent ch (html scrapedData) in
      content <- invokeLLM rt analysis_system_message
                   (analysis_prompt request scrapedData structured) ;;
      textContent <- text_of_content content ;;
      parse_analysis_reply textContent)
     (fun error =>
        Throw (new_Error (js "Niche analysis failed: " ++ message_of error))),
   events).

(* ================================================================== *)
(** ** addNicheAnalysisJob *)

Record AnalysisSubmitResult : Type := {
  analysis_jobId : jsstring;
  analysis_result : option json
}.

(** [new Queue("niche-analysis", ...)] then [queue.add("analyze", data, ...)],
    down to [job.id]. *)
Definition analysis_enqueue : Type :=
  jsstring -> jsstring -> NicheAnalysisRequest -> outcome (option jsstring).

Definition executeNicheAnalysis (rt : Runtime) (p : Puppeteer) (ch : Cheerio)
    (data : NicheAnalysisRequest) (events : list browser_event)
  : outcome json * list browser_event :=
  analyzeNiche rt p ch data events.

Definition analyze_directly (rt : Runtime) (p : Puppeteer) (ch : Cheerio)
    (data : NicheAnalysisRequest) (events : list browser_event)
  : outcome AnalysisSubmitResult * list browser_event :=
  let (analysis, events) := executeNicheAnalysis rt p ch data events in
  (result <- analysis ;;
   Ok {| analysis_jobId := direct_id rt; analysis_result := Some result |},
   events).

Definition addNicheAnalysisJob (rt : Runtime) (enqueue : analysis_enqueue)
    (p : Puppeteer) (ch : Cheerio) (data : NicheAnalysisRequest)
    (events : list browser_event)
  : outcome AnalysisSubmitResult * list browser_event :=
  if negb (REDIS_AVAILABLE rt) || negb (Queue_defined rt) then
    analyze_directly rt p ch data events
  else
    match enqueue (js "niche-analysis") (js "analyze") data with
    | Ok id =>
      (Ok {| analysis_jobId := or_string id (js "job-" ++ N_to_js (Date_now rt));
             analysis_result := None |},
       events)
    | Throw _ => analyze_directly rt p ch data events
    end.

(* ================================================================== *)
(** ** generateAutopilotConfig *)

Record AutopilotSettings : Type := {
  cfg_enabled : option bool;
  cfg_contentTypes : option (list jsstring);
  cfg_postingSchedule : option jsstring;
  cfg_platforms : option (list jsstring);
  cfg_topics : option (list jsstring)
}.

(** The object literal reads [analysis.autopilotConfig.enabled] first and
    [analysis.contentStrategy.platforms] fourth: a missing
    [autopilotConfig], then a missing [contentStrategy], is a TypeError. *)
Definition generateAutopilotConfig (analysis : NicheAnalysisResult)
  : outcome AutopilotSettings :=
  match autopilotConfig analysis with
  | None =>
    Throw (TypeError
             (js "Cannot read properties of undefined (reading 'enabled')"))
  | Some ap =>
    match contentStrategy analysis with
    | None =>
      Throw (TypeError
               (js "Cannot read properties of undefined (reading 'platforms')"))
    | Some cs =>
      Ok {| cfg_enabled := ap_enabled ap;
            cfg_contentTypes := ap_contentTypes ap;
            cfg_postingSchedule := ap_postingSchedule ap;
            cfg_platforms := cs_platforms cs;
            cfg_topics := cs_topics cs |}
    end
  end.

(* ================================================================== *)
(** ** The phone sign-in screen: formatting and the code boxes

    The pure parts of [PhoneAuthScreen]: the state updates are functions of
    the state they replace. *)

(** [value.replace(/\D/g, '')]: the ASCII digits of [value], in order. *)
Definition only_digits (value : jsstring) : jsstring :=
  filter is_digit value.

Definition formatPhoneNumber (value : jsstring) : jsstring :=
  let digits := only_digits value in
  if (List.length digits <=? 3)%nat then digits
  else if (List.length digits <=? 6)%nat then
    js "(" ++ firstn 3 digits ++ js ") " ++ skipn 3 digits
  else
    js "(" ++ firstn 3 digits ++ js ") " ++ firstn 3 (skipn 3 digits)
    ++ js "-" ++ firstn 4 (skipn 6 digits).

(** [phoneNumber] is the state of the screen. *)
Definition getRawPhoneNumber (phoneNumber : jsstring) : jsstring :=
  js "+1" ++ only_digits phoneNumber.

(** The guard of [handleRequestOtp]: the request is sent unless
    [rawPhone.length < 12]. *)
Definition request_otp_allowed (phoneNumber : jsstring) : bool :=
  negb (js_length (getRawPhoneNumber phoneNumber) <? 12).

(** The array of the six code boxes; [None] is a hole, which an assignment
    past the end of an array leaves behind. *)
Definition otp_array : Type := list (option jsstring).

(** [arr[i] = v] *)
Fixpoint array_set (arr : otp_array) (i : nat) (v : jsstring) : otp_array :=
  match i, arr with
  | O, [] => [Some v]
  | O, _ :: rest => Some v :: rest
  | S i', [] => None :: array_set [] i' v
  | S i', x :: rest => x :: array_set rest i' v
  end.

(** The loop of the paste branch: [digits[i]] goes to the box [index + i]
    when that is below 6. *)
Fixpoint paste_digits (arr : otp_array) (index : nat) (digits : jsstring)
  : otp_array :=
  match digits with
  | [] => arr
  | d :: rest =>
    paste_digits (if (index <? 6)%nat then array_set arr index [d] else arr)
      (S index) rest
  end.

(** The new array of boxes and the box that gets the focus, if any. *)
Definition handleOtpChange (otpCode : otp_array) (value : jsstring)
    (index : nat) : otp_array * option nat :=
  if (1 <? List.length value)%nat then
    let digits := firstn 6 (only_digits value) in
    (paste_digits otpCode index digits,
     Some (Nat.min (index + List.length digits) 5))
  else
    (array_set otpCode index value,
     if negb (is_empty value) && (index <? 5)%nat then Some (S index)
     else None).

(** [otpCode.join('')]: a hole joins as the empty string. *)
Definition otp_code (otpCode : otp_array) : jsstring :=
  List.concat (map (fun box => match box with Some s => s | None => [] end)
                 otpCode).

(** The guard of [handleVerifyOtp]: the code is sent unless
    [code.length !== 6]. *)
Definition verify_otp_allowed (otpCode : otp_array) : bool :=
  (List.length (otp_code otpCode) =? 6)%nat.

(* ================================================================== *)
(** * Statements: predicates and sample inputs *)

(* ------------------------------------------------------------------ *)
(** ** validateContent *)

(** The post of the repository's test "should detect empty content". *)
Definition empty_post : GeneratedContent :=
  {| body := [];
     hashtags := Some [];
     imageUrl := None;
     imagePrompt := None;
     platform := js "instagram";
     characterCount := 0;
     estimatedReadTime := None |}.

(** The post of the test "should validate content within platform limits". *)
Definition instagram_post : GeneratedContent :=
  {| body := js "This is a test post for Instagram with some engaging content!";
     hashtags := Some [JString (js "test"); JString (js "instagram");
                       JString (js "content")];
     imageUrl := None;
     imagePrompt := None;
     platform := js "instagram";
     characterCount := 100;
     estimatedReadTime := None |}.

(** A post of 300 characters for twitter, whose maximum is 280. *)
Definition long_tweet : GeneratedContent :=
  {| body := repeat 65 300;
     hashtags := Some [];
     imageUrl := None;
     imagePrompt := None;
     platform := js "twitter";
     characterCount := 300;
     estimatedReadTime := None |}.

(** A post for a platform the table does not know. *)
Definition myspace_post : GeneratedContent :=
  {| body := js "Hello";
     hashtags := Some [];
     imageUrl := None;
     imagePrompt := None;
     platform := js "myspace";
     characterCount := 5;
     estimatedReadTime := None |}.

(** The limits C3 speaks of: the platform is in the table, the character
    count is at most its maximum and the hashtags, when there are any, are at
    most its hashtag limit. *)
Definition within_limits (content : GeneratedContent) (spec : PlatformSpec)
  : Prop :=
  PLATFORM_SPECS_get (platform content) = OwnSpec spec
  /\ (characterCount content <= maxLength spec)%Z
  /\ (forall n, hashtag_count content = Some n -> (n <= hashtagLimit spec)%Z).

Definition accepted : ValidationResult := {| isValid := true; issues := [] |}.

(* ------------------------------------------------------------------ *)
(** ** validateAnalysis *)

Definition at_least_3 (l : option (list jsstring)) : Prop :=
  exists items, l = Some items /\ (3 <= List.length items)%nat.

Definition non_empty (s : option jsstring) : Prop :=
  exists c rest, s = Some (c :: rest).

(** The condition of C2, in the words of the specification: every list
    field has at least 3 entries and every string field is non-empty. *)
Definition spec_usable (a : NicheAnalysisResult) : Prop :=
  non_empty (industry a)
  /\ non_empty (optional_chain (brandVoice a) bv_tone)
  /\ non_empty (optional_chain (brandVoice a) bv_writingStyle)
  /\ non_empty (optional_chain (targetAudience a) ta_demographics)
  /\ non_empty (optional_chain (autopilotConfig a) ap_postingSchedule)
  /\ at_least_3 (optional_chain (brandVoice a) bv_keywords)
  /\ at_least_3 (optional_chain (targetAudience a) ta_painPoints)
  /\ at_least_3 (optional_chain (targetAudience a) ta_interests)
  /\ at_least_3 (competitors a)
  /\ at_least_3 (keywords a)
  /\ at_least_3 (optional_chain (contentStrategy a) cs_topics)
  /\ at_least_3 (optional_chain (contentStrategy a) cs_bestTimes)
  /\ at_least_3 (optional_chain (contentStrategy a) cs_platforms)
  /\ at_least_3 (optional_chain (autopilotConfig a) ap_contentTypes).

(** What the function checks: the industry has 3 code units or more, the
    tone and the demographics are non-empty, there are 3 brand keywords and
    3 topics or more, and one platform or more. *)
Definition analysis_checks (a : NicheAnalysisResult) : Prop :=
  (exists s, industry a = Some s /\ (3 <= List.length s)%nat)
  /\ non_empty (optional_chain (brandVoice a) bv_tone)
  /\ at_least_3 (optional_chain (brandVoice a) bv_keywords)
  /\ non_empty (optional_chain (targetAudience a) ta_demographics)
  /\ at_least_3 (optional_chain (contentStrategy a) cs_topics)
  /\ (exists items, optional_chain (contentStrategy a) cs_platforms = Some items
                    /\ (1 <= List.length items)%nat).

Definition three (a b c : string) : option (list jsstring) :=
  Some [js a; js b; js c].

(** An analysis with every field filled in as the specification asks, whose
    industry is the two-letter "ab" of the repository's test. *)
Definition short_industry_analysis : NicheAnalysisResult :=
  {| industry := Some (js "ab");
     brandVoice := Some {| bv_tone := Some (js "Professional");
                           bv_keywords := three "test" "test2" "test3";
                           bv_writingStyle := Some (js "Test") |};
     targetAudience := Some {| ta_demographics := Some (js "Test");
                               ta_painPoints := three "p1" "p2" "p3";
                               ta_interests := three "i1" "i2" "i3" |};
     competitors := three "c1.com" "c2.com" "c3.com";
     keywords := three "k1" "k2" "k3";
     contentStrategy := Some {| cs_topics := three "test" "test2" "test3";
                                cs_frequency := Some 3%Z;
                                cs_bestTimes := three "9:00 AM" "12:00 PM" "5:00 PM";
                                cs_platforms := three "facebook" "instagram" "linkedin" |};
     autopilotConfig := Some {| ap_enabled := Some true;
                                ap_contentTypes := three "tips" "case_studies" "news";
                                ap_postingSchedule := Some (js "Test") |} |}.

(** An analysis that passes every check of the function with one pain
    point, one interest, no competitor, one keyword, one posting time, one
    platform and one content type. *)
Definition sparse_analysis : NicheAnalysisResult :=
  {| industry := Some (js "Test Industry");
     brandVoice := Some {| bv_tone := Some (js "Professional");
                           bv_keywords := three "one" "two" "three";
                           bv_writingStyle := Some (js "Test") |};
     targetAudience := Some {| ta_demographics := Some (js "Test");
                               ta_painPoints := Some [js "test"];
                               ta_interests := Some [js "test"] |};
     competitors := Some [];
     keywords := Some [js "test"];
     contentStrategy := Some {| cs_topics := three "test" "test2" "test3";
                                cs_frequency := Some 3%Z;
                                cs_bestTimes := Some [js "9:00 AM"];
                                cs_platforms := Some [js "facebook"] |};
     autopilotConfig := Some {| ap_enabled := Some true;
                                ap_contentTypes := Some [js "test"];
                                ap_postingSchedule := Some (js "Test") |} |}.

(* ------------------------------------------------------------------ *)
(** ** The model-response parsing step *)

(** The object [{"body":"hi"}] as the model writes it. *)
Definition small_object_text : jsstring :=
  js "{" ++ dquote ++ js "body" ++ dquote ++ js ":"
  ++ dquote ++ js "hi" ++ dquote ++ js "}".

Definition small_object : json := JObject [(js "body", JString (js "hi"))].

Definition hello_object_inner : jsstring :=
  dquote ++ js "body" ++ dquote ++ js ":" ++ dquote ++ js "Hello world" ++ dquote
  ++ js "," ++ dquote ++ js "hashtags" ++ dquote ++ js ":["
  ++ dquote ++ js "a" ++ dquote ++ js "," ++ dquote ++ js "bc" ++ dquote ++ js "]".

Definition hello_object : json :=
  JObject [(js "body", JString (js "Hello world"));
           (js "hashtags", JArray [JString (js "a"); JString (js "bc")])].

(* ------------------------------------------------------------------ *)
(** ** generateContent *)

(** The prompt [generateContent] sends, or the error building it raises. *)
Definition prompt_of (rt : Runtime) (request : ContentGenerationRequest)
  : outcome jsstring :=
  build_prompt rt request
    (match req_tone request with Some t => t | None => js "professional" end)
    (PLATFORM_SPECS_get (req_platform request)).

(** A-Z for a-z: [toUpperCase] on the ASCII keys used below. *)
Definition ascii_upper (s : jsstring) : jsstring :=
  map (fun c => if (97 <=? c) && (c <=? 122) then c - 32 else c) s.

(** A runtime with no image key and no broker, whose model answers [reply]
    to every prompt. *)
Definition sample_runtime (reply : outcome (option message_content))
  : Runtime :=
  {| Number_toString := fun lexeme => lexeme;
     toUpperCase := ascii_upper;
     invokeLLM := fun _ _ => reply;
     OPENAI_API_KEY := None;
     images_generate := fun _ => Throw NonError;
     REDIS_AVAILABLE := false;
     bullmq_loaded := false;
     Date_now := 1700000000000;
     queue_add := fun _ _ _ => Throw NonError;
     queue_getJob := fun _ _ => Throw NonError |}.

Definition says (text : jsstring) : outcome (option message_content) :=
  Ok (Some (ContentText text)).

Definition sample_request (platform : string) : ContentGenerationRequest :=
  {| req_topic := js "Business growth strategies";
     req_platform := js platform;
     req_tone := Some (js "professional");
     req_includeImage := false;
     req_imageStyle := None;
     req_nicheContext := None |}.

Definition hello_text : jsstring :=
  open_brace :: hello_object_inner ++ [close_brace].


(** The object [{"hashtags":"#a #b"}]: no body, and a string where the
    array of hashtags is expected. *)
Definition tags_as_text : jsstring :=
  js "{" ++ dquote ++ js "hashtags" ++ dquote ++ js ":"
  ++ dquote ++ js "#a #b" ++ dquote ++ js "}".

(** The object [{"body":["x"]}]: no hashtags, and an array where the string
    of the body is expected. *)
Definition body_as_list : jsstring :=
  js "{" ++ dquote ++ js "body" ++ dquote ++ js ":["
  ++ dquote ++ js "x" ++ dquote ++ js "]}".

(** The content lines 180-187 return for a body [b], hashtags [items] and the
    text [joined] of [items.join(" ")]. *)
Definition reply_content (platform b : jsstring) (items : list json)
    (joined : jsstring) : GeneratedContent :=
  {| body := b;
     hashtags := Some items;
     imageUrl := None;
     imagePrompt := None;
     platform := platform;
     characterCount := Z.of_N (js_length b + js_length joined);
     estimatedReadTime := Some (ceil_div_200 (split_count 32 b)) |}.

(** The body lines 169-186 work with, for the field [v] of the reply: the
    empty string when the field is missing or falsy ([null], [false], [0],
    the empty string), the field itself when it is a string. *)
Definition body_read (rt : Runtime) (v : option json) (b : jsstring) : Prop :=
  (truthy rt v = false /\ b = []) \/ v = Some (JString b).

(** The hashtags they work with: the empty list when the field is missing or
    falsy, the field itself when it is an array. *)
Definition hashtags_read (rt : Runtime) (v : option json) (items : list json)
  : Prop :=
  (truthy rt v = false /\ items = []) \/ v = Some (JArray items).

(** The object [{"hashtags":null}]: no body, and hashtags that are there
    and falsy. *)
Definition null_tags_text : jsstring :=
  js "{" ++ dquote ++ js "hashtags" ++ dquote ++ js ":null}".

(** The object [{"body":false}]. *)
Definition false_body_text : jsstring :=
  js "{" ++ dquote ++ js "body" ++ dquote ++ js ":false}".

(* ------------------------------------------------------------------ *)
(** ** generateContentWithImage *)

(** The prompt [generateImage] sends to the image service for a request. *)
Definition image_service_prompt (request : ContentGenerationRequest)
  : jsstring :=
  image_prompt_of request ++ js ". Style: "
  ++ match req_imageStyle request with Some s => s | None => js "natural" end
  ++ js ". High quality, professional, suitable for social media.".

(** The image service is unconfigured (no API key), or its call fails, or
    its response carries no URL. *)
Definition image_unavailable (rt : Runtime) (request : ContentGenerationRequest)
  : Prop :=
  api_key_missing rt = true
  \/ (exists e, images_generate rt (image_service_prompt request) = Throw e)
  \/ images_generate rt (image_service_prompt request) = Ok None.

Definition image_request : ContentGenerationRequest :=
  {| req_topic := js "Business growth strategies";
     req_platform := js "instagram";
     req_tone := None;
     req_includeImage := true;
     req_imageStyle := Some (js "watercolor");
     req_nicheContext := None |}.

(** A runtime with an API key whose image service rejects every call. *)
Definition failing_image_runtime : Runtime :=
  {| Number_toString := fun lexeme => lexeme;
     toUpperCase := ascii_upper;
     invokeLLM := fun _ _ => says hello_text;
     OPENAI_API_KEY := Some (js "sk-test");
     images_generate := fun _ => Throw (new_Error (js "429 rate limited"));
     REDIS_AVAILABLE := false;
     bullmq_loaded := false;
     Date_now := 1700000000000;
     queue_add := fun _ _ _ => Throw NonError;
     queue_getJob := fun _ _ => Throw NonError |}.

(* ------------------------------------------------------------------ *)
(** ** addContentGenerationJob *)

(** No durable broker is configured, or enqueueing throws. *)
Definition direct_mode (rt : Runtime) (data : ContentGenerationRequest)
  : Prop :=
  REDIS_AVAILABLE rt = false
  \/ bullmq_loaded rt = false
  \/ exists e,
       queue_add rt (js "content-generation") (js "generate") data = Throw e.

Definition empty_reply_error : thrown :=
  new_Error (js "Content generation failed: Empty response from Claude").

(* ------------------------------------------------------------------ *)
(** ** getJobStatus *)

(** No broker: [!REDIS_AVAILABLE || !Queue]. *)
Definition broker_unavailable (rt : Runtime) : Prop :=
  REDIS_AVAILABLE rt = false \/ bullmq_loaded rt = false.

Definition broker_available (rt : Runtime) : Prop :=
  REDIS_AVAILABLE rt = true /\ bullmq_loaded rt = true.

Definition unknown_status (msg : jsstring) : JobStatus :=
  {| status := js "unknown"; status_result := None; status_error := Some msg |}.

(** A runtime with a broker whose job lookup settles as [lookup]. *)
Definition broker_runtime (lookup : outcome (option Job)) : Runtime :=
  {| Number_toString := fun lexeme => lexeme;
     toUpperCase := ascii_upper;
     invokeLLM := fun _ _ => says hello_text;
     OPENAI_API_KEY := None;
     images_generate := fun _ => Throw NonError;
     REDIS_AVAILABLE := true;
     bullmq_loaded := true;
     Date_now := 1700000000000;
     queue_add := fun _ _ _ => Ok (Some (js "42"));
     queue_getJob := fun _ _ => lookup |}.

(** A job that was enqueued and not yet picked up by a worker. *)
Definition waiting_job : Job :=
  {| getState := Ok (js "waiting"); returnvalue := None; failedReason := None |}.

(** The status values of the specification. *)
Definition spec_statuses : list jsstring :=
  [js "pending"; js "active"; js "completed"; js "failed"; js "unknown"].

(* ------------------------------------------------------------------ *)
(** ** scrapeWebsite *)

(** The error the function raises for a failure [e] of the scrape. *)
Definition scrape_error (e : thrown) : thrown :=
  new_Error (js "Failed to scrape website: " ++ message_of e).

(** A browser that launches and cannot resolve the host of the URL. *)
Definition unreachable_host : Puppeteer :=
  {| launch := Ok tt;
     newPage := Ok tt;
     setUserAgent := fun _ => Ok tt;
     goto := fun _ => Throw (new_Error (js "net::ERR_NAME_NOT_RESOLVED"));
     page_content := Ok [];
     page_title := Ok [];
     meta_elements := Ok [];
     body_innerText := Ok None;
     anchor_hrefs := Ok [];
     close := fun _ => Ok tt |}.


(* ------------------------------------------------------------------ *)
(** ** Further predicates and sample inputs *)

(** The sum of the lengths of the strings of a list. *)
Definition total_length (parts : list jsstring) : nat :=
  list_sum (map (@List.length N) parts).

(** A post with a million characters for the platform key "constructor". *)
Definition constructor_post : GeneratedContent :=
  {| body := js "Hello";
     hashtags := Some [];
     imageUrl := None;
     imagePrompt := None;
     platform := js "constructor";
     characterCount := 1000000;
     estimatedReadTime := None |}.

(** The user message [enhanceText] sends. *)
Definition enhance_prompt (text : jsstring) (instructions : option jsstring)
  : jsstring :=
  match instructions with
  | Some i => i
  | None => js "Improve clarity and engagement"
  end
  ++ nl ++ nl ++ js "Original text:" ++ nl ++ text ++ nl ++ nl
  ++ js "Return only the enhanced text, no explanations or formatting.".

(** The text of the object
    [{"body":"Launch day","hashtags":["new","sale","today"]}]. *)
Definition launch_text : jsstring :=
  js "{" ++ dquote ++ js "body" ++ dquote ++ js ":" ++ dquote
  ++ js "Launch day" ++ dquote ++ js "," ++ dquote ++ js "hashtags" ++ dquote
  ++ js ":[" ++ dquote ++ js "new" ++ dquote ++ js "," ++ dquote ++ js "sale"
  ++ dquote ++ js "," ++ dquote ++ js "today" ++ dquote ++ js "]}".

(** The error generateContent raises for a failure [e] of its [try] block. *)
Definition generation_error (e : thrown) : thrown :=
  new_Error (js "Content generation failed: " ++ message_of e).

(** The error analyzeNiche raises for a failure [e] of its [try] block. *)
Definition analysis_error (e : thrown) : thrown :=
  new_Error (js "Niche analysis failed: " ++ message_of e).

(** A page with three anchors, two of them to the same address. *)
Definition small_page : Puppeteer :=
  {| launch := Ok tt;
     newPage := Ok tt;
     setUserAgent := fun _ => Ok tt;
     goto := fun _ => Ok tt;
     page_content := Ok (js "<html></html>");
     page_title := Ok (js "Example Domain");
     meta_elements := Ok [];
     body_innerText := Ok (Some (js "Example Domain"));
     anchor_hrefs := Ok [js "https://www.iana.org/domains/example";
                         js "mailto:info@example.com";
                         js "https://www.iana.org/domains/example"];
     close := fun _ => Ok tt |}.

Definition small_site : ScrapedSite :=
  {| html := js "<html></html>";
     text := js "Example Domain";
     title := js "Example Domain";
     meta := [];
     links := [js "https://www.iana.org/domains/example"] |}.

(** An analysis that passes validateAnalysis and has no autopilotConfig. *)
Definition no_autopilot_analysis : NicheAnalysisResult :=
  {| industry := Some (js "HVAC Services");
     brandVoice := Some {| bv_tone := Some (js "Professional");
                           bv_keywords := three "reliable" "certified" "local";
                           bv_writingStyle := None |};
     targetAudience := Some {| ta_demographics := Some (js "Homeowners");
                               ta_painPoints := None;
                               ta_interests := None |};
     competitors := None;
     keywords := None;
     contentStrategy := Some {| cs_topics := three "tips" "savings" "repairs";
                                cs_frequency := None;
                                cs_bestTimes := None;
                                cs_platforms := Some [js "facebook"] |};
     autopilotConfig := None |}.

(** [formatPhoneNumber] on the digits of its argument. *)
Definition format_digits (digits : jsstring) : jsstring :=
  if (List.length digits <=? 3)%nat then digits
  else if (List.length digits <=? 6)%nat then
    js "(" ++ firstn 3 digits ++ js ") " ++ skipn 3 digits
  else
    js "(" ++ firstn 3 digits ++ js ") " ++ firstn 3 (skipn 3 digits)
    ++ js "-" ++ firstn 4 (skipn 6 digits).

(** Six empty boxes: the initial state of the code. *)
Definition empty_boxes : otp_array :=
  [Some []; Some []; Some []; Some []; Some []; Some []].

(** The box that holds the digit [d]. *)
Definition digit_box (d : N) : option jsstring := Some [d].

(* ================================================================== *)
(** * Properties *)

(** ** Strings *)

Lemma jsstring_eqb_refl (a : jsstring) : jsstring_eqb a a = true.
Proof.
  induction a as [|x a IH]; simpl; [reflexivity|].
  now rewrite N.eqb_refl, IH.
Qed.

Lemma jsstring_eqb_eq (a b : jsstring) : jsstring_eqb a b = true <-> a = b.
Proof.
  split.
  - revert b; induction a as [|x a IH]; intros [|y b]; simpl; try discriminate.
    + reflexivity.
    + intros H. apply andb_true_iff in H as [Hx Hab].
      apply N.eqb_eq in Hx. apply IH in Hab. now subst.
  - intros ->. apply jsstring_eqb_refl.
Qed.

Lemma push_if_false (msg : jsstring) (issues : list jsstring) :
  push_if false msg issues = issues.
Proof. reflexivity. Qed.

Lemma push_if_empty_inv (c : bool) (msg : jsstring) (issues : list jsstring) :
  (List.length (push_if c msg issues) =? 0)%nat = true ->
  c = false /\ (List.length issues =? 0)%nat = true.
Proof.
  destruct c; simpl.
  - rewrite length_app. simpl. intros H. apply Nat.eqb_eq in H. lia.
  - auto.
Qed.

(* ------------------------------------------------------------------ *)
(** ** JSON.parse: the fuel is enough *)

Lemma skip_ws_length (s : jsstring) :
  (List.length (skip_ws s) <= List.length s)%nat.
Proof.
  induction s as [|c s IH]; simpl; [lia|].
  destruct (is_json_ws c); simpl; lia.
Qed.

Lemma skip_ws_cons_length (s : jsstring) (c : N) (rest : jsstring) :
  skip_ws s = c :: rest -> (List.length rest < List.length s)%nat.
Proof.
  intros H. pose proof (skip_ws_length s) as L. rewrite H in L. simpl in L. lia.
Qed.

Lemma lex_string_shrinks (n : nat) :
  forall s acc str rest,
    (List.length s <= n)%nat ->
    lex_string s acc = Some (str, rest) ->
    (List.length rest < List.length s)%nat.
Proof.
  induction n as [|n IH]; intros s acc str rest Hn H.
  - destruct s; simpl in *; [discriminate | lia].
  - destruct s as [|c s]; simpl in H; [discriminate|].
    simpl in Hn.
    destruct (c =? 34).
    { injection H as _ <-. simpl. lia. }
    destruct (c =? 92).
    + destruct s as [|e s1]; [discriminate|]. simpl in Hn.
      repeat match type of H with
             | (if ?b then _ else _) = _ =>
               destruct b;
               [ apply IH in H; [simpl; lia | lia] | ]
             end.
      destruct (e =? 117); [|discriminate].
      destruct s1 as [|a [|b [|x [|y rest2]]]]; try discriminate.
      destruct (hex4 a b x y); [|discriminate].
      simpl in Hn. apply IH in H; [simpl; lia | lia].
    + destruct (c <? 32); [discriminate|].
      apply IH in H; [simpl; lia | lia].
Qed.

Lemma span_digits_length (s : jsstring) :
  forall ds r, span_digits s = (ds, r) ->
               List.length s = (List.length ds + List.length r)%nat.
Proof.
  induction s as [|c s IH]; simpl; intros ds r H.
  - now injection H as <- <-.
  - destruct (is_digit c).
    + destruct (span_digits s) as [ds' r'] eqn:E.
      injection H as <- <-. simpl. now rewrite (IH ds' r' eq_refl).
    + now injection H as <- <-.
Qed.

Lemma lex_sign_length (s sign rest : jsstring) :
  lex_sign s = (sign, rest) -> (List.length rest <= List.length s)%nat.
Proof.
  unfold lex_sign. destruct s as [|c r].
  - intros H. injection H as _ <-. lia.
  - destruct (c =? 45); intros H; injection H as _ <-; simpl; lia.
Qed.

Lemma lex_int_shrinks (s int rest : jsstring) :
  lex_int s = Some (int, rest) -> (List.length rest < List.length s)%nat.
Proof.
  unfold lex_int. destruct (span_digits s) as [[|d more] r] eqn:E;
    [discriminate|].
  apply span_digits_length in E.
  destruct ((d =? 48) && _); [discriminate|].
  intros H. injection H as _ <-. simpl in E. lia.
Qed.

Lemma lex_frac_length (s frac rest : jsstring) :
  lex_frac s = Some (frac, rest) -> (List.length rest <= List.length s)%nat.
Proof.
  unfold lex_frac. destruct s as [|c r].
  - intros H. injection H as _ <-. lia.
  - destruct (c =? 46).
    + destruct (span_digits r) as [[|f fs] r'] eqn:E; [discriminate|].
      apply span_digits_length in E.
      intros H. injection H as _ <-. simpl in *. lia.
    + intros H. injection H as _ <-. lia.
Qed.

Lemma lex_exp_length (s ex rest : jsstring) :
  lex_exp s = Some (ex, rest) -> (List.length rest <= List.length s)%nat.
Proof.
  unfold lex_exp. destruct s as [|c r].
  - intros H. injection H as _ <-. lia.
  - destruct ((c =? 101) || (c =? 69)).
    + destruct r as [|x r'].
      * simpl. discriminate.
      * destruct ((x =? 43) || (x =? 45)).
        -- destruct (span_digits r') as [[|d ds] r2] eqn:E; [discriminate|].
           apply span_digits_length in E.
           intros H. injection H as _ <-. simpl in *. lia.
        -- destruct (span_digits (x :: r')) as [[|d ds] r2] eqn:E;
             [discriminate|].
           apply span_digits_length in E.
           intros H. injection H as _ <-. simpl in *. lia.
    + intros H. injection H as _ <-. lia.
Qed.

Lemma lex_number_shrinks (s lexeme rest : jsstring) :
  lex_number s = Some (lexeme, rest) ->
  (List.length rest < List.length s)%nat.
Proof.
  unfold lex_number.
  destruct (lex_sign s) as [sign s1] eqn:E1. apply lex_sign_length in E1.
  destruct (lex_int s1) as [[int s2]|] eqn:E2; [|discriminate].
  apply lex_int_shrinks in E2.
  destruct (lex_frac s2) as [[frac s3]|] eqn:E3; [|discriminate].
  apply lex_frac_length in E3.
  destruct (lex_exp s3) as [[ex s4]|] eqn:E4; [|discriminate].
  apply lex_exp_length in E4.
  intros H. injection H as _ <-. lia.
Qed.

Section ParserFuel.

#[local] Arguments startsWith : simpl never.
#[local] Arguments js : simpl never.
#[local] Arguments skipn : simpl never.
#[local] Arguments lex_string : simpl never.
#[local] Arguments lex_number : simpl never.
#[local] Arguments skip_ws : simpl never.
#[local] Arguments N.eqb : simpl never.

(** A successful parse consumes at least one code unit. *)
Lemma parse_shrinks (fuel : nat) :
  (forall s v r,
      parse_value fuel s = Parsed v r ->
      (List.length r < List.length s)%nat)
  /\ (forall s acc v r,
         parse_elements fuel s acc = Parsed v r ->
         (List.length r < List.length s)%nat)
  /\ (forall s acc v r,
         parse_members fuel s acc = Parsed v r ->
         (List.length r < List.length s)%nat).
Proof.
  induction fuel as [|fuel (IHv & IHe & IHm)].
  { repeat split; intros; discriminate. }
  split; [|split].
  - intros s v r H. simpl in H.
    destruct (skip_ws s) as [|c rest] eqn:Es; [discriminate|].
    apply skip_ws_cons_length in Es.
    destruct (c =? 123).
    { destruct (skip_ws rest) as [|c' rest'] eqn:Er; [discriminate|].
      apply skip_ws_cons_length in Er.
      destruct (c' =? 125).
      - injection H as _ <-. lia.
      - apply IHm in H. simpl in H. lia. }
    destruct (c =? 91).
    { destruct (skip_ws rest) as [|c' rest'] eqn:Er; [discriminate|].
      apply skip_ws_cons_length in Er.
      destruct (c' =? 93).
      - injection H as _ <-. lia.
      - apply IHe in H. simpl in H. lia. }
    destruct (c =? 34).
    { destruct (lex_string rest []) as [[str rest']|] eqn:El; [|discriminate].
      apply (lex_string_shrinks (List.length rest)) in El; [|lia].
      injection H as _ <-. lia. }
    destruct (startsWith (c :: rest) (js "true")).
    { injection H as _ <-. rewrite length_skipn. simpl. lia. }
    destruct (startsWith (c :: rest) (js "false")).
    { injection H as _ <-. rewrite length_skipn. simpl. lia. }
    destruct (startsWith (c :: rest) (js "null")).
    { injection H as _ <-. rewrite length_skipn. simpl. lia. }
    destruct (lex_number (c :: rest)) as [[lexeme rest']|] eqn:El;
      [|discriminate].
    apply lex_number_shrinks in El. injection H as _ <-. simpl in El. lia.
  - intros s acc v r H. simpl in H.
    destruct (parse_value fuel s) as [v0 rest0| |] eqn:Ev; try discriminate.
    apply IHv in Ev.
    destruct (skip_ws rest0) as [|c rest'] eqn:Er; [discriminate|].
    apply skip_ws_cons_length in Er.
    destruct (c =? 44).
    + apply IHe in H. lia.
    + destruct (c =? 93); [|discriminate]. injection H as _ <-. lia.
  - intros s acc v r H. simpl in H.
    destruct (skip_ws s) as [|q rest] eqn:Es; [discriminate|].
    apply skip_ws_cons_length in Es.
    destruct (q =? 34); [|discriminate].
    destruct (lex_string rest []) as [[key rest1]|] eqn:El; [|discriminate].
    apply (lex_string_shrinks (List.length rest)) in El; [|lia].
    destruct (skip_ws rest1) as [|colon rest2] eqn:Ec; [discriminate|].
    apply skip_ws_cons_length in Ec.
    destruct (colon =? 58); [|discriminate].
    destruct (parse_value fuel rest2) as [v0 rest3| |] eqn:Ev;
      try discriminate.
    apply IHv in Ev.
    destruct (skip_ws rest3) as [|c rest4] eqn:Er; [discriminate|].
    apply skip_ws_cons_length in Er.
    destruct (c =? 44).
    + apply IHm in H. lia.
    + destruct (c =? 125); [|discriminate]. injection H as _ <-. lia.
Qed.

(** Two units of fuel per code unit are enough for every text. *)
Lemma parse_fuel_enough (fuel : nat) :
  (forall s, (2 * List.length s + 1 <= fuel)%nat ->
             parse_value fuel s <> OutOfFuel)
  /\ (forall s acc, (2 * List.length s + 2 <= fuel)%nat ->
                    parse_elements fuel s acc <> OutOfFuel)
  /\ (forall s acc, (2 * List.length s + 2 <= fuel)%nat ->
                    parse_members fuel s acc <> OutOfFuel).
Proof.
  induction fuel as [|fuel (IHv & IHe & IHm)].
  { repeat split; intros; lia. }
  destruct (parse_shrinks fuel) as (Sv & _ & _).
  split; [|split].
  - intros s Hf. simpl.
    destruct (skip_ws s) as [|c rest] eqn:Es; [discriminate|].
    apply skip_ws_cons_length in Es.
    destruct (c =? 123).
    { destruct (skip_ws rest) as [|c' rest'] eqn:Er; [discriminate|].
      apply skip_ws_cons_length in Er.
      destruct (c' =? 125); [discriminate|].
      apply IHm. simpl. lia. }
    destruct (c =? 91).
    { destruct (skip_ws rest) as [|c' rest'] eqn:Er; [discriminate|].
      apply skip_ws_cons_length in Er.
      destruct (c' =? 93); [discriminate|].
      apply IHe. simpl. lia. }
    destruct (c =? 34).
    { destruct (lex_string rest []) as [[str rest']|]; discriminate. }
    destruct (startsWith (c :: rest) (js "true")); [discriminate|].
    destruct (startsWith (c :: rest) (js "false")); [discriminate|].
    destruct (startsWith (c :: rest) (js "null")); [discriminate|].
    destruct (lex_number (c :: rest)) as [[lexeme rest']|]; discriminate.
  - intros s acc Hf. simpl.
    destruct (parse_value fuel s) as [v0 rest0| |] eqn:Ev.
    + apply Sv in Ev.
      destruct (skip_ws rest0) as [|c rest'] eqn:Er; [discriminate|].
      apply skip_ws_cons_length in Er.
      destruct (c =? 44).
      * apply IHe. lia.
      * destruct (c =? 93); discriminate.
    + discriminate.
    + exfalso. apply (IHv s); [lia | exact Ev].
  - intros s acc Hf. simpl.
    destruct (skip_ws s) as [|q rest] eqn:Es; [discriminate|].
    apply skip_ws_cons_length in Es.
    destruct (q =? 34); [|discriminate].
    destruct (lex_string rest []) as [[key rest1]|] eqn:El; [|discriminate].
    apply (lex_string_shrinks (List.length rest)) in El; [|lia].
    destruct (skip_ws rest1) as [|colon rest2] eqn:Ec; [discriminate|].
    apply skip_ws_cons_length in Ec.
    destruct (colon =? 58); [|discriminate].
    destruct (parse_value fuel rest2) as [v0 rest3| |] eqn:Ev.
    + apply Sv in Ev.
      destruct (skip_ws rest3) as [|c rest4] eqn:Er; [discriminate|].
      apply skip_ws_cons_length in Er.
      destruct (c =? 44).
      * apply IHm. lia.
      * destruct (c =? 125); discriminate.
    + discriminate.
    + exfalso. apply (IHv rest2); [lia | exact Ev].
Qed.

End ParserFuel.

(** [JSON_parse] never stops for lack of fuel: a text it rejects is
    rejected by the grammar. *)
Lemma parse_value_fuel (text : jsstring) :
  parse_value (parse_fuel text) text <> OutOfFuel.
Proof.
  apply (proj1 (parse_fuel_enough (parse_fuel text))).
  unfold parse_fuel. lia.
Qed.

(* ------------------------------------------------------------------ *)
(** ** validateContent (C3) *)

(** C3, as stated, fails: a post within both limits of its platform whose
    body is empty is rejected, with the issue "Content body is empty". *)
Lemma validateContent_rejects_empty_body :
  within_limits empty_post instagram_spec
  /\ validateContent empty_post
     = {| isValid := false; issues := [js "Content body is empty"] |}
  /\ validateContent empty_post <> accepted.
Proof.
  split; [|split].
  - unfold within_limits. split; [reflexivity|]. split.
    + vm_compute. discriminate.
    + intros n H. vm_compute in H. injection H as <-. vm_compute. discriminate.
  - vm_compute. reflexivity.
  - vm_compute. discriminate.
Qed.

(** C3, amended: for every platform of the table and every content for it
    whose character count is at most the maximum length, whose hashtag count
    is at most the hashtag limit and whose body is not empty once trimmed,
    validateContent returns isValid true and no issue. *)
Theorem validateContent_within_limits
    (content : GeneratedContent) (spec : PlatformSpec) :
  within_limits content spec ->
  body_is_empty (body content) = false ->
  validateContent content = accepted.
Proof.
  intros (Hspec & Hlen & Htags) Hbody.
  unfold validateContent. rewrite Hspec. cbn [spec_field gt_number].
  assert (Hgt : Z.gtb (characterCount content) (maxLength spec) = false).
  { rewrite Z.gtb_ltb. apply Z.ltb_ge. exact Hlen. }
  rewrite Hgt, push_if_false.
  assert (Hh : match hashtag_count content with
               | Some n => Z.gtb n (hashtagLimit spec)
               | None => false
               end = false).
  { destruct (hashtag_count content) as [n|] eqn:E; [|reflexivity].
    rewrite Z.gtb_ltb. apply Z.ltb_ge. apply Htags. reflexivity. }
  rewrite Hh, push_if_false, Hbody, push_if_false.
  reflexivity.
Qed.

Lemma validateContent_within_limits_witness :
  validateContent instagram_post = accepted.
Proof.
  apply (validateContent_within_limits instagram_post instagram_spec).
  - unfold within_limits. split; [reflexivity|]. split.
    + vm_compute. discriminate.
    + intros n H. vm_compute in H. injection H as <-. vm_compute. discriminate.
  - vm_compute. reflexivity.
Defined.

(** A post over the maximum length of its platform is reported, not
    refused with an error. *)
Example validateContent_long_tweet :
  validateContent long_tweet
  = {| isValid := false;
       issues := [js "Content exceeds twitter limit: 300/280 characters"] |}.
Proof. vm_compute. reflexivity. Qed.

(** An unknown platform key is an issue of its own. *)
Example validateContent_unknown_platform :
  validateContent myspace_post
  = {| isValid := false; issues := [js "Unknown platform: myspace"] |}.
Proof. vm_compute. reflexivity. Qed.

(* ------------------------------------------------------------------ *)
(** ** validateAnalysis (C2) *)

Lemma at_least_3_three (a b c : string) : at_least_3 (three a b c).
Proof. exists [js a; js b; js c]. split; [reflexivity | simpl; lia]. Qed.

Lemma non_empty_cons (c : N) (s : jsstring) : non_empty (Some (c :: s)).
Proof. now exists c, s. Qed.

Lemma string_falsy_false (s : option jsstring) :
  string_falsy s = false <-> non_empty s.
Proof.
  split.
  - destruct s as [[|c r]|]; simpl; try discriminate. intros _. now exists c, r.
  - intros (c & r & ->). reflexivity.
Qed.

Lemma missing_or_shorter_false (l : option (list jsstring)) (n : nat) :
  missing_or_shorter l n = false <->
  exists items, l = Some items /\ (n <= List.length items)%nat.
Proof.
  split.
  - destruct l as [items|]; simpl; [|discriminate].
    intros H. apply Nat.ltb_ge in H. now exists items.
  - intros (items & -> & H). simpl. now apply Nat.ltb_ge.
Qed.

Lemma industry_check_false (i : option jsstring) :
  string_falsy i
  || match i with Some s => js_length s <? 3 | None => false end = false
  <-> exists s, i = Some s /\ (3 <= List.length s)%nat.
Proof.
  split.
  - destruct i as [s|]; simpl; [|discriminate].
    intros H. apply orb_false_iff in H as [_ H].
    apply N.ltb_ge in H. unfold js_length in H. exists s. split; [reflexivity|lia].
  - intros (s & -> & H). apply orb_false_iff. split.
    + destruct s; [simpl in H; lia | reflexivity].
    + apply N.ltb_ge. unfold js_length. lia.
Qed.

(** C2, as stated, fails in both directions: an analysis that meets the
    condition of the specification (every list of 3, every string
    non-empty) is rejected because its industry has 2 letters, and an
    analysis with lists of 0 and 1 entries is accepted. *)
Lemma validateAnalysis_not_the_spec_condition :
  (spec_usable short_industry_analysis
   /\ validateAnalysis short_industry_analysis
      = {| isValid := false;
           issues := [js "Industry classification is missing or too short"] |})
  /\ (isValid (validateAnalysis sparse_analysis) = true
      /\ ~ spec_usable sparse_analysis).
Proof.
  split; split.
  - unfold spec_usable, short_industry_analysis; cbn [industry brandVoice
      targetAudience competitors keywords contentStrategy autopilotConfig
      optional_chain bv_tone bv_keywords bv_writingStyle ta_demographics
      ta_painPoints ta_interests cs_topics cs_bestTimes cs_platforms
      ap_contentTypes ap_postingSchedule].
    repeat split; try apply at_least_3_three; apply non_empty_cons.
  - vm_compute. reflexivity.
  - vm_compute. reflexivity.
  - intros H. unfold spec_usable in H.
    destruct H as (_ & _ & _ & _ & _ & _ & _ & _ & (items & E & L) & _).
    cbn in E. injection E as <-. simpl in L. lia.
Qed.

(** C2, amended: validateAnalysis returns isValid true if and only if the
    industry has 3 characters or more, the brand-voice tone and the audience
    demographics are non-empty, there are 3 brand-voice keywords and 3
    content topics or more, and 1 platform or more.  The other fields are
    not looked at. *)
Theorem validateAnalysis_valid_iff (a : NicheAnalysisResult) :
  isValid (validateAnalysis a) = true <-> analysis_checks a.
Proof.
  unfold validateAnalysis, analysis_checks. cbn [isValid].
  rewrite <- industry_check_false, <- !string_falsy_false.
  unfold at_least_3.
  rewrite <- !(missing_or_shorter_false _ 3), <- (missing_or_shorter_false _ 1).
  split.
  - intros H.
    apply push_if_empty_inv in H as [H6 H].
    apply push_if_empty_inv in H as [H5 H].
    apply push_if_empty_inv in H as [H4 H].
    apply push_if_empty_inv in H as [H3 H].
    apply push_if_empty_inv in H as [H2 H].
    apply push_if_empty_inv in H as [H1 _].
    repeat split; assumption.
  - intros (H1 & H2 & H3 & H4 & H5 & H6).
    rewrite H1, H2, H3, H4, H5, H6. reflexivity.
Qed.

(* ------------------------------------------------------------------ *)
(** ** The model-response parsing step (C4) *)

Lemma from_first_skip (c : N) (p s : jsstring) :
  Forall (fun x => x <> c) p -> from_first c (p ++ c :: s) = c :: s.
Proof.
  induction 1 as [|x p Hx _ IH]; simpl.
  - now rewrite N.eqb_refl.
  - apply N.eqb_neq in Hx. now rewrite Hx.
Qed.

Lemma Forall_rev_neq (c : N) (q : jsstring) :
  Forall (fun x => x <> c) q -> Forall (fun x => x <> c) (rev q).
Proof. apply Forall_rev. Qed.

(** With no opening brace before the object and no closing brace after it,
    the expression matches exactly the object. *)
Lemma match_braces_wrapped (p mid q : jsstring) :
  Forall (fun x => x <> open_brace) p ->
  Forall (fun x => x <> close_brace) q ->
  match_braces (p ++ (open_brace :: mid ++ [close_brace]) ++ q)
  = Some (open_brace :: mid ++ [close_brace]).
Proof.
  intros Hp Hq. unfold match_braces.
  replace (p ++ (open_brace :: mid ++ [close_brace]) ++ q)
    with (p ++ open_brace :: (mid ++ [close_brace] ++ q))
    by (simpl; now rewrite <- !app_assoc).
  rewrite (from_first_skip _ _ _ Hp).
  replace (rev (open_brace :: mid ++ [close_brace] ++ q))
    with (rev q ++ close_brace :: (rev mid ++ [open_brace])).
  2:{ simpl. rewrite !rev_app_distr. simpl. now rewrite <- !app_assoc. }
  rewrite (from_first_skip _ _ _ (Forall_rev_neq _ _ Hq)).
  simpl. rewrite rev_app_distr, rev_involutive. simpl. reflexivity.
Qed.

(** C4, as stated, fails.  The text of an object parses to that object, but
    behind a prefix that itself holds braces the span from the first opening
    brace to the last closing brace is not JSON and the step throws; and
    between a pair of square brackets the whole text is JSON, so the first
    attempt returns an array instead of the object. *)
Lemma parse_model_reply_prose_with_braces :
  parse_content_reply small_object_text = Ok small_object
  /\ match_braces (js "Use {curly} braces: " ++ small_object_text ++ [])
     = Some (js "{curly} braces: " ++ small_object_text)
  /\ parse_content_reply (js "Use {curly} braces: " ++ small_object_text ++ [])
     = Throw JSON_SyntaxError
  /\ parse_content_reply (js "[" ++ small_object_text ++ js "]")
     = Ok (JArray [small_object]).
Proof. vm_compute. repeat split; reflexivity. Qed.

(** C4, amended: for every text s of a JSON object (it runs from an opening
    to a closing brace and JSON.parse accepts it), every prefix p without an
    opening brace and every suffix q without a closing brace, the parsing
    step succeeds on s and on p + s + q; the second attempt recovers exactly
    s, so both yield the same object unless p + s + q is itself valid JSON,
    in which case the first attempt already returned the value of the whole
    text. *)
Theorem parse_model_reply_wrapped
    (failure p mid q : jsstring) (v : json) :
  JSON_parse (open_brace :: mid ++ [close_brace]) = Ok v ->
  Forall (fun x => x <> open_brace) p ->
  Forall (fun x => x <> close_brace) q ->
  parse_model_reply failure (open_brace :: mid ++ [close_brace]) = Ok v
  /\ parse_model_reply failure (p ++ (open_brace :: mid ++ [close_brace]) ++ q)
     = match JSON_parse (p ++ (open_brace :: mid ++ [close_brace]) ++ q) with
       | Ok whole => Ok whole
       | Throw _ => Ok v
       end.
Proof.
  intros Hs Hp Hq. split.
  - unfold parse_model_reply. now rewrite Hs.
  - unfold parse_model_reply, try_catch.
    destruct (JSON_parse (p ++ (open_brace :: mid ++ [close_brace]) ++ q))
      as [whole|e].
    + reflexivity.
    + rewrite (match_braces_wrapped p mid q Hp Hq). exact Hs.
Qed.

Lemma parse_model_reply_wrapped_witness :
  parse_content_reply (open_brace :: hello_object_inner ++ [close_brace])
  = Ok hello_object
  /\ parse_content_reply
       (js "Sure! Here it is: "
        ++ (open_brace :: hello_object_inner ++ [close_brace])
        ++ js " hope it helps")
     = Ok hello_object.
Proof.
  destruct (parse_model_reply_wrapped
              (js "Could not parse Claude response as JSON")
              (js "Sure! Here it is: ") hello_object_inner
              (js " hope it helps") hello_object) as [H1 H2].
  - vm_compute. reflexivity.
  - repeat constructor; vm_compute; discriminate.
  - repeat constructor; vm_compute; discriminate.
  - split; [exact H1|]. unfold parse_content_reply. rewrite H2.
    vm_compute. reflexivity.
Defined.

(* ------------------------------------------------------------------ *)
(** ** generateContent (C5, C9) *)

Lemma bind_Ok_inv {A B} (m : outcome A) (k : A -> outcome B) (b : B) :
  bind m k = Ok b -> exists a, m = Ok a /\ k a = Ok b.
Proof. destruct m as [a|e]; simpl; [eauto | discriminate]. Qed.

Lemma try_catch_rethrow_Ok {A} (body : outcome A) (wrap : thrown -> thrown)
    (a : A) :
  try_catch body (fun e => Throw (wrap e)) = Ok a -> body = Ok a.
Proof. destruct body; simpl; [auto | discriminate]. Qed.

Lemma generateContent_unfold (rt : Runtime) (request : ContentGenerationRequest) :
  generateContent rt request =
  (prompt <- prompt_of rt request ;;
   try_catch
     (content <- invokeLLM rt system_message prompt ;;
      textContent <- text_of_content content ;;
      parsedContent <- parse_content_reply textContent ;;
      content_of_reply rt (req_platform request) parsedContent)
     (fun error =>
        Throw (new_Error (js "Content generation failed: " ++ message_of error)))).
Proof. reflexivity. Qed.

Lemma prompt_of_defined (rt : Runtime) (request : ContentGenerationRequest) :
  PLATFORM_SPECS_get (req_platform request) <> Undefined ->
  exists prompt, prompt_of rt request = Ok prompt.
Proof.
  intros H. unfold prompt_of, build_prompt.
  destruct (PLATFORM_SPECS_get (req_platform request)); eauto. contradiction.
Qed.





Lemma not_In_by_eqb (key : jsstring) (names : list jsstring) :
  existsb (jsstring_eqb key) names = false -> ~ In key names.
Proof.
  intros E Hin. assert (existsb (jsstring_eqb key) names = true) as T.
  { apply existsb_exists. exists key. split; [exact Hin | apply jsstring_eqb_refl]. }
  congruence.
Qed.


(** C9, as stated, fails: a reply that parses as an object and lacks the
    body makes generateContent fail when its hashtags are a string, which has
    no join; a reply that lacks the hashtags makes it fail when its body is
    an array, which has no split. *)
Lemma generateContent_missing_field_can_fail :
  (parse_content_reply tags_as_text
   = Ok (JObject [(js "hashtags", JString (js "#a #b"))])
   /\ get_member (js "body") [(js "hashtags", JString (js "#a #b"))] = None
   /\ generateContent (sample_runtime (says tags_as_text)) (sample_request "twitter")
      = Throw (new_Error
                 (js "Content generation failed: hashtags.join is not a function")))
  /\ (parse_content_reply body_as_list
      = Ok (JObject [(js "body", JArray [JString (js "x")])])
      /\ get_member (js "hashtags") [(js "body", JArray [JString (js "x")])] = None
      /\ generateContent (sample_runtime (says body_as_list)) (sample_request "twitter")
         = Throw (new_Error
                    (js "Content generation failed: body.split is not a function"))).
Proof. vm_compute. repeat split; reflexivity. Qed.

Lemma or_default_string (rt : Runtime) (b : jsstring) :
  or_default rt (Some (JString b)) (JString []) = JString b.
Proof. destruct b; reflexivity. Qed.

Lemma content_of_reply_object (rt : Runtime) (platform : jsstring)
    (members : list (jsstring * json)) (b : jsstring) (items : list json)
    (joined : jsstring) :
  or_default rt (get_member (js "body") members) (JString []) = JString b ->
  or_default rt (get_member (js "hashtags") members) (JArray []) = JArray items ->
  join_by (element_text rt) (js " ") items = Ok joined ->
  content_of_reply rt platform (JObject members)
  = Ok (reply_content platform b items joined).
Proof.
  intros Hb Hh Hj. unfold content_of_reply, property_of.
  cbn [bind]. rewrite Hb, Hh, Hj. reflexivity.
Qed.

Lemma generateContent_on_reply (rt : Runtime) (request : ContentGenerationRequest)
    (prompt text : jsstring) (parsedContent : json) :
  prompt_of rt request = Ok prompt ->
  invokeLLM rt system_message prompt = Ok (Some (ContentText text)) ->
  text <> [] ->
  parse_content_reply text = Ok parsedContent ->
  generateContent rt request =
  try_catch (content_of_reply rt (req_platform request) parsedContent)
    (fun error =>
       Throw (new_Error (js "Content generation failed: " ++ message_of error))).
Proof.
  intros Hp Hllm Hne Hparse. rewrite generateContent_unfold, Hp.
  cbn [bind]. rewrite Hllm. cbn [bind].
  destruct text as [|c text]; [contradiction|].
  cbn [text_of_content bind]. rewrite Hparse. reflexivity.
Qed.

Lemma or_default_body_read (rt : Runtime) (v : option json) (b : jsstring) :
  or_default rt v (JString []) = JString b <-> body_read rt v b.
Proof.
  unfold body_read, or_default. split.
  - destruct v as [x|]; [|intros H; injection H as <-; now left].
    destruct (truthy rt (Some x)) eqn:T.
    + intros ->. now right.
    + intros H. injection H as <-. now left.
  - intros [[T ->] | ->].
    + destruct v as [x|]; [now rewrite T | reflexivity].
    + destruct b; reflexivity.
Qed.

Lemma or_default_hashtags_read (rt : Runtime) (v : option json)
    (items : list json) :
  or_default rt v (JArray []) = JArray items <-> hashtags_read rt v items.
Proof.
  unfold hashtags_read, or_default. split.
  - destruct v as [x|]; [|intros H; injection H as <-; now left].
    destruct (truthy rt (Some x)) eqn:T.
    + intros ->. now right.
    + intros H. injection H as <-. now left.
  - intros [[T ->] | ->].
    + destruct v as [x|]; [now rewrite T | reflexivity].
    + reflexivity.
Qed.

Lemma content_of_reply_object_inv (rt : Runtime) (platform : jsstring)
    (members : list (jsstring * json)) (c : GeneratedContent) :
  content_of_reply rt platform (JObject members) = Ok c ->
  exists b items joined,
    or_default rt (get_member (js "body") members) (JString []) = JString b
    /\ or_default rt (get_member (js "hashtags") members) (JArray [])
       = JArray items
    /\ join_by (element_text rt) (js " ") items = Ok joined
    /\ c = reply_content platform b items joined.
Proof.
  unfold content_of_reply, property_of. cbn [bind]. intros H.
  destruct (or_default rt (get_member (js "hashtags") members) (JArray []))
    as [| | | |items|] eqn:Hh; try discriminate.
  destruct (join_by (element_text rt) (js " ") items) as [joined|e] eqn:Hj;
    [|discriminate].
  cbn [bind] in H.
  destruct (or_default rt (get_member (js "body") members) (JString []))
    as [| | |b| |] eqn:Hb; try discriminate.
  injection H as <-. now exists b, items, joined.
Qed.

(** C9, amended: for every model reply that parses as a JSON object, a body
    or hashtags field that is missing takes its default (the empty string,
    the empty list), and so does one that is there and falsy.  With these
    defaults generateContent succeeds exactly when the body it is left with
    is a string and the hashtags it is left with are an array whose elements
    join; the content it returns has that body and those hashtags, and its
    characterCount is the length of the body plus the length of the joined
    hashtags.  A field that is there, truthy and of another type makes it
    fail. *)
Theorem generateContent_missing_fields
    (rt : Runtime) (request : ContentGenerationRequest)
    (prompt text : jsstring) (members : list (jsstring * json))
    (c : GeneratedContent) :
  prompt_of rt request = Ok prompt ->
  invokeLLM rt system_message prompt = Ok (Some (ContentText text)) ->
  text <> [] ->
  parse_content_reply text = Ok (JObject members) ->
  generateContent rt request = Ok c
  <-> exists b items joined,
        body_read rt (get_member (js "body") members) b
        /\ hashtags_read rt (get_member (js "hashtags") members) items
        /\ join_by (element_text rt) (js " ") items = Ok joined
        /\ c = reply_content (req_platform request) b items joined.
Proof.
  intros Hp Hllm Hne Hparse.
  rewrite (generateContent_on_reply rt request prompt text _ Hp Hllm Hne Hparse).
  split.
  - intros H.
    apply try_catch_rethrow_Ok
      with (wrap := fun error =>
                      new_Error (js "Content generation failed: "
                                 ++ message_of error)) in H.
    apply content_of_reply_object_inv in H
      as (b & items & joined & Hb & Hh & Hj & ->).
    exists b, items, joined.
    split; [now apply or_default_body_read|].
    split; [now apply or_default_hashtags_read|]. now split.
  - intros (b & items & joined & Hb & Hh & Hj & ->).
    apply or_default_body_read in Hb. apply or_default_hashtags_read in Hh.
    now rewrite (content_of_reply_object rt _ members b items joined Hb Hh Hj).
Qed.

Lemma generateContent_missing_fields_witness :
  generateContent (sample_runtime (says (js "{}"))) (sample_request "twitter")
  = Ok (reply_content (js "twitter") [] [] [])
  /\ generateContent (sample_runtime (says small_object_text))
       (sample_request "twitter")
     = Ok (reply_content (js "twitter") (js "hi") [] [])
  /\ generateContent (sample_runtime (says null_tags_text))
       (sample_request "twitter")
     = Ok (reply_content (js "twitter") [] [] [])
  /\ generateContent (sample_runtime (says false_body_text))
       (sample_request "twitter")
     = Ok (reply_content (js "twitter") [] [] []).
Proof.
  assert (Hrun : forall text members b,
             text <> [] ->
             parse_content_reply text = Ok (JObject members) ->
             body_read (sample_runtime (says text))
               (get_member (js "body") members) b ->
             hashtags_read (sample_runtime (says text))
               (get_member (js "hashtags") members) [] ->
             generateContent (sample_runtime (says text))
               (sample_request "twitter")
             = Ok (reply_content (js "twitter") b [] [])).
  { intros text members b Hne Hparse Hb Hh.
    destruct (prompt_of_defined (sample_runtime (says text))
                (sample_request "twitter")) as [prompt Hp];
      [vm_compute; discriminate|].
    apply (generateContent_missing_fields
             (sample_runtime (says text)) (sample_request "twitter")
             prompt text members _ Hp eq_refl Hne Hparse).
    exists b, [], []. repeat split; assumption. }
  split; [|split; [|split]].
  - apply (Hrun (js "{}") []); [vm_compute; discriminate | vm_compute; reflexivity
                               | left; split; reflexivity
                               | left; split; reflexivity].
  - apply (Hrun small_object_text [(js "body", JString (js "hi"))]);
      [vm_compute; discriminate | vm_compute; reflexivity
      | right; reflexivity | left; split; reflexivity].
  - apply (Hrun null_tags_text [(js "hashtags", JNull)]);
      [vm_compute; discriminate | vm_compute; reflexivity
      | left; split; reflexivity | left; split; reflexivity].
  - apply (Hrun false_body_text [(js "body", JBool false)]);
      [vm_compute; discriminate | vm_compute; reflexivity
      | left; split; reflexivity | left; split; reflexivity].
Defined.

(* ------------------------------------------------------------------ *)
(** ** generateContentWithImage (C7) *)

Lemma generateImage_never_throws (rt : Runtime) (prompt : jsstring)
    (style : option jsstring) :
  exists url, generateImage rt prompt style = Ok url.
Proof.
  unfold generateImage. destruct (api_key_missing rt); [eauto|].
  destruct (images_generate rt _) as [url|e]; cbn; eauto.
Qed.

Lemma generateImage_for_request (rt : Runtime)
    (request : ContentGenerationRequest) :
  generateImage rt (image_prompt_of request) (req_imageStyle request) =
  if api_key_missing rt then Ok None
  else
    try_catch
      (url <- images_generate rt (image_service_prompt request) ;;
       Ok (match url with
           | Some (c :: u) => Some (c :: u)
           | Some [] | None => None
           end))
      (fun _ => Ok None).
Proof. reflexivity. Qed.

Lemma generateImage_unavailable (rt : Runtime)
    (request : ContentGenerationRequest) :
  image_unavailable rt request ->
  generateImage rt (image_prompt_of request) (req_imageStyle request) = Ok None.
Proof.
  rewrite generateImage_for_request.
  intros [H | [(e & H) | H]].
  - now rewrite H.
  - destruct (api_key_missing rt); [reflexivity|]. now rewrite H.
  - destruct (api_key_missing rt); [reflexivity|]. now rewrite H.
Qed.

(** Whatever the image step does, the pipeline fails only when the text
    generation fails, and with that failure. *)
Lemma generateContentWithImage_Throw (rt : Runtime)
    (request : ContentGenerationRequest) (e : thrown) :
  generateContentWithImage rt request = Throw e ->
  generateContent rt request = Throw e.
Proof.
  unfold generateContentWithImage.
  destruct (generateContent rt request) as [content|e']; cbn [bind]; auto.
  destruct (req_includeImage request); [|discriminate].
  destruct (generateImage_never_throws rt (image_prompt_of request)
              (req_imageStyle request)) as [url ->].
  discriminate.
Qed.

(** C7: for every request with includeImage set, if the image service is
    unconfigured or image generation fails, generateContentWithImage returns
    the content generateContent produced, with imageUrl null; and it fails
    only when generateContent itself fails. *)
Theorem image_failure_is_swallowed
    (rt : Runtime) (request : ContentGenerationRequest) :
  req_includeImage request = true ->
  image_unavailable rt request ->
  (forall content,
     generateContent rt request = Ok content ->
     generateContentWithImage rt request
     = Ok (with_image content None (image_prompt_of request))
     /\ imageUrl (with_image content None (image_prompt_of request)) = None
     /\ body (with_image content None (image_prompt_of request)) = body content
     /\ hashtags (with_image content None (image_prompt_of request))
        = hashtags content)
  /\ (forall e,
        generateContentWithImage rt request = Throw e ->
        generateContent rt request = Throw e).
Proof.
  intros Hinc Hun. split.
  - intros content Hc. split; [|repeat split].
    unfold generateContentWithImage. rewrite Hc. cbn [bind].
    rewrite Hinc, (generateImage_unavailable rt request Hun). reflexivity.
  - apply generateContentWithImage_Throw.
Qed.

Lemma image_failure_is_swallowed_witness :
  generateContentWithImage failing_image_runtime image_request
  = Ok (with_image
          (reply_content (js "instagram") (js "Hello world")
             [JString (js "a"); JString (js "bc")] (js "a bc"))
          None (js "Business growth strategies. watercolor")).
Proof.
  assert (Hun : image_unavailable failing_image_runtime image_request).
  { right. left. eexists. reflexivity. }
  destruct (image_failure_is_swallowed failing_image_runtime image_request
              eq_refl Hun) as [H _].
  destruct (H (reply_content (js "instagram") (js "Hello world")
                 [JString (js "a"); JString (js "bc")] (js "a bc")))
    as [Hres _].
  - vm_compute. reflexivity.
  - rewrite Hres. vm_compute. reflexivity.
Defined.

(* ------------------------------------------------------------------ *)
(** ** addContentGenerationJob (C1) *)

Lemma content_of_reply_platform (rt : Runtime) (p : jsstring) (v : json)
    (c : GeneratedContent) :
  content_of_reply rt p v = Ok c -> platform c = p.
Proof.
  unfold content_of_reply. intros H.
  apply bind_Ok_inv in H as (body_v & _ & H).
  apply bind_Ok_inv in H as (hashtags_v & _ & H).
  apply bind_Ok_inv in H as (joined & _ & H).
  destruct (or_default rt body_v (JString [])); try discriminate.
  destruct (or_default rt hashtags_v (JArray [])); try discriminate.
  injection H as <-. reflexivity.
Qed.

(** The content [generateContent] returns carries the platform of the
    request. *)
Lemma generateContent_platform (rt : Runtime)
    (request : ContentGenerationRequest) (c : GeneratedContent) :
  generateContent rt request = Ok c -> platform c = req_platform request.
Proof.
  rewrite generateContent_unfold. intros H.
  apply bind_Ok_inv in H as (prompt & _ & H).
  apply try_catch_rethrow_Ok
    with (wrap := fun error =>
                    new_Error (js "Content generation failed: "
                               ++ message_of error)) in H.
  apply bind_Ok_inv in H as (content & _ & H).
  apply bind_Ok_inv in H as (textContent & _ & H).
  apply bind_Ok_inv in H as (parsedContent & _ & H).
  exact (content_of_reply_platform _ _ _ _ H).
Qed.

Lemma generateContentWithImage_platform (rt : Runtime)
    (request : ContentGenerationRequest) (c : GeneratedContent) :
  generateContentWithImage rt request = Ok c ->
  platform c = req_platform request.
Proof.
  unfold generateContentWithImage. intros H.
  apply bind_Ok_inv in H as (content & Hc & H).
  apply generateContent_platform in Hc.
  destruct (req_includeImage request).
  - apply bind_Ok_inv in H as (url & _ & H). injection H as <-. exact Hc.
  - injection H as <-. exact Hc.
Qed.

Lemma startsWith_app (prefix s : jsstring) :
  startsWith (prefix ++ s) prefix = true.
Proof.
  induction prefix as [|c prefix IH]; simpl.
  - now destruct s.
  - now rewrite N.eqb_refl, IH.
Qed.

(** The job id of a direct execution carries the local tag. *)
Lemma direct_id_tagged (rt : Runtime) :
  startsWith (direct_id rt) (js "direct-") = true.
Proof. apply startsWith_app. Qed.

Lemma addContentGenerationJob_direct_mode (rt : Runtime)
    (data : ContentGenerationRequest) :
  direct_mode rt data ->
  addContentGenerationJob rt data = run_directly rt data.
Proof.
  unfold addContentGenerationJob, Queue_defined.
  intros [H | [H | (e & H)]].
  - now rewrite H.
  - rewrite H. now destruct (REDIS_AVAILABLE rt).
  - destruct (negb (REDIS_AVAILABLE rt)
              || negb (REDIS_AVAILABLE rt && bullmq_loaded rt));
      [reflexivity|].
    now rewrite H.
Qed.

(** C1, as stated, fails: with no broker configured, a request whose model
    call returns no content makes the submit operation throw; the caller
    gets neither a jobId nor a result. *)
Lemma addContentGenerationJob_can_throw :
  direct_mode (sample_runtime (Ok None)) (sample_request "twitter")
  /\ addContentGenerationJob (sample_runtime (Ok None)) (sample_request "twitter")
     = Throw empty_reply_error
  /\ ~ exists r,
         addContentGenerationJob (sample_runtime (Ok None))
           (sample_request "twitter") = Ok r.
Proof.
  split; [left; reflexivity|].
  assert (H : addContentGenerationJob (sample_runtime (Ok None))
                (sample_request "twitter") = Throw empty_reply_error)
    by (vm_compute; reflexivity).
  split; [exact H|]. intros (r & Hr). rewrite H in Hr. discriminate.
Qed.

(** C1, amended: for every content-generation request submitted when no
    durable broker is configured, or when enqueueing throws, the submit
    operation runs the pipeline synchronously; when the pipeline returns a
    result, the same call returns a jobId tagged direct- together with that
    result, whose platform is the platform of the request; when the pipeline
    fails, its failure is the outcome of the call. *)
Theorem addContentGenerationJob_direct
    (rt : Runtime) (data : ContentGenerationRequest) :
  direct_mode rt data ->
  (forall r,
     generateContentWithImage rt data = Ok r ->
     addContentGenerationJob rt data
     = Ok {| jobId := direct_id rt; result := Some r |}
     /\ startsWith (direct_id rt) (js "direct-") = true
     /\ platform r = req_platform data)
  /\ (forall e,
        generateContentWithImage rt data = Throw e ->
        addContentGenerationJob rt data = Throw e).
Proof.
  intros Hd. rewrite (addContentGenerationJob_direct_mode rt data Hd).
  unfold run_directly, executeContentGeneration. split.
  - intros r Hr. rewrite Hr. split; [reflexivity|]. split.
    + apply direct_id_tagged.
    + exact (generateContentWithImage_platform rt data r Hr).
  - intros e He. now rewrite He.
Qed.

Lemma addContentGenerationJob_direct_witness :
  addContentGenerationJob (sample_runtime (says hello_text))
    (sample_request "twitter")
  = Ok {| jobId := js "direct-1700000000000";
          result := Some (reply_content (js "twitter") (js "Hello world")
                            [JString (js "a"); JString (js "bc")]
                            (js "a bc")) |}.
Proof.
  assert (Hd : direct_mode (sample_runtime (says hello_text))
                 (sample_request "twitter")) by (left; reflexivity).
  destruct (addContentGenerationJob_direct
              (sample_runtime (says hello_text)) (sample_request "twitter") Hd)
    as [H _].
  destruct (H (reply_content (js "twitter") (js "Hello world")
                 [JString (js "a"); JString (js "bc")] (js "a bc")))
    as [Hres _].
  - vm_compute. reflexivity.
  - rewrite Hres. vm_compute. reflexivity.
Defined.

(* ------------------------------------------------------------------ *)
(** ** getJobStatus (C8, C10) *)

Lemma broker_unavailable_test (rt : Runtime) :
  broker_unavailable rt ->
  negb (REDIS_AVAILABLE rt) || negb (Queue_defined rt) = true.
Proof.
  unfold Queue_defined. intros [H | H]; rewrite H; [reflexivity|].
  now destruct (REDIS_AVAILABLE rt).
Qed.

Lemma broker_available_test (rt : Runtime) :
  broker_available rt ->
  negb (REDIS_AVAILABLE rt) || negb (Queue_defined rt) = false.
Proof. unfold Queue_defined. now intros [-> ->]. Qed.

(** C8, as stated, fails: for a job the broker holds in state waiting, the
    state the return type of getJobStatus itself lists, the status returned
    is waiting, which is none of pending, active, completed, failed and
    unknown. *)
Lemma getJobStatus_reports_waiting :
  getJobStatus (broker_runtime (Ok (Some waiting_job)))
    (js "content-generation") (js "42")
  = Ok {| status := js "waiting"; status_result := None; status_error := None |}
  /\ ~ In (js "waiting") spec_statuses.
Proof.
  split; [vm_compute; reflexivity|].
  apply not_In_by_eqb. vm_compute. reflexivity.
Qed.

Lemma getJobStatus_never_throws (rt : Runtime) (queueName jobId : jsstring) :
  exists r, getJobStatus rt queueName jobId = Ok r.
Proof.
  unfold getJobStatus.
  destruct (startsWith jobId (js "direct-")); [eauto|].
  destruct (negb (REDIS_AVAILABLE rt) || negb (Queue_defined rt)); [eauto|].
  destruct (queue_getJob rt queueName jobId) as [[j|]|e]; cbn; eauto.
  destruct (getState j); cbn; eauto.
Qed.

(** C8, amended: for every queue name and jobId, getJobStatus returns a
    status that is completed, or unknown, or the state string the broker
    reports for that job, passed on unchanged (the return type names
    completed, failed, active and waiting; pending is not among them); and a
    jobId tagged direct- always resolves to completed, with the note that no
    queue was involved. *)
Theorem getJobStatus_status
    (rt : Runtime) (queueName jobId suffix : jsstring) :
  (exists r,
     getJobStatus rt queueName jobId = Ok r
     /\ (status r = js "completed"
         \/ status r = js "unknown"
         \/ exists j, queue_getJob rt queueName jobId = Ok (Some j)
                      /\ getState j = Ok (status r)))
  /\ getJobStatus rt queueName (js "direct-" ++ suffix)
     = Ok {| status := js "completed";
             status_result := Some direct_note;
             status_error := None |}.
Proof.
  split.
  - unfold getJobStatus.
    destruct (startsWith jobId (js "direct-")); [eauto|].
    destruct (negb (REDIS_AVAILABLE rt) || negb (Queue_defined rt)); [eauto|].
    destruct (queue_getJob rt queueName jobId) as [[j|]|e] eqn:Hjob;
      cbn; eauto.
    destruct (getState j) as [state|e] eqn:Hstate; cbn; eauto 8.
  - unfold getJobStatus. now rewrite startsWith_app.
Qed.

(** C10, as stated, fails on a jobId that starts with direct-: the function
    answers completed, with no error message, before it looks at the broker.
    So a jobId that was never issued is reported completed when there is no
    broker, and when there is one that does not know the job. *)
Lemma getJobStatus_direct_id_never_unknown :
  broker_unavailable (sample_runtime (Ok None))
  /\ getJobStatus (sample_runtime (Ok None)) (js "content-generation")
       (js "direct-never-issued")
     = Ok {| status := js "completed";
             status_result := Some direct_note;
             status_error := None |}
  /\ broker_available (broker_runtime (Ok None))
  /\ queue_getJob (broker_runtime (Ok None)) (js "content-generation")
       (js "direct-never-issued") = Ok None
  /\ getJobStatus (broker_runtime (Ok None)) (js "content-generation")
       (js "direct-never-issued")
     = Ok {| status := js "completed";
             status_result := Some direct_note;
             status_error := None |}
  /\ js "completed" <> js "unknown".
Proof.
  repeat split; try (vm_compute; reflexivity).
  - left. reflexivity.
  - vm_compute. discriminate.
Qed.

(** C10, amended: getJobStatus never raises: for every queue name and jobId
    it returns a status record.  When the jobId does not start with direct-,
    an unavailable broker, an error thrown by the broker while the job or
    its state is looked up, and a jobId the broker does not know each give
    status unknown together with an error message.  When the jobId starts
    with direct-, the status is completed and the broker is not consulted. *)
Theorem getJobStatus_total (rt : Runtime) (queueName jobId : jsstring) :
  (exists r, getJobStatus rt queueName jobId = Ok r)
  /\ (startsWith jobId (js "direct-") = true ->
      getJobStatus rt queueName jobId
      = Ok {| status := js "completed";
              status_result := Some direct_note;
              status_error := None |})
  /\ (startsWith jobId (js "direct-") = false ->
      (broker_unavailable rt ->
       getJobStatus rt queueName jobId
       = Ok (unknown_status (js "Redis not available")))
      /\ (broker_available rt ->
          (forall e,
             queue_getJob rt queueName jobId = Throw e ->
             getJobStatus rt queueName jobId
             = Ok (unknown_status (message_of e)))
          /\ (queue_getJob rt queueName jobId = Ok None ->
              getJobStatus rt queueName jobId
              = Ok (unknown_status (js "Job not found")))
          /\ (forall j e,
                queue_getJob rt queueName jobId = Ok (Some j) ->
                getState j = Throw e ->
                getJobStatus rt queueName jobId
                = Ok (unknown_status (message_of e))))).
Proof.
  split; [apply getJobStatus_never_throws|].
  split; [intros Hid; unfold getJobStatus; now rewrite Hid|].
  intros Hid. unfold getJobStatus. rewrite Hid. split.
  - intros Hb. now rewrite (broker_unavailable_test rt Hb).
  - intros Hb. rewrite (broker_available_test rt Hb). repeat split.
    + intros e ->. reflexivity.
    + intros ->. reflexivity.
    + intros j e -> Hs. cbn. now rewrite Hs.
Qed.

Lemma getJobStatus_total_witness :
  getJobStatus (broker_runtime (Throw (new_Error (js "connect ECONNREFUSED"))))
    (js "content-generation") (js "42")
  = Ok (unknown_status (js "connect ECONNREFUSED"))
  /\ getJobStatus (broker_runtime (Ok None)) (js "niche-analysis") (js "7")
     = Ok (unknown_status (js "Job not found"))
  /\ getJobStatus (sample_runtime (Ok None)) (js "niche-analysis") (js "7")
     = Ok (unknown_status (js "Redis not available")).
Proof.
  split; [|split].
  - destruct (getJobStatus_total
                (broker_runtime (Throw (new_Error (js "connect ECONNREFUSED"))))
                (js "content-generation") (js "42")) as (_ & _ & H).
    destruct (H eq_refl) as [_ Hav].
    destruct (Hav (conj eq_refl eq_refl)) as [Hthrow _].
    exact (Hthrow _ eq_refl).
  - destruct (getJobStatus_total (broker_runtime (Ok None))
                (js "niche-analysis") (js "7")) as (_ & _ & H).
    destruct (H eq_refl) as [_ Hav].
    destruct (Hav (conj eq_refl eq_refl)) as (_ & Hnone & _).
    exact (Hnone eq_refl).
  - destruct (getJobStatus_total (sample_runtime (Ok None))
                (js "niche-analysis") (js "7")) as (_ & _ & H).
    destruct (H eq_refl) as [Hun _].
    exact (Hun (or_introl eq_refl)).
Defined.

(* ------------------------------------------------------------------ *)
(** ** scrapeWebsite (C6) *)


(** The ways the function ends.  The launch fails and there is nothing to
    close.  The page cannot be read and the handler closes the browser; when
    that close rejects, its error is the one that leaves the function.  The
    page is read and the browser is closed before the return; when that
    close rejects, the handler closes once more. *)
Lemma scrapeWebsite_paths (p : Puppeteer) (url : jsstring)
    (events : list browser_event) :
  scrapeWebsite p url events =
  match launch p with
  | Throw e => (Throw (scrape_error e), events)
  | Ok _ =>
    match read_page p url with
    | Ok site =>
      match close p 0 with
      | Ok _ => (Ok site, events ++ [Launched; Closed])
      | Throw e =>
        match close p 1 with
        | Ok _ => (Throw (scrape_error e), events ++ [Launched; Closed])
        | Throw e' => (Throw e', events ++ [Launched])
        end
      end
    | Throw e =>
      match close p 0 with
      | Ok _ => (Throw (scrape_error e), events ++ [Launched; Closed])
      | Throw e' => (Throw e', events ++ [Launched])
      end
    end
  end.
Proof.
  unfold scrapeWebsite, scrape_attempt, close_browser.
  destruct (launch p) as [h|e]; [|reflexivity].
  destruct (read_page p url) as [site|e]; cbn.
  - destruct (close p 0) as [u|e]; cbn; [now rewrite <- app_assoc|].
    destruct (close p 1) as [u|e']; cbn; [now rewrite <- app_assoc|reflexivity].
  - destruct (close p 0) as [u|e']; cbn; [now rewrite <- app_assoc|reflexivity].
Qed.




(** A failed navigation (timeout, unreachable host) is one of the failures
    of [read_page]: the error of [goto] is the one reported. *)
Lemma read_page_goto_fails (p : Puppeteer) (url : jsstring) (e : thrown) :
  newPage p = Ok tt ->
  setUserAgent p user_agent = Ok tt ->
  goto p url = Throw e ->
  read_page p url = Throw e.
Proof. intros H1 H2 H3. unfold read_page. now rewrite H1, H2, H3. Qed.

(** Scraping an unreachable host raises the scrape error and leaves no
    browser open: the one launched is closed by the handler. *)
Example scrapeWebsite_unreachable_host :
  scrapeWebsite unreachable_host
    (js "https://this-domain-definitely-does-not-exist-12345.com") []
  = (Throw (new_Error
              (js "Failed to scrape website: net::ERR_NAME_NOT_RESOLVED")),
     [Launched; Closed])
  /\ open_browsers [Launched; Closed] = 0%Z.
Proof. split; vm_compute; reflexivity. Qed.

(* ================================================================== *)
(** * Further properties *)

(* ------------------------------------------------------------------ *)
(** ** The span the parsing step falls back to *)

Lemma from_first_nil (c : N) (s : jsstring) :
  from_first c s = [] -> Forall (fun x => x <> c) s.
Proof.
  induction s as [|x s IH]; simpl; [constructor|].
  destruct (x =? c) eqn:E; [discriminate|].
  intros H. constructor; [now apply N.eqb_neq | auto].
Qed.

Lemma from_first_absent (c : N) (s : jsstring) :
  Forall (fun x => x <> c) s -> from_first c s = [].
Proof.
  induction 1 as [|x s Hx _ IH]; simpl; [reflexivity|].
  apply N.eqb_neq in Hx. now rewrite Hx.
Qed.

Lemma from_first_cons (c x : N) (s t : jsstring) :
  from_first c s = x :: t ->
  x = c /\ exists p, s = p ++ c :: t /\ Forall (fun y => y <> c) p.
Proof.
  induction s as [|y s IH]; simpl; [discriminate|].
  destruct (y =? c) eqn:E.
  - intros H. injection H as -> ->. apply N.eqb_eq in E. subst.
    split; [reflexivity|]. exists []. split; [reflexivity | constructor].
  - intros H. destruct (IH H) as (-> & p & -> & Hp).
    split; [reflexivity|]. exists (y :: p). split; [reflexivity|].
    constructor; [now apply N.eqb_neq | exact Hp].
Qed.

Lemma Forall_neq_not_In (c : N) (s : jsstring) :
  Forall (fun x => x <> c) s <-> ~ In c s.
Proof.
  rewrite Forall_forall. split.
  - intros H Hin. exact (H c Hin eq_refl).
  - intros H x Hin ->. contradiction.
Qed.

(** X1: the fallback of the parsing step matches exactly when the text
    reads p, an opening brace, mid, a closing brace, q with no opening brace
    in p and no closing brace in q, and the match is then the span from that
    first opening brace to that last closing brace. *)
Theorem match_braces_Some_iff (text m : jsstring) :
  match_braces text = Some m <->
  exists p mid q,
    text = p ++ (open_brace :: mid ++ [close_brace]) ++ q
    /\ Forall (fun x => x <> open_brace) p
    /\ Forall (fun x => x <> close_brace) q
    /\ m = open_brace :: mid ++ [close_brace].
Proof.
  split.
  - unfold match_braces.
    destruct (from_first open_brace text) as [|o t] eqn:Eo.
    { simpl. discriminate. }
    apply from_first_cons in Eo as (-> & p & -> & Hp).
    destruct (from_first close_brace (rev (open_brace :: t))) as [|c u] eqn:Ec.
    { simpl. discriminate. }
    apply from_first_cons in Ec as (-> & q' & Hrev & Hq').
    intros H.
    assert (Hm : m = rev (close_brace :: u)).
    { destruct (rev (close_brace :: u)); [discriminate | now injection H]. }
    assert (Ht : open_brace :: t = rev u ++ close_brace :: rev q').
    { rewrite <- (rev_involutive (open_brace :: t)), Hrev, rev_app_distr.
      simpl. now rewrite <- app_assoc. }
    destruct (rev u) as [|o mid] eqn:Eu.
    { simpl in Ht. injection Ht as Habs _. discriminate Habs. }
    simpl in Ht. injection Ht as <- ->.
    exists p, mid, (rev q'). repeat split.
    + simpl. now rewrite <- app_assoc.
    + exact Hp.
    + now apply Forall_rev.
    + rewrite Hm. simpl. now rewrite Eu.
  - intros (p & mid & q & -> & Hp & Hq & ->).
    now apply match_braces_wrapped.
Qed.

Lemma match_braces_None_iff (text : jsstring) :
  match_braces text = None <->
  ~ In close_brace (from_first open_brace text).
Proof.
  unfold match_braces. split.
  - intros H Hin. apply in_rev in Hin.
    destruct (from_first close_brace (rev (from_first open_brace text)))
      as [|c u] eqn:E.
    + apply from_first_nil, Forall_neq_not_In in E. contradiction.
    + apply from_first_cons in E as (-> & _).
      destruct (rev (close_brace :: u)) eqn:Er; [|discriminate].
      apply (f_equal (@List.length N)) in Er. rewrite length_rev in Er.
      discriminate.
  - intros H.
    rewrite from_first_absent; [reflexivity|].
    apply Forall_neq_not_In. intros Hin. apply H. now apply in_rev.
Qed.

Lemma parse_model_reply_no_span (failure text : jsstring) (e : thrown) :
  JSON_parse text = Throw e ->
  ~ In close_brace (from_first open_brace text) ->
  parse_model_reply failure text = Throw (new_Error failure).
Proof.
  intros H1 H2. apply match_braces_None_iff in H2.
  unfold parse_model_reply, try_catch. now rewrite H1, H2.
Qed.

(** X2: the parsing step fails with the pipeline's own error ("Could not
    parse ...") exactly when JSON.parse rejects the text and no closing
    brace follows its first opening brace; there is no third attempt. *)
Theorem parse_model_reply_gives_up_iff (failure text : jsstring) :
  parse_model_reply failure text = Throw (new_Error failure) <->
  (exists e, JSON_parse text = Throw e)
  /\ ~ In close_brace (from_first open_brace text).
Proof.
  rewrite <- match_braces_None_iff.
  unfold parse_model_reply, try_catch. split.
  - destruct (JSON_parse text) as [v|e] eqn:E1; [discriminate|].
    destruct (match_braces text) as [m|] eqn:Em.
    + unfold JSON_parse.
      destruct (parse_value (parse_fuel m) m) as [v r| |];
        [destruct (skip_ws r); [discriminate|] | |];
        intros H; injection H as H _; vm_compute in H; discriminate.
    + eauto.
  - intros [(e & He) Hn]. apply match_braces_None_iff in Hn.
    exact (parse_model_reply_no_span failure text e He Hn).
Qed.

(* ------------------------------------------------------------------ *)
(** ** generateContent: failures and the shape of the result *)

Lemma content_of_reply_inv (rt : Runtime) (p : jsstring) (v : json)
    (c : GeneratedContent) :
  content_of_reply rt p v = Ok c ->
  exists b items joined,
    join_by (element_text rt) (js " ") items = Ok joined
    /\ c = reply_content p b items joined.
Proof.
  unfold content_of_reply. intros H.
  apply bind_Ok_inv in H as (body_v & _ & H).
  apply bind_Ok_inv in H as (hashtags_v & _ & H).
  apply bind_Ok_inv in H as (joined & Hj & H).
  destruct (or_default rt body_v (JString [])) as [| | |b| |];
    try discriminate.
  destruct (or_default rt hashtags_v (JArray [])) as [| | | |items|];
    try discriminate.
  injection H as <-. now exists b, items, joined.
Qed.

Lemma generateContent_Ok_inv (rt : Runtime)
    (request : ContentGenerationRequest) (c : GeneratedContent) :
  generateContent rt request = Ok c ->
  exists b items joined,
    join_by (element_text rt) (js " ") items = Ok joined
    /\ c = reply_content (req_platform request) b items joined.
Proof.
  rewrite generateContent_unfold. intros H.
  apply bind_Ok_inv in H as (prompt & _ & H).
  apply try_catch_rethrow_Ok
    with (wrap := fun error =>
                    new_Error (js "Content generation failed: "
                               ++ message_of error)) in H.
  apply bind_Ok_inv in H as (content & _ & H).
  apply bind_Ok_inv in H as (textContent & _ & H).
  apply bind_Ok_inv in H as (parsedContent & _ & H).
  exact (content_of_reply_inv _ _ _ _ H).
Qed.

Lemma ceil_div_200_positive (n : N) : 1 <= n -> (1 <= ceil_div_200 n)%Z.
Proof.
  intros H. unfold ceil_div_200.
  assert (1 <= (n + 199) / 200).
  { apply N.div_le_lower_bound; lia. }
  lia.
Qed.

Lemma split_count_positive (sep : N) (s : jsstring) : 1 <= split_count sep s.
Proof. unfold split_count. lia. Qed.

(** X3: every failure inside the try block of generateContent leaves it as
    an Error whose message is "Content generation failed: " followed by the
    message of that very failure: the error the model call threw, the error
    of the empty reply, the error of the parsing step, or the error raised
    while the fields of the reply are read.  A reply that passes the four
    stages is returned as the fields were read. *)
Theorem generateContent_failures_wrapped
    (rt : Runtime) (request : ContentGenerationRequest) (prompt : jsstring) :
  prompt_of rt request = Ok prompt ->
  (forall e,
     invokeLLM rt system_message prompt = Throw e ->
     generateContent rt request = Throw (generation_error e))
  /\ (forall content e,
        invokeLLM rt system_message prompt = Ok content ->
        text_of_content content = Throw e ->
        generateContent rt request = Throw (generation_error e))
  /\ (forall content text e,
        invokeLLM rt system_message prompt = Ok content ->
        text_of_content content = Ok text ->
        parse_content_reply text = Throw e ->
        generateContent rt request = Throw (generation_error e))
  /\ (forall content text parsedContent e,
        invokeLLM rt system_message prompt = Ok content ->
        text_of_content content = Ok text ->
        parse_content_reply text = Ok parsedContent ->
        content_of_reply rt (req_platform request) parsedContent = Throw e ->
        generateContent rt request = Throw (generation_error e))
  /\ (forall content text parsedContent c,
        invokeLLM rt system_message prompt = Ok content ->
        text_of_content content = Ok text ->
        parse_content_reply text = Ok parsedContent ->
        content_of_reply rt (req_platform request) parsedContent = Ok c ->
        generateContent rt request = Ok c).
Proof.
  intros Hp. rewrite generateContent_unfold, Hp. cbn [bind].
  repeat split.
  - intros e ->. reflexivity.
  - intros content e -> H. cbn [bind]. now rewrite H.
  - intros content text e -> H1 H2. cbn [bind]. rewrite H1. cbn [bind].
    now rewrite H2.
  - intros content text parsedContent e -> H1 H2 H3. cbn [bind]. rewrite H1.
    cbn [bind]. rewrite H2. cbn [bind]. now rewrite H3.
  - intros content text parsedContent c -> H1 H2 H3. cbn [bind]. rewrite H1.
    cbn [bind]. rewrite H2. cbn [bind]. now rewrite H3.
Qed.

Lemma generateContent_failures_wrapped_witness :
  generateContent
    (sample_runtime (Throw (new_Error (js "429 Too Many Requests"))))
    (sample_request "linkedin")
  = Throw (new_Error
             (js "Content generation failed: 429 Too Many Requests")).
Proof.
  destruct (prompt_of_defined
              (sample_runtime (Throw (new_Error (js "429 Too Many Requests"))))
              (sample_request "linkedin")) as [prompt Hp];
    [vm_compute; discriminate|].
  destruct (generateContent_failures_wrapped _ _ prompt Hp) as [H _].
  exact (H _ eq_refl).
Defined.

(** X4: whenever generateContent returns content, its platform is the
    platform of the request, its image fields are empty, its hashtags are an
    array, its characterCount is the length of the body plus the length of
    the hashtags joined by single spaces (so at least the length of the
    body), and its estimatedReadTime is at least 1. *)
Theorem generateContent_result_shape
    (rt : Runtime) (request : ContentGenerationRequest)
    (c : GeneratedContent) :
  generateContent rt request = Ok c ->
  platform c = req_platform request
  /\ imageUrl c = None
  /\ imagePrompt c = None
  /\ (exists items joined,
        hashtags c = Some items
        /\ join_by (element_text rt) (js " ") items = Ok joined
        /\ characterCount c = Z.of_N (js_length (body c) + js_length joined))
  /\ (Z.of_N (js_length (body c)) <= characterCount c)%Z
  /\ (exists minutes, estimatedReadTime c = Some minutes /\ (1 <= minutes)%Z).
Proof.
  intros H.
  apply generateContent_Ok_inv in H as (b & items & joined & Hj & ->).
  cbn [reply_content platform imageUrl imagePrompt hashtags characterCount
       body estimatedReadTime].
  repeat split.
  - exists items, joined. repeat split. exact Hj.
  - lia.
  - eexists. split; [reflexivity|].
    apply ceil_div_200_positive, split_count_positive.
Qed.

Lemma generateContent_result_shape_witness :
  platform (reply_content (js "twitter") (js "Hello world")
              [JString (js "a"); JString (js "bc")] (js "a bc"))
  = js "twitter"
  /\ characterCount (reply_content (js "twitter") (js "Hello world")
                       [JString (js "a"); JString (js "bc")] (js "a bc"))
     = 15%Z.
Proof.
  destruct (generateContent_result_shape
              (sample_runtime (says hello_text)) (sample_request "twitter")
              (reply_content (js "twitter") (js "Hello world")
                 [JString (js "a"); JString (js "bc")] (js "a bc")))
    as (Hp & _).
  - vm_compute. reflexivity.
  - split; [exact Hp | vm_compute; reflexivity].
Defined.

(** X5: for a request whose platform lookup is defined, a model call that
    returns no content, or the empty string, makes generateContent fail with
    "Content generation failed: Empty response from Claude". *)
Theorem generateContent_empty_reply
    (rt : Runtime) (request : ContentGenerationRequest)
    (prompt : jsstring) (content : option message_content) :
  prompt_of rt request = Ok prompt ->
  invokeLLM rt system_message prompt = Ok content ->
  content = None \/ content = Some (ContentText []) ->
  generateContent rt request = Throw empty_reply_error.
Proof.
  intros Hp Hllm Hc. rewrite generateContent_unfold, Hp. cbn [bind].
  rewrite Hllm. cbn [bind]. destruct Hc as [-> | ->]; reflexivity.
Qed.

Lemma generateContent_empty_reply_witness :
  generateContent (sample_runtime (Ok (Some (ContentText []))))
    (sample_request "facebook")
  = Throw empty_reply_error.
Proof.
  destruct (prompt_of_defined (sample_runtime (Ok (Some (ContentText []))))
              (sample_request "facebook")) as [prompt Hp];
    [vm_compute; discriminate|].
  exact (generateContent_empty_reply _ _ prompt _ Hp eq_refl
           (or_intror eq_refl)).
Defined.

(** X6: for a request whose platform lookup is defined, a reply that is not
    JSON and in which no closing brace follows the first opening brace makes
    generateContent fail with "Content generation failed: Could not parse
    Claude response as JSON". *)
Theorem generateContent_unparseable_reply
    (rt : Runtime) (request : ContentGenerationRequest)
    (prompt text : jsstring) (e : thrown) :
  prompt_of rt request = Ok prompt ->
  invokeLLM rt system_message prompt = Ok (Some (ContentText text)) ->
  text <> [] ->
  JSON_parse text = Throw e ->
  ~ In close_brace (from_first open_brace text) ->
  generateContent rt request
  = Throw (new_Error
             (js "Content generation failed: Could not parse Claude response as JSON")).
Proof.
  intros Hp Hllm Hne Hparse Hbrace.
  rewrite generateContent_unfold, Hp. cbn [bind]. rewrite Hllm. cbn [bind].
  destruct text as [|ch text]; [contradiction|].
  cbn [text_of_content bind].
  assert (Hstep : parse_content_reply (ch :: text)
                  = Throw (new_Error
                             (js "Could not parse Claude response as JSON"))).
  { exact (parse_model_reply_no_span _ _ e Hparse Hbrace). }
  rewrite Hstep. reflexivity.
Qed.

Lemma generateContent_unparseable_reply_witness :
  generateContent (sample_runtime (says (js "I cannot help with that.")))
    (sample_request "tiktok")
  = Throw (new_Error
             (js "Content generation failed: Could not parse Claude response as JSON")).
Proof.
  destruct (prompt_of_defined
              (sample_runtime (says (js "I cannot help with that.")))
              (sample_request "tiktok")) as [prompt Hp];
    [vm_compute; discriminate|].
  apply (generateContent_unparseable_reply _ _ prompt
           (js "I cannot help with that.") JSON_SyntaxError Hp eq_refl).
  - vm_compute. discriminate.
  - vm_compute. reflexivity.
  - vm_compute. intros H. exact H.
Defined.

(* ------------------------------------------------------------------ *)
(** ** generateContent: how hashtags count *)

Lemma join_by_strings (rt : Runtime) (sep : jsstring) (tags : list jsstring) :
  join_by (element_text rt) sep (map JString tags) = Ok (join sep tags).
Proof.
  induction tags as [|t tags IH]; [reflexivity|].
  destruct tags as [|t' tags]; [reflexivity|].
  change (join_by (element_text rt) sep (map JString (t :: t' :: tags)))
    with (a <- Ok t ;;
          b <- join_by (element_text rt) sep (map JString (t' :: tags)) ;;
          Ok (a ++ sep ++ b)).
  rewrite IH. reflexivity.
Qed.

Lemma length_join (sep : jsstring) (parts : list jsstring) :
  List.length (join sep parts)
  = (total_length parts + List.length sep * pred (List.length parts))%nat.
Proof.
  unfold total_length.
  induction parts as [|p parts IH]; [simpl; lia|].
  destruct parts as [|p' parts].
  - simpl. lia.
  - change (join sep (p :: p' :: parts)) with (p ++ sep ++ join sep (p' :: parts)).
    rewrite !length_app, IH. simpl. lia.
Qed.

(** X7: when the reply of the model is an object whose body is a string
    and whose hashtags are an array of n strings, generateContent returns
    them with characterCount equal to the length of the body plus the
    lengths of the hashtags plus n - 1 (one space between two hashtags,
    nothing between body and hashtags, 0 for no hashtag). *)
Theorem generateContent_counts_hashtags
    (rt : Runtime) (request : ContentGenerationRequest)
    (prompt text b : jsstring) (members : list (jsstring * json))
    (tags : list jsstring) :
  prompt_of rt request = Ok prompt ->
  invokeLLM rt system_message prompt = Ok (Some (ContentText text)) ->
  text <> [] ->
  parse_content_reply text = Ok (JObject members) ->
  get_member (js "body") members = Some (JString b) ->
  get_member (js "hashtags") members = Some (JArray (map JString tags)) ->
  exists c,
    generateContent rt request = Ok c
    /\ body c = b
    /\ hashtags c = Some (map JString tags)
    /\ characterCount c
       = Z.of_nat (List.length b + total_length tags + pred (List.length tags)).
Proof.
  intros Hp Hllm Hne Hparse Hb Hh.
  rewrite (generateContent_on_reply rt request prompt text _ Hp Hllm Hne Hparse).
  rewrite (content_of_reply_object rt _ members b (map JString tags)
             (join (js " ") tags)).
  - eexists. split; [reflexivity|]. repeat split.
    cbn [reply_content characterCount]. unfold js_length.
    rewrite length_join. change (List.length (js " ")) with 1%nat. lia.
  - rewrite Hb. apply or_default_string.
  - now rewrite Hh.
  - apply join_by_strings.
Qed.

Lemma generateContent_counts_hashtags_witness :
  exists c,
    generateContent (sample_runtime (says launch_text)) (sample_request "instagram")
    = Ok c
    /\ body c = js "Launch day"
    /\ hashtags c = Some (map JString [js "new"; js "sale"; js "today"])
    /\ characterCount c = 24%Z.
Proof.
  destruct (prompt_of_defined (sample_runtime (says launch_text))
              (sample_request "instagram")) as [prompt Hp];
    [vm_compute; discriminate|].
  assert (Hne : launch_text <> []) by (vm_compute; discriminate).
  assert (Hparse : parse_content_reply launch_text
                   = Ok (JObject
                           [(js "body", JString (js "Launch day"));
                            (js "hashtags",
                             JArray (map JString [js "new"; js "sale"; js "today"]))]))
    by (vm_compute; reflexivity).
  exact (generateContent_counts_hashtags
           (sample_runtime (says launch_text)) (sample_request "instagram")
           prompt launch_text (js "Launch day") _
           [js "new"; js "sale"; js "today"]
           Hp eq_refl Hne Hparse eq_refl eq_refl).
Defined.

(* ------------------------------------------------------------------ *)
(** ** validateContent: when content is valid *)

(** X8: validateContent returns isValid true exactly when the platform is in
    the table, the character count and the hashtag count are within its
    limits and the body is not empty once trimmed, or when the platform key
    names a property inherited from Object.prototype and the body is not
    empty once trimmed. *)
Theorem validateContent_valid_iff (content : GeneratedContent) :
  isValid (validateContent content) = true <->
  (exists spec,
      within_limits content spec /\ body_is_empty (body content) = false)
  \/ (PLATFORM_SPECS_get (platform content) = Inherited
      /\ body_is_empty (body content) = false).
Proof.
  split.
  - unfold validateContent.
    destruct (PLATFORM_SPECS_get (platform content)) as [spec| |] eqn:Hspec;
      cbn [spec_field gt_number isValid].
    + intros H.
      apply push_if_empty_inv in H as [Hbody H].
      apply push_if_empty_inv in H as [Htags H].
      apply push_if_empty_inv in H as [Hlen _].
      left. exists spec. split; [|exact Hbody].
      split; [exact Hspec|]. split.
      * rewrite Z.gtb_ltb in Hlen. now apply Z.ltb_ge.
      * intros n Hn. rewrite Hn in Htags. cbn in Htags.
        rewrite Z.gtb_ltb in Htags. now apply Z.ltb_ge.
    + intros H. apply push_if_empty_inv in H as [Hbody _]. now right.
    + discriminate.
  - intros [(spec & Hlim & Hbody) | (Hspec & Hbody)].
    + destruct Hlim as (Hspec & Hlen & Htags).
      unfold validateContent. rewrite Hspec. cbn [spec_field gt_number].
      replace (Z.gtb (characterCount content) (maxLength spec)) with false
        by (symmetry; rewrite Z.gtb_ltb; now apply Z.ltb_ge).
      destruct (hashtag_count content) as [n|] eqn:Hn.
      * replace (Z.gtb n (hashtagLimit spec)) with false
          by (symmetry; rewrite Z.gtb_ltb; apply Z.ltb_ge; now apply Htags).
        rewrite Hbody. reflexivity.
      * rewrite Hbody. reflexivity.
    + unfold validateContent. rewrite Hspec.
      cbn [spec_field gt_number].
      destruct (hashtag_count content); rewrite Hbody; reflexivity.
Qed.

Lemma prototype_name_lookup (key : jsstring) :
  In key Object_prototype_names -> PLATFORM_SPECS_get key = Inherited.
Proof.
  intros H. simpl in H.
  repeat (destruct H as [<- | H]; [vm_compute; reflexivity|]).
  contradiction.
Qed.

(** X9: for a platform key that names a property of Object.prototype
    (constructor, toString, valueOf, ...), validateContent reports no unknown
    platform and applies neither the length nor the hashtag check: every
    content with a body that is not empty once trimmed is accepted. *)
Theorem validateContent_prototype_key (content : GeneratedContent) :
  In (platform content) Object_prototype_names ->
  body_is_empty (body content) = false ->
  validateContent content = accepted.
Proof.
  intros Hkey Hbody. unfold validateContent.
  rewrite (prototype_name_lookup _ Hkey). cbn [spec_field gt_number].
  destruct (hashtag_count content); rewrite Hbody; reflexivity.
Qed.

Lemma validateContent_prototype_key_witness :
  validateContent constructor_post = accepted.
Proof.
  apply validateContent_prototype_key.
  - left. reflexivity.
  - vm_compute. reflexivity.
Defined.

(* ------------------------------------------------------------------ *)
(** ** validateAnalysis: which issues are reported *)

Lemma In_push_if (m : jsstring) (c : bool) (msg : jsstring)
    (l : list jsstring) :
  In m (push_if c msg l) <-> In m l \/ (c = true /\ m = msg).
Proof.
  destruct c; simpl.
  - rewrite in_app_iff. simpl. intuition.
  - intuition. discriminate.
Qed.

Lemma not_false_iff_true_of (b : bool) (P : Prop) :
  (b = false <-> P) -> (b = true <-> ~ P).
Proof. destruct b; intuition; discriminate. Qed.

Ltac distinct_messages :=
  match goal with
  | H : js _ = js _ |- _ => vm_compute in H; discriminate H
  end.

(** X10: validateAnalysis reports each failed check and nothing else: the
    industry issue is in the list exactly when the industry is missing or
    shorter than 3, the tone issue exactly when the tone is missing or
    empty, the keyword issue exactly when there are fewer than 3 brand
    keywords, the demographics issue exactly when they are missing or empty,
    the topics issue exactly when there are fewer than 3 topics, the
    platforms issue exactly when there is no platform; and isValid is true
    exactly when the list is empty. *)
Theorem validateAnalysis_issues (a : NicheAnalysisResult) :
  (In (js "Industry classification is missing or too short")
      (issues (validateAnalysis a))
   <-> ~ exists s, industry a = Some s /\ (3 <= List.length s)%nat)
  /\ (In (js "Brand voice tone is missing") (issues (validateAnalysis a))
      <-> ~ non_empty (optional_chain (brandVoice a) bv_tone))
  /\ (In (js "Insufficient brand keywords") (issues (validateAnalysis a))
      <-> ~ at_least_3 (optional_chain (brandVoice a) bv_keywords))
  /\ (In (js "Target audience demographics missing")
         (issues (validateAnalysis a))
      <-> ~ non_empty (optional_chain (targetAudience a) ta_demographics))
  /\ (In (js "Insufficient content topics") (issues (validateAnalysis a))
      <-> ~ at_least_3 (optional_chain (contentStrategy a) cs_topics))
  /\ (In (js "No platforms recommended") (issues (validateAnalysis a))
      <-> ~ exists items,
            optional_chain (contentStrategy a) cs_platforms = Some items
            /\ (1 <= List.length items)%nat)
  /\ (isValid (validateAnalysis a) = true <-> issues (validateAnalysis a) = []).
Proof.
  unfold validateAnalysis. cbn [issues isValid].
  rewrite <- (not_false_iff_true_of _ _ (industry_check_false (industry a))).
  rewrite <- !(not_false_iff_true_of _ _ (string_falsy_false _)).
  unfold at_least_3.
  rewrite <- !(not_false_iff_true_of _ _ (missing_or_shorter_false _ 3)).
  rewrite <- (not_false_iff_true_of _ _ (missing_or_shorter_false _ 1)).
  rewrite !In_push_if. simpl In.
  repeat split; intros; intuition; try distinct_messages.
  - match goal with
    | H : (List.length ?l =? 0)%nat = true |- _ =>
      apply Nat.eqb_eq in H; destruct l; [reflexivity | discriminate]
    end.
  - match goal with
    | H : ?l = [] |- (List.length ?l =? 0)%nat = true => now rewrite H
    end.
Qed.

(* ------------------------------------------------------------------ *)
(** ** enhanceText *)

Lemma enhanceText_unfold (rt : Runtime) (text : jsstring)
    (instructions : option jsstring) :
  enhanceText rt text instructions =
  try_catch
    (content <- invokeLLM rt enhance_system_message
                  (enhance_prompt text instructions) ;;
     textContent <- text_of_content content ;;
     Ok (trim textContent))
    (fun _ => Ok text).
Proof. reflexivity. Qed.

(** X11: enhanceText never fails.  When the model call throws, or returns
    no content or the empty string, it returns the original text unchanged;
    when the model returns a non-empty string it returns that string
    trimmed, even if nothing is left of it. *)
Theorem enhanceText_falls_back
    (rt : Runtime) (text : jsstring) (instructions : option jsstring) :
  (exists r, enhanceText rt text instructions = Ok r)
  /\ (forall e,
        invokeLLM rt enhance_system_message (enhance_prompt text instructions)
        = Throw e ->
        enhanceText rt text instructions = Ok text)
  /\ (forall content,
        invokeLLM rt enhance_system_message (enhance_prompt text instructions)
        = Ok content ->
        content = None \/ content = Some (ContentText []) ->
        enhanceText rt text instructions = Ok text)
  /\ (forall c reply,
        invokeLLM rt enhance_system_message (enhance_prompt text instructions)
        = Ok (Some (ContentText (c :: reply))) ->
        enhanceText rt text instructions = Ok (trim (c :: reply))).
Proof.
  rewrite enhanceText_unfold. repeat split.
  - destruct (invokeLLM rt enhance_system_message
                (enhance_prompt text instructions)) as [content|e];
      cbn; eauto.
    destruct (text_of_content content); cbn; eauto.
  - intros e ->. reflexivity.
  - intros content -> [-> | ->]; reflexivity.
  - intros c reply ->. reflexivity.
Qed.

Lemma enhanceText_falls_back_witness :
  enhanceText (sample_runtime (Throw (new_Error (js "401 invalid key"))))
    (js "Test text") None
  = Ok (js "Test text")
  /\ enhanceText (sample_runtime (says (js "   ")))
       (js "Test text") None
     = Ok [].
Proof.
  split.
  - destruct (enhanceText_falls_back
                (sample_runtime (Throw (new_Error (js "401 invalid key"))))
                (js "Test text") None) as (_ & H & _).
    exact (H _ eq_refl).
  - destruct (enhanceText_falls_back (sample_runtime (says (js "   ")))
                (js "Test text") None) as (_ & _ & _ & H).
    rewrite (H 32 (js "  ") eq_refl). vm_compute. reflexivity.
Defined.

(* ------------------------------------------------------------------ *)
(** ** generateImage and generateContentWithImage *)

(** X12: generateImage never fails, and it returns a URL only when the API
    key is set and the image service answered with that URL, which is then
    not empty; in every other case it returns null. *)
Theorem generateImage_result
    (rt : Runtime) (prompt : jsstring) (style : option jsstring) :
  exists r,
    generateImage rt prompt style = Ok r
    /\ forall url,
         r = Some url ->
         url <> []
         /\ api_key_missing rt = false
         /\ images_generate rt
              (prompt ++ js ". Style: "
               ++ match style with Some s => s | None => js "natural" end
               ++ js ". High quality, professional, suitable for social media.")
            = Ok (Some url).
Proof.
  unfold generateImage. cbv zeta.
  destruct (api_key_missing rt).
  { eexists. split; [reflexivity|]. discriminate. }
  match goal with
  | |- context [images_generate rt ?p] =>
    destruct (images_generate rt p) as [[[|c u]|]|e] eqn:E
  end; cbn; eexists; (split; [reflexivity|]); try discriminate.
  intros url H. injection H as <-. repeat split; try discriminate.
  exact E.
Qed.

(** X13: the image step only adds to the content: whenever
    generateContentWithImage returns, generateContent returned too, and body,
    hashtags, platform, characterCount and estimatedReadTime are those of its
    content; without includeImage the content is returned as it is, and the
    image service is not consulted; with includeImage the imagePrompt is the
    topic, followed by ". " and the style when a style is given. *)
Theorem generateContentWithImage_frame
    (rt : Runtime) (request : ContentGenerationRequest)
    (c : GeneratedContent) :
  generateContentWithImage rt request = Ok c ->
  exists c0,
    generateContent rt request = Ok c0
    /\ body c = body c0
    /\ hashtags c = hashtags c0
    /\ platform c = platform c0
    /\ characterCount c = characterCount c0
    /\ estimatedReadTime c = estimatedReadTime c0
    /\ (req_includeImage request = false -> c = c0)
    /\ (req_includeImage request = true ->
        imagePrompt c = Some (image_prompt_of request)
        /\ generateImage rt (image_prompt_of request) (req_imageStyle request)
           = Ok (imageUrl c)).
Proof.
  unfold generateContentWithImage. intros H.
  apply bind_Ok_inv in H as (c0 & Hc0 & H).
  exists c0. split; [exact Hc0|].
  destruct (req_includeImage request).
  - apply bind_Ok_inv in H as (url & Hurl & H). injection H as <-.
    cbn [with_image body hashtags platform characterCount estimatedReadTime
         imagePrompt imageUrl].
    repeat split; try discriminate. exact Hurl.
  - injection H as <-. repeat split; discriminate.
Qed.

Lemma generateContentWithImage_frame_witness :
  exists c0,
    generateContent failing_image_runtime image_request = Ok c0
    /\ body c0 = js "Hello world".
Proof.
  destruct (generateContentWithImage_frame failing_image_runtime image_request
              (with_image
                 (reply_content (js "instagram") (js "Hello world")
                    [JString (js "a"); JString (js "bc")] (js "a bc"))
                 None (js "Business growth strategies. watercolor")))
    as (c0 & Hc0 & Hbody & _).
  - vm_compute. reflexivity.
  - exists c0. split; [exact Hc0|]. rewrite <- Hbody. vm_compute. reflexivity.
Defined.

(* ------------------------------------------------------------------ *)
(** ** addContentGenerationJob and getJobStatus together *)

Lemma run_directly_inv (rt : Runtime) (data : ContentGenerationRequest)
    (r : SubmitResult) :
  run_directly rt data = Ok r ->
  exists c,
    generateContentWithImage rt data = Ok c
    /\ r = {| jobId := direct_id rt; result := Some c |}.
Proof.
  unfold run_directly, executeContentGeneration. intros H.
  apply bind_Ok_inv in H as (c & Hc & H). injection H as <-. eauto.
Qed.

Lemma addContentGenerationJob_inv (rt : Runtime)
    (data : ContentGenerationRequest) (r : SubmitResult) :
  addContentGenerationJob rt data = Ok r ->
  (broker_available rt
   /\ exists id,
        queue_add rt (js "content-generation") (js "generate") data = Ok id
        /\ r = {| jobId := or_string id (js "job-" ++ N_to_js (Date_now rt));
                  result := None |})
  \/ (direct_mode rt data
      /\ exists c,
           generateContentWithImage rt data = Ok c
           /\ r = {| jobId := direct_id rt; result := Some c |}).
Proof.
  unfold addContentGenerationJob, Queue_defined.
  destruct (REDIS_AVAILABLE rt) eqn:Hr; cbn [negb orb andb].
  - destruct (bullmq_loaded rt) eqn:Hb; cbn [negb].
    + destruct (queue_add rt (js "content-generation") (js "generate") data)
        as [id|e] eqn:Hq; cbn [bind try_catch].
      * intros H. injection H as <-. left. split; [now split|]. eauto.
      * intros H. right. split; [right; right; eauto|].
        now apply run_directly_inv.
    + intros H. right. split; [right; now left|]. now apply run_directly_inv.
  - intros H. right. split; [now left|]. now apply run_directly_inv.
Qed.

(** X14: a successful submit carries a result exactly when it ran the
    pipeline itself: either the broker is configured, the job was enqueued,
    the jobId is the broker's (or job-<time> when the broker gave none) and
    there is no result; or the pipeline ran in the call, the jobId is
    direct-<time> and the result is what generateContentWithImage
    returned. *)
Theorem addContentGenerationJob_modes
    (rt : Runtime) (data : ContentGenerationRequest) (r : SubmitResult) :
  addContentGenerationJob rt data = Ok r ->
  (result r = None
   /\ broker_available rt
   /\ exists id,
        queue_add rt (js "content-generation") (js "generate") data = Ok id
        /\ jobId r = or_string id (js "job-" ++ N_to_js (Date_now rt)))
  \/ (exists c,
        result r = Some c
        /\ jobId r = direct_id rt
        /\ generateContentWithImage rt data = Ok c
        /\ direct_mode rt data).
Proof.
  intros H.
  apply addContentGenerationJob_inv in H
    as [(Hb & id & Hq & ->) | (Hd & c & Hc & ->)].
  - left. cbn. eauto.
  - right. exists c. cbn. auto.
Qed.

Lemma addContentGenerationJob_modes_witness :
  exists id,
    queue_add (broker_runtime (Ok None)) (js "content-generation")
      (js "generate") (sample_request "twitter") = Ok id
    /\ or_string id (js "job-0") = js "42".
Proof.
  destruct (addContentGenerationJob_modes (broker_runtime (Ok None))
              (sample_request "twitter")
              {| jobId := js "42"; result := None |})
    as [(_ & _ & id & Hq & Hid) | (c & Hres & _)].
  - vm_compute. reflexivity.
  - exists id. split; [exact Hq|]. injection Hq as <-. vm_compute. reflexivity.
  - discriminate Hres.
Defined.

(** X15: a job that was submitted and came back with its result has a jobId
    that getJobStatus resolves to completed, for every queue name and
    whatever the state of the broker at the time of the lookup. *)
Theorem submitted_result_is_completed
    (rt rt' : Runtime) (data : ContentGenerationRequest) (r : SubmitResult)
    (c : GeneratedContent) (queueName : jsstring) :
  addContentGenerationJob rt data = Ok r ->
  result r = Some c ->
  getJobStatus rt' queueName (jobId r)
  = Ok {| status := js "completed";
          status_result := Some direct_note;
          status_error := None |}.
Proof.
  intros H Hres.
  apply addContentGenerationJob_inv in H
    as [(_ & id & _ & ->) | (_ & c' & _ & ->)].
  - discriminate Hres.
  - cbn [jobId]. unfold getJobStatus. now rewrite direct_id_tagged.
Qed.

Lemma submitted_result_is_completed_witness :
  getJobStatus (broker_runtime (Ok None)) (js "content-generation")
    (js "direct-1700000000000")
  = Ok {| status := js "completed";
          status_result := Some direct_note;
          status_error := None |}.
Proof.
  exact (submitted_result_is_completed
           (sample_runtime (says hello_text)) (broker_runtime (Ok None))
           (sample_request "twitter")
           {| jobId := js "direct-1700000000000";
              result := Some (reply_content (js "twitter") (js "Hello world")
                                [JString (js "a"); JString (js "bc")]
                                (js "a bc")) |}
           _ (js "content-generation")
           ltac:(vm_compute; reflexivity) eq_refl).
Defined.

(* ------------------------------------------------------------------ *)
(** ** scrapeWebsite: what a scraped site holds *)

Lemma existsb_eqb_true (x : jsstring) (l : list jsstring) :
  existsb (jsstring_eqb x) l = true <-> In x l.
Proof.
  rewrite existsb_exists. split.
  - intros (y & Hin & Heq). apply jsstring_eqb_eq in Heq. now subst.
  - intros Hin. exists x. split; [exact Hin | apply jsstring_eqb_refl].
Qed.

Lemma dedupe_In (l seen : list jsstring) (x : jsstring) :
  In x (dedupe seen l) -> In x l /\ ~ In x seen.
Proof.
  revert seen. induction l as [|y l IH]; intros seen; simpl; [contradiction|].
  destruct (existsb (jsstring_eqb y) seen) eqn:E.
  - intros H. apply IH in H as [H1 H2]. auto.
  - intros [<- | H].
    + split; [now left|]. intros Hin. apply existsb_eqb_true in Hin. congruence.
    + apply IH in H as [H1 H2]. split; [now right|].
      intros Hin. apply H2. now right.
Qed.

Lemma dedupe_NoDup (l seen : list jsstring) : NoDup (dedupe seen l).
Proof.
  revert seen. induction l as [|y l IH]; intros seen; simpl; [constructor|].
  destruct (existsb (jsstring_eqb y) seen); [apply IH|].
  constructor; [|apply IH].
  intros Hin. apply dedupe_In in Hin as [_ Hn]. apply Hn. now left.
Qed.

Lemma In_firstn_In {A} (n : nat) (l : list A) (x : A) :
  In x (firstn n l) -> In x l.
Proof.
  intros H. rewrite <- (firstn_skipn n l). apply in_or_app. now left.
Qed.

Lemma NoDup_firstn_of {A} (n : nat) (l : list A) :
  NoDup l -> NoDup (firstn n l).
Proof.
  intros H. rewrite <- (firstn_skipn n l) in H.
  now apply NoDup_app_remove_r in H.
Qed.

Lemma read_page_inv (p : Puppeteer) (url : jsstring) (site : ScrapedSite) :
  read_page p url = Ok site ->
  exists innerText hrefs,
    text site = firstn (N.to_nat 50000) (or_string innerText [])
    /\ links site
       = firstn 50
           (dedupe []
              (filter (fun href => negb (is_empty href)
                                   && startsWith href (js "http")) hrefs))
    /\ anchor_hrefs p = Ok hrefs
    /\ page_content p = Ok (html site).
Proof.
  unfold read_page. intros H.
  apply bind_Ok_inv in H as (x1 & _ & H).
  apply bind_Ok_inv in H as (x2 & _ & H).
  apply bind_Ok_inv in H as (x3 & _ & H).
  apply bind_Ok_inv in H as (h & Hh & H).
  apply bind_Ok_inv in H as (t & _ & H).
  apply bind_Ok_inv in H as (tags & _ & H).
  apply bind_Ok_inv in H as (innerText & _ & H).
  apply bind_Ok_inv in H as (hrefs & Hhrefs & H).
  remember (N.to_nat 50000) as cap eqn:Hcap in H.
  injection H as <-. exists innerText, hrefs.
  cbn [text links html]. rewrite Hcap.
  repeat split; try reflexivity; assumption.
Qed.

(** X16: a site scrapeWebsite returns holds at most 50000 characters of
    text and at most 50 links; the links are pairwise different, none is
    empty, each starts with http and each is the href of an anchor of the
    page. *)
Theorem scrapeWebsite_result_bounds
    (p : Puppeteer) (url : jsstring) (events events' : list browser_event)
    (site : ScrapedSite) :
  scrapeWebsite p url events = (Ok site, events') ->
  js_length (text site) <= 50000
  /\ (List.length (links site) <= 50)%nat
  /\ NoDup (links site)
  /\ (forall link,
        In link (links site) ->
        link <> []
        /\ startsWith link (js "http") = true
        /\ exists hrefs, anchor_hrefs p = Ok hrefs /\ In link hrefs).
Proof.
  rewrite scrapeWebsite_paths.
  destruct (launch p) as [u|e]; [|discriminate].
  destruct (read_page p url) as [s|e] eqn:Hread;
    [|destruct (close p 0); discriminate].
  destruct (close p 0); [|destruct (close p 1); discriminate].
  intros H. injection H as -> _.
  apply read_page_inv in Hread as (innerText & hrefs & Ht & Hl & Hh & _).
  rewrite Ht, Hl. repeat split.
  - unfold js_length.
    pose proof (firstn_le_length (N.to_nat 50000) (or_string innerText [])).
    lia.
  - apply firstn_le_length.
  - apply NoDup_firstn_of, dedupe_NoDup.
  - apply In_firstn_In, dedupe_In in H as [H _].
    apply filter_In in H as [_ H]. apply andb_true_iff in H as [H _].
    intros ->. discriminate.
  - apply In_firstn_In, dedupe_In in H as [H _].
    apply filter_In in H as [_ H]. now apply andb_true_iff in H as [_ H].
  - apply In_firstn_In, dedupe_In in H as [H _].
    apply filter_In in H as [H _]. eauto.
Qed.

Lemma scrapeWebsite_result_bounds_witness :
  (List.length (links small_site) <= 50)%nat /\ NoDup (links small_site).
Proof.
  destruct (scrapeWebsite_result_bounds small_page (js "https://example.com")
              [] [Launched; Closed] small_site) as (_ & H1 & H2 & _).
  - vm_compute. reflexivity.
  - split; assumption.
Defined.

(* ------------------------------------------------------------------ *)
(** ** extractStructuredContent *)

Lemma collect_texts_Forall (keep : jsstring -> bool) (texts : list jsstring)
    (n : nat) :
  Forall (fun t => keep t = true) (firstn n (collect_texts keep texts)).
Proof.
  apply Forall_forall. intros t H. apply In_firstn_In in H.
  unfold collect_texts in H. now apply filter_In in H.
Qed.

(** X17: whatever the markup, extractStructuredContent returns at most 20
    headings, 30 paragraphs, 10 services and 5 testimonials; no heading is
    empty, every paragraph has more than 50 characters, every service has
    more than 20 and fewer than 500, every testimonial has more than 30. *)
Theorem extractStructuredContent_bounds (ch : Cheerio) (html : jsstring) :
  ((List.length (headings (extractStructuredContent ch html)) <= 20)%nat
   /\ Forall (fun t => t <> []) (headings (extractStructuredContent ch html)))
  /\ ((List.length (paragraphs (extractStructuredContent ch html)) <= 30)%nat
      /\ Forall (fun t => 50 < js_length t)
           (paragraphs (extractStructuredContent ch html)))
  /\ ((List.length (services (extractStructuredContent ch html)) <= 10)%nat
      /\ Forall (fun t => 20 < js_length t < 500)
           (services (extractStructuredContent ch html)))
  /\ ((List.length (testimonials (extractStructuredContent ch html)) <= 5)%nat
      /\ Forall (fun t => 30 < js_length t)
           (testimonials (extractStructuredContent ch html))).
Proof.
  unfold extractStructuredContent.
  cbn [headings paragraphs services testimonials].
  repeat split; try apply firstn_le_length.
  - eapply Forall_impl; [|apply collect_texts_Forall].
    intros t H ->. discriminate.
  - eapply Forall_impl; [|apply collect_texts_Forall].
    intros t H. cbv beta in H. apply andb_true_iff in H as [_ H].
    now apply N.ltb_lt.
  - eapply Forall_impl; [|apply collect_texts_Forall].
    intros t H. cbv beta in H.
    apply andb_true_iff in H as [H H2]. apply andb_true_iff in H as [_ H1].
    split; now apply N.ltb_lt.
  - eapply Forall_impl; [|apply collect_texts_Forall].
    intros t H. cbv beta in H. apply andb_true_iff in H as [_ H].
    now apply N.ltb_lt.
Qed.

(* ------------------------------------------------------------------ *)
(** ** analyzeNiche and addNicheAnalysisJob *)

Lemma analyzeNiche_unfold (rt : Runtime) (p : Puppeteer) (ch : Cheerio)
    (request : NicheAnalysisRequest) (events : list browser_event) :
  analyzeNiche rt p ch request events =
  (try_catch
     (scrapedData <- fst (scrapeWebsite p (websiteUrl request) events) ;;
      content <- invokeLLM rt analysis_system_message
                   (analysis_prompt request scrapedData
                      (extractStructuredContent ch (html scrapedData))) ;;
      textContent <- text_of_content content ;;
      parse_analysis_reply textContent)
     (fun error =>
        Throw (new_Error (js "Niche analysis failed: " ++ message_of error))),
   snd (scrapeWebsite p (websiteUrl request) events)).
Proof.
  unfold analyzeNiche.
  now destruct (scrapeWebsite p (websiteUrl request) events).
Qed.

(** X18: analyzeNiche touches no browser but through scrapeWebsite, and
    every failure inside its try block leaves it as an Error whose message
    is "Niche analysis failed: " followed by the message of that very
    failure: the error scrapeWebsite raised, the error the model call threw,
    the error of the empty reply, or the error of the parsing step.  A reply
    that the parsing step accepts is returned as parsed. *)
Theorem analyzeNiche_failures_wrapped
    (rt : Runtime) (p : Puppeteer) (ch : Cheerio)
    (request : NicheAnalysisRequest) (events : list browser_event) :
  snd (analyzeNiche rt p ch request events)
  = snd (scrapeWebsite p (websiteUrl request) events)
  /\ (forall e,
        fst (scrapeWebsite p (websiteUrl request) events) = Throw e ->
        fst (analyzeNiche rt p ch request events) = Throw (analysis_error e))
  /\ (forall site e,
        fst (scrapeWebsite p (websiteUrl request) events) = Ok site ->
        invokeLLM rt analysis_system_message
          (analysis_prompt request site
             (extractStructuredContent ch (html site))) = Throw e ->
        fst (analyzeNiche rt p ch request events) = Throw (analysis_error e))
  /\ (forall site content e,
        fst (scrapeWebsite p (websiteUrl request) events) = Ok site ->
        invokeLLM rt analysis_system_message
          (analysis_prompt request site
             (extractStructuredContent ch (html site))) = Ok content ->
        text_of_content content = Throw e ->
        fst (analyzeNiche rt p ch request events) = Throw (analysis_error e))
  /\ (forall site content text e,
        fst (scrapeWebsite p (websiteUrl request) events) = Ok site ->
        invokeLLM rt analysis_system_message
          (analysis_prompt request site
             (extractStructuredContent ch (html site))) = Ok content ->
        text_of_content content = Ok text ->
        parse_analysis_reply text = Throw e ->
        fst (analyzeNiche rt p ch request events) = Throw (analysis_error e))
  /\ (forall site content text analysis,
        fst (scrapeWebsite p (websiteUrl request) events) = Ok site ->
        invokeLLM rt analysis_system_message
          (analysis_prompt request site
             (extractStructuredContent ch (html site))) = Ok content ->
        text_of_content content = Ok text ->
        parse_analysis_reply text = Ok analysis ->
        fst (analyzeNiche rt p ch request events) = Ok analysis).
Proof.
  rewrite analyzeNiche_unfold. cbn [fst snd].
  repeat split.
  - intros e ->. reflexivity.
  - intros site e -> H. cbn [bind]. now rewrite H.
  - intros site content e -> H1 H2. cbn [bind]. rewrite H1. cbn [bind].
    now rewrite H2.
  - intros site content text e -> H1 H2 H3. cbn [bind]. rewrite H1.
    cbn [bind]. rewrite H2. cbn [bind]. now rewrite H3.
  - intros site content text analysis -> H1 H2 H3. cbn [bind]. rewrite H1.
    cbn [bind]. rewrite H2. cbn [bind]. now rewrite H3.
Qed.

(** X19: when the browser cannot be launched, or the page cannot be read
    and the close that follows resolves, analyzeNiche fails with "Niche
    analysis failed: Failed to scrape website: " followed by the message of
    that failure, whatever the model would answer. *)
Theorem analyzeNiche_scrape_failure
    (rt : Runtime) (p : Puppeteer) (ch : Cheerio)
    (request : NicheAnalysisRequest) (events : list browser_event)
    (e : thrown) :
  launch p = Throw e
  \/ (launch p = Ok tt
      /\ read_page p (websiteUrl request) = Throw e
      /\ close p 0 = Ok tt) ->
  fst (analyzeNiche rt p ch request events)
  = Throw (new_Error
             (js "Niche analysis failed: Failed to scrape website: "
              ++ message_of e)).
Proof.
  intros H. rewrite analyzeNiche_unfold, scrapeWebsite_paths. cbn [fst].
  assert (Hmsg : js "Niche analysis failed: "
                 ++ message_of (scrape_error e)
                 = js "Niche analysis failed: Failed to scrape website: "
                   ++ message_of e) by reflexivity.
  destruct H as [-> | (-> & -> & ->)]; cbn [fst bind try_catch];
    now rewrite Hmsg.
Qed.

Lemma analyzeNiche_scrape_failure_witness :
  fst (analyzeNiche (sample_runtime (says hello_text)) unreachable_host
         {| select_text := fun _ _ => [] |}
         {| websiteUrl := js "https://no-such-host.example"; deepScrape := None |}
         [])
  = Throw (new_Error
             (js "Niche analysis failed: Failed to scrape website: net::ERR_NAME_NOT_RESOLVED")).
Proof.
  apply (analyzeNiche_scrape_failure _ unreachable_host _ _ []
           (new_Error (js "net::ERR_NAME_NOT_RESOLVED"))).
  right. repeat split; reflexivity.
Defined.

(** X20: when the page is read, the close that follows resolves and the
    model answers with text that the parsing step accepts, analyzeNiche
    returns the parsed value as it is, whatever its shape, with the browser
    launched and closed once; the result is not validated. *)
Theorem analyzeNiche_returns_parsed_reply
    (rt : Runtime) (p : Puppeteer) (ch : Cheerio)
    (request : NicheAnalysisRequest) (events : list browser_event)
    (site : ScrapedSite) (reply : jsstring) (analysis : json) :
  launch p = Ok tt ->
  read_page p (websiteUrl request) = Ok site ->
  close p 0 = Ok tt ->
  invokeLLM rt analysis_system_message
    (analysis_prompt request site (extractStructuredContent ch (html site)))
  = Ok (Some (ContentText reply)) ->
  reply <> [] ->
  parse_analysis_reply reply = Ok analysis ->
  analyzeNiche rt p ch request events
  = (Ok analysis, events ++ [Launched; Closed]).
Proof.
  intros Hl Hr Hc Hllm Hne Hparse.
  rewrite analyzeNiche_unfold, scrapeWebsite_paths, Hl, Hr, Hc.
  cbn [fst snd bind]. rewrite Hllm. cbn [bind].
  destruct reply as [|c reply]; [contradiction|].
  cbn [text_of_content bind]. now rewrite Hparse.
Qed.

Lemma analyzeNiche_returns_parsed_reply_witness :
  analyzeNiche (sample_runtime (says (js "[]"))) small_page
    {| select_text := fun _ _ => [] |}
    {| websiteUrl := js "https://example.com"; deepScrape := Some false |} []
  = (Ok (JArray []), [Launched; Closed]).
Proof.
  apply (analyzeNiche_returns_parsed_reply _ small_page _ _ [] small_site
           (js "[]") (JArray [])).
  - reflexivity.
  - vm_compute. reflexivity.
  - reflexivity.
  - reflexivity.
  - vm_compute. discriminate.
  - vm_compute. reflexivity.
Defined.

Lemma analyze_directly_unfold (rt : Runtime) (p : Puppeteer) (ch : Cheerio)
    (data : NicheAnalysisRequest) (events : list browser_event) :
  analyze_directly rt p ch data events =
  (result <- fst (analyzeNiche rt p ch data events) ;;
   Ok {| analysis_jobId := direct_id rt; analysis_result := Some result |},
   snd (analyzeNiche rt p ch data events)).
Proof.
  unfold analyze_directly, executeNicheAnalysis.
  now destruct (analyzeNiche rt p ch data events).
Qed.

(** X21: a successful addNicheAnalysisJob carries a result exactly when it
    ran the analysis itself.  Either the broker is configured, the job was
    enqueued, the jobId is the broker's (or job-<time> when the broker gave
    none), there is no result and no browser was touched; or the analysis
    ran in the call, the jobId is direct-<time>, the result is what
    analyzeNiche returned and the browser was used as analyzeNiche uses
    it. *)
Theorem addNicheAnalysisJob_modes
    (rt : Runtime) (enqueue : analysis_enqueue) (p : Puppeteer) (ch : Cheerio)
    (data : NicheAnalysisRequest) (events : list browser_event)
    (r : AnalysisSubmitResult) :
  fst (addNicheAnalysisJob rt enqueue p ch data events) = Ok r ->
  (analysis_result r = None
   /\ snd (addNicheAnalysisJob rt enqueue p ch data events) = events
   /\ broker_available rt
   /\ exists id,
        enqueue (js "niche-analysis") (js "analyze") data = Ok id
        /\ analysis_jobId r
           = or_string id (js "job-" ++ N_to_js (Date_now rt)))
  \/ (exists analysis,
        analysis_result r = Some analysis
        /\ analysis_jobId r = direct_id rt
        /\ fst (analyzeNiche rt p ch data events) = Ok analysis
        /\ snd (addNicheAnalysisJob rt enqueue p ch data events)
           = snd (analyzeNiche rt p ch data events)).
Proof.
  assert (Hdirect :
            forall r,
              fst (analyze_directly rt p ch data events) = Ok r ->
              exists analysis,
                analysis_result r = Some analysis
                /\ analysis_jobId r = direct_id rt
                /\ fst (analyzeNiche rt p ch data events) = Ok analysis
                /\ snd (analyze_directly rt p ch data events)
                   = snd (analyzeNiche rt p ch data events)).
  { rewrite analyze_directly_unfold. cbn [fst snd].
    intros r0 H. apply bind_Ok_inv in H as (v & Hv & H).
    injection H as <-. exists v. auto. }
  unfold addNicheAnalysisJob, Queue_defined.
  destruct (REDIS_AVAILABLE rt) eqn:Hr; cbn [negb orb andb];
    [|intros H; right; exact (Hdirect r H)].
  destruct (bullmq_loaded rt) eqn:Hb; cbn [negb];
    [|intros H; right; exact (Hdirect r H)].
  destruct (enqueue (js "niche-analysis") (js "analyze") data) as [id|e] eqn:Hq;
    [|intros H; right; exact (Hdirect r H)].
  cbn [fst snd]. intros H. injection H as <-. left. cbn.
  repeat split; eauto.
Qed.

Lemma addNicheAnalysisJob_modes_witness :
  exists analysis,
    fst (analyzeNiche (sample_runtime (says (js "[]"))) small_page
           {| select_text := fun _ _ => [] |}
           {| websiteUrl := js "https://example.com"; deepScrape := None |} [])
    = Ok analysis.
Proof.
  destruct (addNicheAnalysisJob_modes
              (sample_runtime (says (js "[]")))
              (fun _ _ _ => Throw NonError) small_page
              {| select_text := fun _ _ => [] |}
              {| websiteUrl := js "https://example.com"; deepScrape := None |}
              []
              {| analysis_jobId := direct_id (sample_runtime (says (js "[]")));
                 analysis_result := Some (JArray []) |})
    as [(Hnone & _) | (analysis & _ & _ & H & _)].
  - vm_compute. reflexivity.
  - discriminate Hnone.
  - now exists analysis.
Defined.

(* ------------------------------------------------------------------ *)
(** ** scrapeWebsite when the close is rejected *)



(* ------------------------------------------------------------------ *)
(** ** generateAutopilotConfig after validateAnalysis *)

Lemma validateAnalysis_valid_strategy (a : NicheAnalysisResult) :
  isValid (validateAnalysis a) = true ->
  exists cs topics platforms,
    contentStrategy a = Some cs
    /\ cs_topics cs = Some topics /\ (3 <= List.length topics)%nat
    /\ cs_platforms cs = Some platforms /\ (1 <= List.length platforms)%nat.
Proof.
  unfold validateAnalysis. cbn [isValid]. intros H.
  apply push_if_empty_inv in H as [H6 H].
  apply push_if_empty_inv in H as [H5 _].
  apply missing_or_shorter_false in H6 as (platforms & Hp & Lp).
  apply missing_or_shorter_false in H5 as (topics & Ht & Lt).
  destruct (contentStrategy a) as [cs|]; [|discriminate].
  exists cs, topics, platforms. cbn in Hp, Ht. auto.
Qed.

(** X22: for an analysis that validateAnalysis accepts,
    generateAutopilotConfig fails with a TypeError when the analysis has no
    autopilotConfig (which validateAnalysis does not check), and otherwise
    returns a configuration with at least 3 topics and at least 1 platform,
    whose enabled flag, content types and schedule are those of the
    autopilotConfig. *)
Theorem generateAutopilotConfig_of_valid (a : NicheAnalysisResult) :
  isValid (validateAnalysis a) = true ->
  (autopilotConfig a = None ->
   generateAutopilotConfig a
   = Throw (TypeError
              (js "Cannot read properties of undefined (reading 'enabled')")))
  /\ (forall ap,
        autopilotConfig a = Some ap ->
        exists cfg topics platforms,
          generateAutopilotConfig a = Ok cfg
          /\ cfg_topics cfg = Some topics /\ (3 <= List.length topics)%nat
          /\ cfg_platforms cfg = Some platforms
          /\ (1 <= List.length platforms)%nat
          /\ cfg_enabled cfg = ap_enabled ap
          /\ cfg_contentTypes cfg = ap_contentTypes ap
          /\ cfg_postingSchedule cfg = ap_postingSchedule ap).
Proof.
  intros H.
  apply validateAnalysis_valid_strategy in H
    as (cs & topics & platforms & Hcs & Ht & Lt & Hp & Lp).
  unfold generateAutopilotConfig. split.
  - intros ->. reflexivity.
  - intros ap ->. rewrite Hcs.
    eexists; exists topics, platforms.
    split; [reflexivity|]. cbn. auto 10.
Qed.

Lemma generateAutopilotConfig_of_valid_witness :
  generateAutopilotConfig no_autopilot_analysis
  = Throw (TypeError
             (js "Cannot read properties of undefined (reading 'enabled')"))
  /\ exists cfg, generateAutopilotConfig sparse_analysis = Ok cfg.
Proof.
  split.
  - destruct (generateAutopilotConfig_of_valid no_autopilot_analysis)
      as [H _]; [vm_compute; reflexivity|].
    exact (H eq_refl).
  - destruct (generateAutopilotConfig_of_valid sparse_analysis)
      as [_ H]; [vm_compute; reflexivity|].
    destruct (H _ eq_refl) as (cfg & _ & _ & Hcfg & _).
    now exists cfg.
Defined.

(* ------------------------------------------------------------------ *)
(** ** The phone sign-in screen *)

Lemma formatPhoneNumber_digits_form (value : jsstring) :
  formatPhoneNumber value = format_digits (only_digits value).
Proof. reflexivity. Qed.

Lemma only_digits_app (a b : jsstring) :
  only_digits (a ++ b) = only_digits a ++ only_digits b.
Proof. apply filter_app. Qed.

Lemma only_digits_fixed (d : jsstring) :
  Forall (fun c => is_digit c = true) d -> only_digits d = d.
Proof.
  unfold only_digits. induction 1 as [|c d Hc _ IH]; simpl; [reflexivity|].
  now rewrite Hc, IH.
Qed.

Lemma only_digits_all (value : jsstring) :
  Forall (fun c => is_digit c = true) (only_digits value).
Proof.
  apply Forall_forall. intros c H. unfold only_digits in H.
  now apply filter_In in H.
Qed.

Lemma Forall_firstn_of {A} (P : A -> Prop) (n : nat) (l : list A) :
  Forall P l -> Forall P (firstn n l).
Proof.
  intros H. apply Forall_forall. intros x Hx.
  apply In_firstn_In in Hx. revert x Hx. now apply Forall_forall.
Qed.

Lemma Forall_skipn_of {A} (P : A -> Prop) (n : nat) (l : list A) :
  Forall P l -> Forall P (skipn n l).
Proof.
  intros H. rewrite <- (firstn_skipn n l) in H.
  now apply Forall_app in H as [_ H].
Qed.

Lemma firstn_plus {A} (a b : nat) (l : list A) :
  firstn (a + b) l = firstn a l ++ firstn b (skipn a l).
Proof.
  revert l. induction a as [|a IH]; intros l; [reflexivity|].
  destruct l as [|x l]; simpl.
  - now rewrite firstn_nil.
  - now rewrite IH.
Qed.

Section PhoneDigits.
Variable d : jsstring.
Hypothesis all_digits : Forall (fun c => is_digit c = true) d.

Lemma digits_of_format_digits :
  only_digits (format_digits d) = firstn 10 d.
Proof.
  unfold format_digits.
  destruct (List.length d <=? 3)%nat eqn:E3.
  { apply Nat.leb_le in E3.
    rewrite (only_digits_fixed d all_digits), firstn_all2; [reflexivity | lia]. }
  destruct (List.length d <=? 6)%nat eqn:E6.
  { apply Nat.leb_le in E6.
    rewrite !only_digits_app.
    rewrite (only_digits_fixed (firstn 3 d)) by now apply Forall_firstn_of.
    rewrite (only_digits_fixed (skipn 3 d)) by now apply Forall_skipn_of.
    change (only_digits (js "(")) with (@nil N).
    change (only_digits (js ") ")) with (@nil N).
    cbn [app]. rewrite firstn_skipn, firstn_all2; [reflexivity | lia]. }
  rewrite !only_digits_app.
  rewrite (only_digits_fixed (firstn 3 d)) by now apply Forall_firstn_of.
  rewrite (only_digits_fixed (firstn 3 (skipn 3 d)))
    by now apply Forall_firstn_of, Forall_skipn_of.
  rewrite (only_digits_fixed (firstn 4 (skipn 6 d)))
    by now apply Forall_firstn_of, Forall_skipn_of.
  change (only_digits (js "(")) with (@nil N).
  change (only_digits (js ") ")) with (@nil N).
  change (only_digits (js "-")) with (@nil N).
  cbn [app].
  change 10%nat with (3 + (3 + 4))%nat.
  rewrite (firstn_plus 3 (3 + 4)), (firstn_plus 3 4), skipn_skipn.
  reflexivity.
Qed.

Lemma length_format_digits : (List.length (format_digits d) <= 14)%nat.
Proof.
  unfold format_digits.
  destruct (List.length d <=? 3)%nat eqn:E3.
  { apply Nat.leb_le in E3. lia. }
  destruct (List.length d <=? 6)%nat eqn:E6.
  { apply Nat.leb_le in E6.
    rewrite !length_app, length_firstn, length_skipn.
    change (List.length (js "(")) with 1%nat.
    change (List.length (js ") ")) with 2%nat. lia. }
  rewrite !length_app, !length_firstn, !length_skipn.
  change (List.length (js "(")) with 1%nat.
  change (List.length (js ") ")) with 2%nat.
  change (List.length (js "-")) with 1%nat. lia.
Qed.

Lemma format_digits_firstn_10 : format_digits (firstn 10 d) = format_digits d.
Proof.
  unfold format_digits. rewrite length_firstn.
  destruct (List.length d <=? 3)%nat eqn:E3.
  { apply Nat.leb_le in E3.
    rewrite firstn_all2 by lia.
    replace (Nat.min 10 (List.length d) <=? 3)%nat with true
      by (symmetry; apply Nat.leb_le; lia).
    reflexivity. }
  apply Nat.leb_gt in E3.
  replace (Nat.min 10 (List.length d) <=? 3)%nat with false
    by (symmetry; apply Nat.leb_gt; lia).
  destruct (List.length d <=? 6)%nat eqn:E6.
  { apply Nat.leb_le in E6.
    replace (Nat.min 10 (List.length d) <=? 6)%nat with true
      by (symmetry; apply Nat.leb_le; lia).
    rewrite (firstn_all2 (n := 10) d) by lia. reflexivity. }
  apply Nat.leb_gt in E6.
  replace (Nat.min 10 (List.length d) <=? 6)%nat with false
    by (symmetry; apply Nat.leb_gt; lia).
  rewrite firstn_firstn. change (Nat.min 3 10) with 3%nat.
  rewrite !skipn_firstn_comm. cbn [Nat.sub].
  rewrite !firstn_firstn. reflexivity.
Qed.

End PhoneDigits.

(** X23: the formatted phone number has at most 14 characters, and its
    digits are the first ten digits of the input, in order: formatting adds
    punctuation and drops everything else. *)
Theorem formatPhoneNumber_keeps_ten_digits (value : jsstring) :
  (List.length (formatPhoneNumber value) <= 14)%nat
  /\ only_digits (formatPhoneNumber value) = firstn 10 (only_digits value).
Proof.
  rewrite formatPhoneNumber_digits_form. split.
  - apply length_format_digits.
  - apply digits_of_format_digits, only_digits_all.
Qed.

(** X24: formatting is idempotent: the formatted number, fed back to
    formatPhoneNumber (as the text field does on every keystroke), is
    returned unchanged. *)
Theorem formatPhoneNumber_idempotent (value : jsstring) :
  formatPhoneNumber (formatPhoneNumber value) = formatPhoneNumber value.
Proof.
  rewrite (formatPhoneNumber_digits_form (formatPhoneNumber value)).
  rewrite (formatPhoneNumber_digits_form value).
  rewrite (digits_of_format_digits _ (only_digits_all value)).
  apply format_digits_firstn_10.
Qed.

(** X25: with the formatted input as the state of the screen, the request
    for a code is allowed exactly when the input holds at least ten digits,
    and the number sent is then +1 followed by the first ten of them. *)
Theorem request_otp_allowed_iff (value : jsstring) :
  (request_otp_allowed (formatPhoneNumber value) = true
   <-> (10 <= List.length (only_digits value))%nat)
  /\ getRawPhoneNumber (formatPhoneNumber value)
     = js "+1" ++ firstn 10 (only_digits value).
Proof.
  assert (Hraw : getRawPhoneNumber (formatPhoneNumber value)
                 = js "+1" ++ firstn 10 (only_digits value)).
  { unfold getRawPhoneNumber. rewrite formatPhoneNumber_digits_form.
    now rewrite (digits_of_format_digits _ (only_digits_all value)). }
  split; [|exact Hraw].
  unfold request_otp_allowed. rewrite Hraw. unfold js_length.
  rewrite length_app, length_firstn.
  change (List.length (js "+1")) with 2%nat.
  rewrite negb_true_iff, N.ltb_ge. lia.
Qed.

(* ------------------------------------------------------------------ *)
(** ** The six boxes of the verification code *)

Lemma array_set_length (arr : otp_array) (i : nat) (v : jsstring) :
  (i < List.length arr)%nat ->
  List.length (array_set arr i v) = List.length arr.
Proof.
  revert i. induction arr as [|x arr IH]; intros i Hi; simpl in Hi; [lia|].
  destruct i as [|i]; simpl; [reflexivity|].
  rewrite IH; [reflexivity | lia].
Qed.

Lemma array_set_app (pre : otp_array) (x : option jsstring)
    (rest : otp_array) (v : jsstring) :
  array_set (pre ++ x :: rest) (List.length pre) v = pre ++ Some v :: rest.
Proof.
  induction pre as [|y pre IH]; simpl; [reflexivity|]. now rewrite IH.
Qed.

Lemma paste_digits_length (digits : jsstring) :
  forall (arr : otp_array) (index : nat),
    List.length arr = 6%nat ->
    List.length (paste_digits arr index digits) = 6%nat.
Proof.
  induction digits as [|d digits IH]; intros arr index H; simpl;
    [exact H|].
  apply IH. destruct (index <? 6)%nat eqn:E; [|exact H].
  apply Nat.ltb_lt in E. rewrite array_set_length; [exact H | lia].
Qed.

Lemma paste_digits_at (digits : jsstring) :
  forall (pre old post : otp_array),
    List.length old = List.length digits ->
    (List.length pre + List.length digits <= 6)%nat ->
    paste_digits (pre ++ old ++ post) (List.length pre) digits
    = pre ++ map digit_box digits ++ post.
Proof.
  induction digits as [|d digits IH]; intros pre old post Hold Hfit.
  - destruct old; [reflexivity | discriminate].
  - destruct old as [|x old]; [discriminate|].
    simpl in Hold, Hfit. injection Hold as Hold.
    cbn [paste_digits].
    replace (List.length pre <? 6)%nat with true
      by (symmetry; apply Nat.ltb_lt; lia).
    change ((x :: old) ++ post) with (x :: (old ++ post)).
    rewrite array_set_app.
    change (pre ++ Some [d] :: old ++ post)
      with (pre ++ [digit_box d] ++ (old ++ post)).
    rewrite app_assoc.
    replace (S (List.length pre)) with (List.length (pre ++ [digit_box d]))
      by (rewrite length_app; simpl; lia).
    rewrite IH; [| exact Hold | rewrite length_app; simpl; lia].
    rewrite <- app_assoc. reflexivity.
Qed.

Lemma otp_code_of_digit_boxes (digits : jsstring) :
  otp_code (map digit_box digits) = digits.
Proof.
  unfold otp_code. induction digits as [|d digits IH]; simpl;
    [reflexivity|].
  now rewrite IH.
Qed.

Lemma only_digits_length (value : jsstring) :
  (List.length (only_digits value) <= List.length value)%nat.
Proof. apply filter_length_le. Qed.

(** X26: handleOtpChange keeps the six boxes: for any state of six boxes,
    any text and any box index below 6, the new state has six boxes, typed
    or pasted. *)
Theorem handleOtpChange_keeps_six_boxes (otpCode : otp_array)
    (value : jsstring) (index : nat) :
  List.length otpCode = 6%nat ->
  (index < 6)%nat ->
  List.length (fst (handleOtpChange otpCode value index)) = 6%nat.
Proof.
  intros H Hi. unfold handleOtpChange.
  destruct (1 <? List.length value)%nat; cbn [fst].
  - now apply paste_digits_length.
  - rewrite array_set_length; [exact H | lia].
Qed.

Lemma handleOtpChange_keeps_six_boxes_witness :
  List.length (fst (handleOtpChange empty_boxes (js "12-34") 4)) = 6%nat.
Proof.
  apply handleOtpChange_keeps_six_boxes; [reflexivity | vm_compute; lia].
Defined.

(** X27: a paste that fits: when the text has more than one character and
    its digits (at most the first six) fit between the box [index] and the
    sixth box, handleOtpChange replaces exactly the boxes they cover, one
    digit per box, leaves the boxes before and after as they were, and moves
    the focus to the box after the last digit, or to the sixth box. *)
Theorem handleOtpChange_paste (pre old post : otp_array) (value : jsstring) :
  (1 < List.length value)%nat ->
  List.length old = List.length (firstn 6 (only_digits value)) ->
  (List.length pre + List.length old <= 6)%nat ->
  handleOtpChange (pre ++ old ++ post) value (List.length pre)
  = (pre ++ map digit_box (firstn 6 (only_digits value)) ++ post,
     Some (Nat.min (List.length pre + List.length old) 5)).
Proof.
  intros Hv Hold Hfit. unfold handleOtpChange.
  replace (1 <? List.length value)%nat with true
    by (symmetry; now apply Nat.ltb_lt).
  rewrite paste_digits_at; [| exact Hold | lia].
  now rewrite <- Hold.
Qed.

Lemma handleOtpChange_paste_witness :
  handleOtpChange
    ([Some (js "7"); Some (js "7")] ++ [Some []; Some []; Some []]
     ++ [Some (js "9")])
    (js "4 5-6") 2
  = ([Some (js "7"); Some (js "7"); Some (js "4"); Some (js "5");
      Some (js "6"); Some (js "9")], Some 5%nat).
Proof.
  exact (handleOtpChange_paste
           [Some (js "7"); Some (js "7")] [Some []; Some []; Some []]
           [Some (js "9")] (js "4 5-6")
           ltac:(vm_compute; lia) eq_refl ltac:(vm_compute; lia)).
Defined.

(** X28: pasting a text with at least six digits into the first of six
    boxes fills the boxes with its first six digits, whatever they held;
    the code that handleVerifyOtp joins is those six digits and passes its
    length check. *)
Theorem handleOtpChange_paste_full_code (otpCode : otp_array)
    (value : jsstring) :
  List.length otpCode = 6%nat ->
  (6 <= List.length (only_digits value))%nat ->
  let newOtp := fst (handleOtpChange otpCode value 0) in
  newOtp = map digit_box (firstn 6 (only_digits value))
  /\ otp_code newOtp = firstn 6 (only_digits value)
  /\ verify_otp_allowed newOtp = true.
Proof.
  intros Hlen Hd newOtp.
  assert (Hnew : newOtp = map digit_box (firstn 6 (only_digits value))).
  { subst newOtp. unfold handleOtpChange.
    pose proof (only_digits_length value) as Hle.
    replace (1 <? List.length value)%nat with true
      by (symmetry; apply Nat.ltb_lt; lia).
    cbn [fst].
    pose proof (paste_digits_at (firstn 6 (only_digits value))
                  [] otpCode []) as P.
    cbn [app List.length] in P. rewrite !app_nil_r in P.
    apply P; rewrite length_firstn; lia. }
  split; [exact Hnew|]. rewrite Hnew.
  unfold verify_otp_allowed. rewrite otp_code_of_digit_boxes.
  split; [reflexivity|].
  rewrite length_firstn. apply Nat.eqb_eq. lia.
Qed.

Lemma handleOtpChange_paste_full_code_witness :
  otp_code (fst (handleOtpChange empty_boxes (js "Code: 123-456 (valid)") 0))
  = js "123456".
Proof.
  destruct (handleOtpChange_paste_full_code empty_boxes
              (js "Code: 123-456 (valid)") eq_refl
              ltac:(vm_compute; lia)) as (_ & H & _).
  exact H.
Defined.
